(** * The persistence layer of ReMinder's gin-server

    A shallow embedding of [server/internal/db]: the error sentinels of
    [db.go], the relational collection of [sqlite.go] with its reflective
    field mapper, and the document collection of [firestore.go].

    Conventions of the embedding.
    - A Go [string] is a Rocq [string], a sequence of bytes.  Where the source
      iterates over runes ([camelToSnake]) the embedding iterates over bytes:
      the two agree on ASCII text, which is what Go field names are in this
      repository.
    - A value handed around as [interface{}] is a [GoValue].  Floating-point
      fields, fields of interface type, maps and embedded structs are outside
      the universe of values.
    - A Go function returning [(T, error)] returns a [Result T]; a run-time
      panic of the reflect package is the third outcome, [Panic].
    - State that the source keeps in package variables or behind pointers (the
      field-name cache, the connection, the document store) is passed
      explicitly. *)

From Stdlib Require Import ZArith Lia Ascii.
From stdpp Require Import gmap strings list fin_maps.

(* ===================================================================== *)
(** ** Strings *)
(* ===================================================================== *)

Module Str.

(** [unicode.IsUpper] and [unicode.ToLower], on ASCII. *)
Definition IsUpper (r : ascii) : bool :=
  let n := Ascii.nat_of_ascii r in (65 <=? n)%nat && (n <=? 90)%nat.

Definition ToLower (r : ascii) : ascii :=
  if IsUpper r then Ascii.ascii_of_nat (Ascii.nat_of_ascii r + 32) else r.

Definition isASCII (r : ascii) : bool := (Ascii.nat_of_ascii r <? 128)%nat.

Fixpoint allChars (p : ascii -> bool) (s : string) : bool :=
  match s with
  | EmptyString => true
  | String c s' => p c && allChars p s'
  end.

Definition eqb (a b : string) : bool := bool_decide (a = b).

(** [strings.Join]. *)
Fixpoint Join (elems : list string) (sep : string) : string :=
  match elems with
  | [] => ""
  | [x] => x
  | x :: rest => x +:+ sep +:+ Join rest sep
  end.

(** [strings.HasPrefix]. *)
Fixpoint HasPrefix (s prefix : string) : bool :=
  match prefix, s with
  | EmptyString, _ => true
  | String p prefix', String c s' => bool_decide (p = c) && HasPrefix s' prefix'
  | String _ _, EmptyString => false
  end.

(** [strings.Contains]. *)
Fixpoint Contains (s substr : string) : bool :=
  HasPrefix s substr ||
  match s with
  | EmptyString => false
  | String _ s' => Contains s' substr
  end.

End Str.

(* ===================================================================== *)
(** ** db.go: the error sentinels *)
(* ===================================================================== *)

Inductive Sentinel :=
| ErrDatabaseConnection
| ErrNotFound
| ErrDuplicate
| ErrInvalidInput
| ErrInternal
| ErrNotImplemented.

Global Instance Sentinel_eq_dec : EqDecision Sentinel.
Proof. solve_decision. Defined.

Definition sentinelText (s : Sentinel) : string :=
  match s with
  | ErrDatabaseConnection => "database connection error"
  | ErrNotFound => "entity not found"
  | ErrDuplicate => "entity already exists"
  | ErrInvalidInput => "invalid input"
  | ErrInternal => "internal database error"
  | ErrNotImplemented => "method not implemented"
  end.

(** A Go [error] value, by the way it was made. *)
Inductive GoError :=
| Bare (s : Sentinel)                   (* return ErrNotFound *)
| Wrapf (s : Sentinel) (detail : string) (* fmt.Errorf("%w: ...", s, ...) *)
| Adhoc (msg : string)                  (* errors.New, fmt.Errorf without %w *)
| Native (msg : string).                (* an error of the driver or client, as is *)

(** [err.Error()]. *)
Definition errorText (e : GoError) : string :=
  match e with
  | Bare s => sentinelText s
  | Wrapf s detail => sentinelText s +:+ ": " +:+ detail
  | Adhoc msg => msg
  | Native msg => msg
  end.

(** [errors.Is(err, target)] for a sentinel target. *)
Definition errorsIs (e : GoError) (target : Sentinel) : bool :=
  match e with
  | Bare s | Wrapf s _ => bool_decide (s = target)
  | Adhoc _ | Native _ => false
  end.

(** The kinds of the error taxonomy: connection failure, not found, duplicate,
    invalid input, internal. *)
Definition taxonomy : list Sentinel :=
  [ErrNotFound; ErrDuplicate; ErrInvalidInput; ErrInternal; ErrDatabaseConnection].

Definition isTaxonomyError (e : GoError) : bool :=
  existsb (errorsIs e) taxonomy.

Inductive Result (A : Type) :=
| Ok (a : A)
| Err (e : GoError)
| Panic (msg : string).
Arguments Ok {A} a.
Arguments Err {A} e.
Arguments Panic {A} msg.

Definition bindR {A B} (r : Result A) (k : A -> Result B) : Result B :=
  match r with
  | Ok a => k a
  | Err e => Err e
  | Panic m => Panic m
  end.

Notation "x <- r ;;; k" := (bindR r (fun x => k))
  (at level 100, r at next level, right associativity).

(* ===================================================================== *)
(** ** Values seen through package reflect *)
(* ===================================================================== *)

(** A [time.Time]: the instant, counted from the zero instant, and the
    location pointer ([None] is the nil pointer, meaning UTC). *)
Record Time := mkTime { sinceZero : Z; loc : option string }.

Global Instance Time_eq_dec : EqDecision Time.
Proof. solve_decision. Defined.

Definition zeroTime : Time := mkTime 0 None.

(** [t.IsZero()]: the instant alone decides. *)
Definition IsZero (t : Time) : bool := (sinceZero t =? 0)%Z.

Inductive IntKind := Int | Int8 | Int16 | Int32 | Int64.
Inductive UintKind := Uint | Uint8 | Uint16 | Uint32 | Uint64.

Definition intBits (k : IntKind) : Z :=
  match k with Int8 => 8 | Int16 => 16 | Int32 => 32 | Int | Int64 => 64 end.
Definition uintBits (k : UintKind) : Z :=
  match k with Uint8 => 8 | Uint16 => 16 | Uint32 => 32 | Uint | Uint64 => 64 end.

(** Conversion of an [int64] to a signed or unsigned integer of [bits] bits
    keeps the low bits. *)
Definition wrapUnsigned (bits n : Z) : Z := n mod 2 ^ bits.
Definition wrapSigned (bits n : Z) : Z :=
  (n + 2 ^ (bits - 1)) mod 2 ^ bits - 2 ^ (bits - 1).

(** A struct field as [reflect.StructField] shows it: the name and the tag,
    the tag already split into its [key:"value"] pairs. *)
Record StructField := mkField { Name : string; Tag : list (string * string) }.

(** [field.Tag.Get(key)]: the value of the first pair with that key, the empty
    string when there is none. *)
Fixpoint TagGet (tag : list (string * string)) (key : string) : string :=
  match tag with
  | [] => ""
  | (k, v) :: rest => if bool_decide (k = key) then v else TagGet rest key
  end.

(** A field is exported when its name starts with an upper-case letter. *)
Definition IsExported (f : StructField) : bool :=
  match Name f with
  | EmptyString => false
  | String r _ => Str.IsUpper r
  end.

Set Warnings "-register-all".
Inductive GoValue :=
| VNil                                            (* the nil interface *)
| VBool (b : bool)
| VInt (k : IntKind) (n : Z)
| VUint (k : UintKind) (n : Z)
| VString (s : string)
| VBytes (b : option string)                      (* []byte, None is nil *)
| VTime (t : Time)
| VPtr (p : option GoValue)                       (* a pointer, None is nil *)
| VSlice (elem : GoValue) (xs : option (list GoValue))
    (* a slice other than []byte; [elem] is the zero value of its element
       type, which stands for that type *)
| VStruct (fields : list (StructField * GoValue)).

Inductive Kind :=
| KInvalid | KBool | KInt (k : IntKind) | KUint (k : UintKind) | KString
| KSlice | KPtr | KStruct.

Global Instance IntKind_eq_dec : EqDecision IntKind.
Proof. solve_decision. Defined.
Global Instance UintKind_eq_dec : EqDecision UintKind.
Proof. solve_decision. Defined.
Global Instance Kind_eq_dec : EqDecision Kind.
Proof. solve_decision. Defined.

(** [reflect.ValueOf(x).Kind()]. *)
Definition kindOf (x : GoValue) : Kind :=
  match x with
  | VNil => KInvalid
  | VBool _ => KBool
  | VInt k _ => KInt k
  | VUint k _ => KUint k
  | VString _ => KString
  | VBytes _ => KSlice
  | VTime _ => KStruct
  | VPtr _ => KPtr
  | VSlice _ _ => KSlice
  | VStruct _ => KStruct
  end.

(** [reflect.DeepEqual(x, reflect.Zero(reflect.TypeOf(x)).Interface())] for a
    non-nil [x].  A non-nil empty slice is not deeply equal to the nil slice. *)
Fixpoint deepEqualZero (x : GoValue) : bool :=
  match x with
  | VNil => true
  | VBool b => negb b
  | VInt _ n => (n =? 0)%Z
  | VUint _ n => (n =? 0)%Z
  | VString s => bool_decide (s = "")
  | VBytes b => bool_decide (b = None)
  | VTime t => bool_decide (t = zeroTime)
  | VPtr p => match p with None => true | Some _ => false end
  | VSlice _ xs => match xs with None => true | Some _ => false end
  | VStruct fields =>
      (fix all (l : list (StructField * GoValue)) : bool :=
         match l with
         | [] => true
         | (_, v) :: l' => deepEqualZero v && all l'
         end) fields
  end.

(** The zero value of the type of [x]. *)
Fixpoint zeroOf (x : GoValue) : GoValue :=
  match x with
  | VNil => VNil
  | VBool _ => VBool false
  | VInt k _ => VInt k 0
  | VUint k _ => VUint k 0
  | VString _ => VString ""
  | VBytes _ => VBytes None
  | VTime _ => VTime zeroTime
  | VPtr _ => VPtr None
  | VSlice elem _ => VSlice elem None
  | VStruct fields =>
      VStruct ((fix all (l : list (StructField * GoValue)) :=
                  match l with
                  | [] => []
                  | (f, v) :: l' => (f, zeroOf v) :: all l'
                  end) fields)
  end.

Definition unexportedField : string :=
  "reflect.Value.Interface: cannot return value obtained from unexported field or method".

(** [fieldValue.Interface()]: panics on a field that is not exported. *)
Definition Interface (field : StructField) (fieldValue : GoValue) : Result GoValue :=
  if IsExported field then Ok fieldValue else Panic unexportedField.

(** [fieldValue.CanSet()] for a field reached through a pointer to the struct. *)
Definition CanSet (field : StructField) : bool := IsExported field.

(** [v.FieldByName(name)]: the first field of that name. *)
Fixpoint FieldByName (fields : list (StructField * GoValue)) (name : string)
  : option (StructField * GoValue) :=
  match fields with
  | [] => None
  | (f, v) :: rest =>
      if bool_decide (Name f = name) then Some (f, v) else FieldByName rest name
  end.

(* ===================================================================== *)
(** ** sqlite.go: the field mapper *)
(* ===================================================================== *)

(** [isZeroOfUnderlyingType]: [reflect.Zero] panics on the nil type, which is
    the type of the nil interface. *)
Definition isZeroOfUnderlyingType (x : GoValue) : Result bool :=
  match x with
  | VNil => Panic "reflect: Zero(nil)"
  | _ => Ok (deepEqualZero x)
  end.

(** [fieldNameCache], the package-level [sync.Map]. *)
Abbreviation Cache := (gmap string string).

(** The loop of [camelToSnake]: [i] is the index of the current rune and
    [result] the contents of the [strings.Builder]. *)
Fixpoint camelToSnakeLoop (i : nat) (s : string) (result : string) : string :=
  match s with
  | EmptyString => result
  | String r rest =>
      let result :=
        if Str.IsUpper r then
          let result := if (0 <? i)%nat then result +:+ "_" else result in
          result +:+ String (Str.ToLower r) ""
        else result +:+ String r "" in
      camelToSnakeLoop (S i) rest result
  end.

Definition camelToSnake (s : string) (cache : Cache) : string * Cache :=
  match cache !! s with
  | Some cached => (cached, cache)
  | None =>
      let snakeCase := camelToSnakeLoop 0 s "" in
      (snakeCase, <[s := snakeCase]> cache)
  end.

(** The storage identifier of a field: the [db] tag, or else the converted
    field name.  Shared by the insert, update and row-mapping loops. *)
Definition columnNameOf (field : StructField) (cache : Cache) : string * Cache :=
  let columnName := TagGet (Tag field) "db" in
  if bool_decide (columnName = "") then camelToSnake (Name field) cache
  else (columnName, cache).

(** What [extractFieldsForInsert] returns besides the error. *)
Record InsertFields := mkInsertFields {
  columns : list string;
  placeholders : list string;
  values : list GoValue;
  id : string
}.

Fixpoint extractFieldsForInsertLoop (primaryKey : string)
    (fields : list (StructField * GoValue)) (acc : InsertFields) (cache : Cache)
  : Result InsertFields * Cache :=
  match fields with
  | [] => (Ok acc, cache)
  | (field, fieldValue) :: rest =>
      match Interface field fieldValue with
      | Panic m => (Panic m, cache)
      | Err e => (Err e, cache)
      | Ok x =>
          match isZeroOfUnderlyingType x with
          | Panic m => (Panic m, cache)
          | Err e => (Err e, cache)
          | Ok true => extractFieldsForInsertLoop primaryKey rest acc cache
          | Ok false =>
              let '(columnName, cache) := columnNameOf field cache in
              let id :=
                if bool_decide (columnName = primaryKey) then
                  match x with VString str => str | _ => id acc end
                else id acc in
              extractFieldsForInsertLoop primaryKey rest
                (mkInsertFields (columns acc ++ [columnName])
                                (placeholders acc ++ ["?"])
                                (values acc ++ [x]) id)
                cache
          end
      end
  end.

(** [reflect.ValueOf(data)], followed through one pointer. *)
Definition indirect (data : GoValue) : GoValue :=
  match data with
  | VPtr (Some v) => v
  | VPtr None => VNil
  | _ => data
  end.

Definition extractFieldsForInsert (data : GoValue) (primaryKey : string) (cache : Cache)
  : Result InsertFields * Cache :=
  match indirect data with
  | VStruct fields =>
      extractFieldsForInsertLoop primaryKey fields (mkInsertFields [] [] [] "") cache
  | VTime _ => (Panic unexportedField, cache)
  | _ => (Err (Wrapf ErrInvalidInput "data must be a struct or pointer to struct"), cache)
  end.

Fixpoint extractFieldsForUpdateLoop (fields : list (StructField * GoValue))
    (updateFields : list string) (values : list GoValue) (cache : Cache)
  : Result (list string * list GoValue) * Cache :=
  match fields with
  | [] => (Ok (updateFields, values), cache)
  | (field, fieldValue) :: rest =>
      match Interface field fieldValue with
      | Panic m => (Panic m, cache)
      | Err e => (Err e, cache)
      | Ok x =>
          match isZeroOfUnderlyingType x with
          | Panic m => (Panic m, cache)
          | Err e => (Err e, cache)
          | Ok true => extractFieldsForUpdateLoop rest updateFields values cache
          | Ok false =>
              let '(columnName, cache) := columnNameOf field cache in
              if bool_decide (columnName = "id") then
                extractFieldsForUpdateLoop rest updateFields values cache
              else
                extractFieldsForUpdateLoop rest
                  (updateFields ++ [columnName +:+ " = ?"]) (values ++ [x]) cache
          end
      end
  end.

(** [now] is the reading of [time.Now().UTC()]. *)
Definition extractFieldsForUpdate (data : GoValue) (now : Time) (cache : Cache)
  : Result (list string * list GoValue) * Cache :=
  match indirect data with
  | VStruct fields =>
      match extractFieldsForUpdateLoop fields [] [] cache with
      | (Ok (updateFields, values), cache) =>
          if bool_decide (is_Some (FieldByName fields "Updated_at")) then
            (Ok (updateFields ++ ["updated_at = ?"], values ++ [VTime now]), cache)
          else if bool_decide (is_Some (FieldByName fields "UpdatedAt")) then
            (Ok (updateFields ++ ["updated_at = ?"], values ++ [VTime now]), cache)
          else (Ok (updateFields, values), cache)
      | r => r
      end
  | VTime _ => (Panic unexportedField, cache)
  | _ => (Err (Wrapf ErrInvalidInput "data must be a struct or pointer to struct"), cache)
  end.

(** A filter, [map[string]interface{}], as the sequence of entries in the
    order in which the [range] loop visits them. *)
Abbreviation Filter := (list (string * GoValue)).

Fixpoint buildWhereClauseLoop (filter : Filter)
    (whereClauses : list string) (values : list GoValue)
  : list string * list GoValue :=
  match filter with
  | [] => (whereClauses, values)
  | (k, v) :: rest =>
      buildWhereClauseLoop rest (whereClauses ++ [k +:+ " = ?"]) (values ++ [v])
  end.

Definition buildWhereClause (filter : Filter) : string * list GoValue :=
  if bool_decide (length filter = 0%nat) then ("", [])
  else
    let '(whereClauses, values) := buildWhereClauseLoop filter [] [] in
    (Str.Join whereClauses " AND ", values).

(** [validateResultType]: the error, if any. *)
Definition validateResultType (result : GoValue) : option GoError :=
  match result with
  | VPtr (Some resultElem) =>
      match kindOf resultElem with
      | KStruct => None
      | _ => Some (Wrapf ErrInvalidInput "result must be a pointer to a struct")
      end
  | _ => Some (Wrapf ErrInvalidInput "result must be a non-nil pointer")
  end.

(* ===================================================================== *)
(** ** The relational engine behind [database/sql]

    The engine and its driver are not part of the repository.  They are
    modelled as far as the collection uses them: tables with declared column
    types, NOT NULL and UNIQUE constraints; the five statement shapes that
    [sqlite.go] formats; the driver's conversion of arguments and of stored
    values.  Column type affinity is not modelled (a stored value keeps the
    storage class it was bound with), nor are defaults and foreign keys.
    Names are compared as they are written.  A query text that is not one of
    the five shapes with identifiers in the places of names is answered with
    a syntax error; what SQLite makes of such a text is not modelled. *)
(* ===================================================================== *)

(** What the relational side takes from outside the repository: the functions
    of package [time] and of the driver that format and parse timestamps, and
    the words that the grammar of the engine reserves. *)
Class Platform := {
  (** the driver's text for a bound [time.Time] *)
  formatTimestamp : Time -> string;
  (** the driver's reading of TEXT in a timestamp column (the zero time when
      the text does not parse) *)
  parseTimestamp : string -> Time;
  (** the driver's reading of an INTEGER in a timestamp column *)
  unixTimestamp : Z -> Time;
  (** [time.Parse(time.RFC3339, s)] *)
  parseRFC3339 : string -> option Time;
  (** whether the engine reserves the word, so that it cannot stand as a name *)
  reservedWord : string -> bool
}.

(** What SQLite stores. *)
Inductive SqlValue :=
| SNull | SInteger (n : Z) | SText (s : string) | SBlob (b : string).

Global Instance SqlValue_eq_dec : EqDecision SqlValue.
Proof. solve_decision. Defined.

(** A [driver.Value]. *)
Inductive DriverValue :=
| DNull
| DInt64 (n : Z)
| DBool (b : bool)
| DBytes (b : option string)
| DString (s : string)
| DTime (t : Time).

(** The declared type of a column, as far as the driver tells types apart. *)
Inductive DeclType := DeclText | DeclInteger | DeclBoolean | DeclTimestamp | DeclBlob.

Record Column := mkColumn {
  cname : string; ctype : DeclType; cnotnull : bool; cunique : bool
}.

Record Table := mkTable { tcols : list Column; trows : list (list SqlValue) }.

(** An open or closed [*sql.DB], with the tables of the file it was opened on. *)
Record SqlDB := mkSqlDB { closed : bool; tables : list (string * Table) }.

(** [*sql.Rows]: column names and declared types, the rows of the result set,
    and the error that [rows.Err()] reports. *)
Record Rows := mkRows {
  rcolumns : list string;
  rtypes : list DeclType;
  rdata : list (list SqlValue);
  rerr : option string
}.

(** [driver.DefaultParameterConverter.ConvertValue]. *)
Fixpoint convertValue (v : GoValue) : string + DriverValue :=
  match v with
  | VNil => inr DNull
  | VBool b => inr (DBool b)
  | VInt _ n => inr (DInt64 n)
  | VUint k n =>
      match k with
      | Uint | Uint64 =>
          if (2 ^ 63 <=? n)%Z
          then inl "uint64 values with high bit set are not supported"
          else inr (DInt64 n)
      | _ => inr (DInt64 n)
      end
  | VString s => inr (DString s)
  | VBytes b => inr (DBytes b)
  | VTime t => inr (DTime t)
  | VPtr None => inr DNull
  | VPtr (Some x) => convertValue x
  | VSlice _ _ => inl "unsupported type, a slice"
  | VStruct _ => inl "unsupported type, a struct"
  end.

Fixpoint convertArgs (args : list GoValue) : string + list DriverValue :=
  match args with
  | [] => inr []
  | a :: rest =>
      match convertValue a with
      | inl msg => inl ("sql: converting argument type: " +:+ msg)
      | inr d =>
          match convertArgs rest with
          | inl msg => inl msg
          | inr ds => inr (d :: ds)
          end
      end
  end.

(** *** The statements and their text *)

Inductive Token :=
| TWord (w : string) | TLParen | TRParen | TComma | TEq | TQuestion | TStar.

Definition punctuation (c : ascii) : option Token :=
  if bool_decide (c = "("%char) then Some TLParen
  else if bool_decide (c = ")"%char) then Some TRParen
  else if bool_decide (c = ","%char) then Some TComma
  else if bool_decide (c = "="%char) then Some TEq
  else if bool_decide (c = "?"%char) then Some TQuestion
  else if bool_decide (c = "*"%char) then Some TStar
  else None.

Definition isSpace (c : ascii) : bool := bool_decide (c = " "%char).

Definition flushWord (cur : string) (ts : list Token) : list Token :=
  if bool_decide (cur = "") then ts else TWord cur :: ts.

Fixpoint lexLoop (s : string) (cur : string) : list Token :=
  match s with
  | EmptyString => flushWord cur []
  | String c rest =>
      if isSpace c then flushWord cur (lexLoop rest "")
      else match punctuation c with
           | Some t => flushWord cur (t :: lexLoop rest "")
           | None => lexLoop rest (cur +:+ String c "")
           end
  end.

Definition lex (s : string) : list Token := lexLoop s "".

Inductive Stmt :=
| SInsert (table : string) (cols : list string) (nparams : nat)
| SSelect (table : string) (keys : list string) (limit1 : bool)
| SCount (table : string) (keys : list string)
| SUpdate (table : string) (cols : list string) (pk : string)
| SDelete (table : string) (pk : string).

Definition isWord (t : Token) (w : string) : bool :=
  match t with TWord w' => bool_decide (w' = w) | _ => false end.

(** [c1, c2, ..., cn)] *)
Fixpoint parseColumns (ts : list Token) : option (list string * list Token) :=
  match ts with
  | TWord c :: TRParen :: rest => Some ([c], rest)
  | TWord c :: TComma :: rest =>
      match parseColumns rest with
      | Some (cs, r) => Some (c :: cs, r)
      | None => None
      end
  | _ => None
  end.

(** [?, ?, ..., ?)] up to the end of the text *)
Fixpoint parseParams (ts : list Token) : option nat :=
  match ts with
  | [TQuestion; TRParen] => Some 1%nat
  | TQuestion :: TComma :: rest =>
      match parseParams rest with
      | Some n => Some (S n)
      | None => None
      end
  | _ => None
  end.

(** [k1 = ? AND ... AND kn = ?], perhaps followed by [LIMIT 1] *)
Fixpoint parseConditions (ts : list Token) : option (list string * bool) :=
  match ts with
  | TWord k :: TEq :: TQuestion :: rest =>
      match rest with
      | [] => Some ([k], false)
      | t :: rest' =>
          if isWord t "AND" then
            match parseConditions rest' with
            | Some (ks, l) => Some (k :: ks, l)
            | None => None
            end
          else if isWord t "LIMIT" then
            match rest' with
            | [t1] => if isWord t1 "1" then Some ([k], true) else None
            | _ => None
            end
          else None
      end
  | _ => None
  end.

(** What may follow the table name of a SELECT. *)
Definition parseTail (ts : list Token) : option (list string * bool) :=
  match ts with
  | [] => Some ([], false)
  | t :: rest =>
      if isWord t "WHERE" then parseConditions rest
      else if isWord t "LIMIT" then
        match rest with
        | [t1] => if isWord t1 "1" then Some ([], true) else None
        | _ => None
        end
      else None
  end.

(** [c1 = ?, ..., cn = ? WHERE pk = ?] *)
Fixpoint parseAssignments (ts : list Token) : option (list string * string) :=
  match ts with
  | TWord c :: TEq :: TQuestion :: rest =>
      match rest with
      | TComma :: rest' =>
          match parseAssignments rest' with
          | Some (cs, pk) => Some (c :: cs, pk)
          | None => None
          end
      | [t; TWord pk; TEq; TQuestion] =>
          if isWord t "WHERE" then Some ([c], pk) else None
      | _ => None
      end
  | _ => None
  end.

Definition parse (ts : list Token) : option Stmt :=
  match ts with
  | t1 :: t2 :: rest =>
      if isWord t1 "INSERT" && isWord t2 "INTO" then
        match rest with
        | TWord table :: TLParen :: rest =>
            match parseColumns rest with
            | Some (cols, t3 :: TLParen :: rest) =>
                if isWord t3 "VALUES" then
                  match parseParams rest with
                  | Some n => Some (SInsert table cols n)
                  | None => None
                  end
                else None
            | _ => None
            end
        | _ => None
        end
      else if isWord t1 "SELECT" then
        match t2, rest with
        | TStar, t3 :: TWord table :: rest =>
            if isWord t3 "FROM" then
              match parseTail rest with
              | Some (keys, l) => Some (SSelect table keys l)
              | None => None
              end
            else None
        | TWord _, TLParen :: TStar :: TRParen :: t3 :: TWord table :: rest =>
            if isWord t2 "COUNT" && isWord t3 "FROM" then
              match parseTail rest with
              | Some (keys, false) => Some (SCount table keys)
              | _ => None
              end
            else None
        | _, _ => None
        end
      else if isWord t1 "UPDATE" then
        match t2, rest with
        | TWord table, t3 :: rest =>
            if isWord t3 "SET" then
              match parseAssignments rest with
              | Some (cols, pk) => Some (SUpdate table cols pk)
              | None => None
              end
            else None
        | _, _ => None
        end
      else if isWord t1 "DELETE" && isWord t2 "FROM" then
        match rest with
        | [TWord table; t3; TWord pk; TEq; TQuestion] =>
            if isWord t3 "WHERE" then Some (SDelete table pk) else None
        | _ => None
        end
      else None
  | _ => None
  end.

(** *** Tables *)

Fixpoint lookupTable (ts : list (string * Table)) (name : string) : option Table :=
  match ts with
  | [] => None
  | (n, t) :: rest => if bool_decide (n = name) then Some t else lookupTable rest name
  end.

Fixpoint storeTable (ts : list (string * Table)) (name : string) (t' : Table)
  : list (string * Table) :=
  match ts with
  | [] => []
  | (n, t) :: rest =>
      if bool_decide (n = name) then (n, t') :: rest
      else (n, t) :: storeTable rest name t'
  end.

Definition columnNames (t : Table) : list string := map cname (tcols t).

Fixpoint columnIndex (names : list string) (c : string) : option nat :=
  match names with
  | [] => None
  | n :: rest =>
      if bool_decide (n = c) then Some 0%nat
      else option_map S (columnIndex rest c)
  end.

(** The value a row holds in column [c]. *)
Definition cell (names : list string) (row : list SqlValue) (c : string) : SqlValue :=
  match columnIndex names c with
  | Some i => nth i row SNull
  | None => SNull
  end.

(** The first of [cols] that the table does not declare. *)
Definition undeclared (names cols : list string) : option string :=
  List.find (fun c => negb (bool_decide (c ∈ names))) cols.

(** SQL equality: NULL equals nothing. *)
Definition sqlEq (a b : SqlValue) : bool :=
  match a, b with
  | SNull, _ | _, SNull => false
  | _, _ => bool_decide (a = b)
  end.

Definition matchesAll (names : list string) (conds : list (string * SqlValue))
    (row : list SqlValue) : bool :=
  forallb (fun '(k, v) => sqlEq (cell names row k) v) conds.

(** The value given to column [c] by an INSERT (the first mention counts). *)
Fixpoint inserted (cols : list string) (args : list SqlValue) (c : string)
  : option SqlValue :=
  match cols, args with
  | col :: cols', a :: args' =>
      if bool_decide (col = c) then Some a else inserted cols' args' c
  | _, _ => None
  end.

(** The value given to column [c] by the SET list of an UPDATE (the rightmost
    mention counts). *)
Fixpoint assigned (cols : list string) (args : list SqlValue) (c : string)
  : option SqlValue :=
  match cols, args with
  | col :: cols', a :: args' =>
      match assigned cols' args' c with
      | Some v => Some v
      | None => if bool_decide (col = c) then Some a else None
      end
  | _, _ => None
  end.

Definition isNull (v : SqlValue) : bool :=
  match v with SNull => true | _ => false end.

Definition notNullViolation (t : Table) (row : list SqlValue) : option string :=
  option_map cname
    (List.find (fun col => cnotnull col && isNull (cell (columnNames t) row (cname col)))
               (tcols t)).

(** A UNIQUE column in which [row] repeats a value of [others], if there is
    one; of several, the first in the order of declaration.  Which of several
    the engine names in its message is its own choice. *)
Definition uniqueViolation (t : Table) (others : list (list SqlValue))
    (row : list SqlValue) : option string :=
  option_map cname
    (List.find
       (fun col =>
          cunique col &&
          existsb (fun r => sqlEq (cell (columnNames t) r (cname col))
                                  (cell (columnNames t) row (cname col))) others)
       (tcols t)).

Definition execInsert (name : string) (t : Table) (cols : list string)
    (args : list SqlValue) : string + (Table * Z) :=
  match undeclared (columnNames t) cols with
  | Some c => inl ("table " +:+ name +:+ " has no column named " +:+ c)
  | None =>
      let row := map (fun col => default SNull (inserted cols args (cname col)))
                     (tcols t) in
      match notNullViolation t row with
      | Some c => inl ("NOT NULL constraint failed: " +:+ name +:+ "." +:+ c)
      | None =>
          match uniqueViolation t (trows t) row with
          | Some c => inl ("UNIQUE constraint failed: " +:+ name +:+ "." +:+ c)
          | None => inr (mkTable (tcols t) (trows t ++ [row]), 1%Z)
          end
      end
  end.

(** The rows of an UPDATE, one after the other: [done] are the rows already
    treated, [todo] the rows still to treat. *)
Fixpoint execUpdateRows (name : string) (t : Table) (cols : list string)
    (args : list SqlValue) (pk : string) (key : SqlValue)
    (done todo : list (list SqlValue)) (affected : Z)
  : string + (list (list SqlValue) * Z) :=
  match todo with
  | [] => inr (done, affected)
  | row :: rest =>
      if sqlEq (cell (columnNames t) row pk) key then
        let row' :=
          map (fun col => default (cell (columnNames t) row (cname col))
                                  (assigned cols args (cname col)))
              (tcols t) in
        match notNullViolation t row' with
        | Some c => inl ("NOT NULL constraint failed: " +:+ name +:+ "." +:+ c)
        | None =>
            match uniqueViolation t (done ++ rest) row' with
            | Some c => inl ("UNIQUE constraint failed: " +:+ name +:+ "." +:+ c)
            | None =>
                execUpdateRows name t cols args pk key (done ++ [row']) rest
                               (affected + 1)%Z
            end
        end
      else execUpdateRows name t cols args pk key (done ++ [row]) rest affected
  end.

Definition execUpdate (name : string) (t : Table) (cols : list string)
    (args : list SqlValue) (pk : string) (key : SqlValue) : string + (Table * Z) :=
  match undeclared (columnNames t) (cols ++ [pk]) with
  | Some c => inl ("no such column: " +:+ c)
  | None =>
      match execUpdateRows name t cols args pk key [] (trows t) 0 with
      | inl msg => inl msg
      | inr (rows, n) => inr (mkTable (tcols t) rows, n)
      end
  end.

Definition execDelete (t : Table) (pk : string) (key : SqlValue)
  : string + (Table * Z) :=
  match undeclared (columnNames t) [pk] with
  | Some c => inl ("no such column: " +:+ c)
  | None =>
      let hit row := sqlEq (cell (columnNames t) row pk) key in
      inr (mkTable (tcols t) (List.filter (fun row => negb (hit row)) (trows t)),
           Z.of_nat (length (List.filter hit (trows t))))
  end.

Definition execSelect (t : Table) (keys : list string) (args : list SqlValue)
  : string + list (list SqlValue) :=
  match undeclared (columnNames t) keys with
  | Some c => inl ("no such column: " +:+ c)
  | None => inr (List.filter (matchesAll (columnNames t) (zip keys args)) (trows t))
  end.

Definition argumentCount (want got : nat) : option string :=
  if bool_decide (want = got) then None
  else Some "sql: wrong number of arguments".

(** A statement that changes the tables; the result is the number of rows
    affected. *)
Definition runExec (stmt : Stmt) (args : list SqlValue) (ts : list (string * Table))
  : string + (list (string * Table) * Z) :=
  match stmt with
  | SInsert name cols n =>
      match lookupTable ts name with
      | None => inl ("no such table: " +:+ name)
      | Some t =>
          if negb (bool_decide (length cols = n)) then
            inl "values for columns: count mismatch"
          else
            match argumentCount n (length args) with
            | Some msg => inl msg
            | None =>
                match execInsert name t cols args with
                | inl msg => inl msg
                | inr (t', k) => inr (storeTable ts name t', k)
                end
            end
      end
  | SUpdate name cols pk =>
      match lookupTable ts name with
      | None => inl ("no such table: " +:+ name)
      | Some t =>
          match argumentCount (S (length cols)) (length args) with
          | Some msg => inl msg
          | None =>
              match execUpdate name t cols (take (length cols) args) pk
                               (nth (length cols) args SNull) with
              | inl msg => inl msg
              | inr (t', k) => inr (storeTable ts name t', k)
              end
          end
      end
  | SDelete name pk =>
      match lookupTable ts name with
      | None => inl ("no such table: " +:+ name)
      | Some t =>
          match argumentCount 1 (length args) with
          | Some msg => inl msg
          | None =>
              match execDelete t pk (nth 0 args SNull) with
              | inl msg => inl msg
              | inr (t', k) => inr (storeTable ts name t', k)
              end
          end
      end
  | SSelect _ _ _ | SCount _ _ => inr (ts, 0%Z)
  end.

(** A statement that returns rows. *)
Definition runQuery (stmt : Stmt) (args : list SqlValue) (ts : list (string * Table))
  : string + Rows :=
  match stmt with
  | SSelect name keys limit1 =>
      match lookupTable ts name with
      | None => inl ("no such table: " +:+ name)
      | Some t =>
          match argumentCount (length keys) (length args) with
          | Some msg => inl msg
          | None =>
              match execSelect t keys args with
              | inl msg => inl msg
              | inr rows =>
                  inr (mkRows (columnNames t) (map ctype (tcols t))
                              (if limit1 then take 1 rows else rows) None)
              end
          end
      end
  | SCount name keys =>
      match lookupTable ts name with
      | None => inl ("no such table: " +:+ name)
      | Some t =>
          match argumentCount (length keys) (length args) with
          | Some msg => inl msg
          | None =>
              match execSelect t keys args with
              | inl msg => inl msg
              | inr rows =>
                  inr (mkRows ["COUNT(*)"] [DeclInteger]
                              [[SInteger (Z.of_nat (length rows))]] None)
              end
          end
      end
  | _ => inl "not a query"
  end.

(** A name of the shape of an identifier: a letter or an underscore, then
    letters, digits and underscores. *)
Definition isLetter (c : ascii) : bool :=
  let n := Ascii.nat_of_ascii c in
  ((65 <=? n)%nat && (n <=? 90)%nat) || ((97 <=? n)%nat && (n <=? 122)%nat)
  || (n =? 95)%nat.

Definition isDigit (c : ascii) : bool :=
  let n := Ascii.nat_of_ascii c in (48 <=? n)%nat && (n <=? 57)%nat.

Definition isIdentifier (s : string) : bool :=
  match s with
  | EmptyString => false
  | String c rest => isLetter c && Str.allChars (fun c => isLetter c || isDigit c) rest
  end.

(** The words of a statement that stand for a table or a column. *)
Definition namesOf (stmt : Stmt) : list string :=
  match stmt with
  | SInsert table cols _ => table :: cols
  | SSelect table keys _ => table :: keys
  | SCount table keys => table :: keys
  | SUpdate table cols pk => table :: pk :: cols
  | SDelete table pk => [table; pk]
  end.

Section Driver.
Context `{Platform}.

(** A word that the engine reads as a name. *)
Definition isName (w : string) : bool := isIdentifier w && negb (reservedWord w).

(** The statement that the engine reads from a query text, if it reads one of
    the five shapes with names in the places of names. *)
Definition prepare (query : string) : option Stmt :=
  match parse (lex query) with
  | Some stmt => if forallb isName (namesOf stmt) then Some stmt else None
  | None => None
  end.

(** How the driver binds an argument. *)
Definition bindValue (d : DriverValue) : SqlValue :=
  match d with
  | DNull => SNull
  | DInt64 n => SInteger n
  | DBool b => SInteger (if b then 1 else 0)
  | DBytes None => SNull
  | DBytes (Some b) => SBlob b
  | DString s => SText s
  | DTime t => SText (formatTimestamp t)
  end.

(** How the driver hands out a stored value of a column of declared type [ty]. *)
Definition readValue (ty : DeclType) (v : SqlValue) : DriverValue :=
  match v with
  | SNull => DNull
  | SInteger n =>
      match ty with
      | DeclTimestamp => DTime (unixTimestamp n)
      | DeclBoolean => DBool (0 <? n)%Z
      | _ => DInt64 n
      end
  | SText s =>
      match ty with
      | DeclTimestamp => DTime (parseTimestamp s)
      | _ => DString s
      end
  | SBlob b => DBytes (Some b)
  end.

(** [db.ExecContext(ctx, query, args...)]: the error or the number of rows
    affected, and the handle afterwards. *)
Definition ExecContext (db : SqlDB) (query : string) (args : list GoValue)
  : (string + Z) * SqlDB :=
  if closed db then (inl "sql: database is closed", db)
  else
    match convertArgs args with
    | inl msg => (inl msg, db)
    | inr ds =>
        match prepare query with
        | None => (inl "syntax error", db)
        | Some stmt =>
            match runExec stmt (map bindValue ds) (tables db) with
            | inl msg => (inl msg, db)
            | inr (ts, k) => (inr k, mkSqlDB (closed db) ts)
            end
        end
    end.

(** [db.QueryContext(ctx, query, args...)]. *)
Definition QueryContext (db : SqlDB) (query : string) (args : list GoValue)
  : string + Rows :=
  if closed db then inl "sql: database is closed"
  else
    match convertArgs args with
    | inl msg => inl msg
    | inr ds =>
        match prepare query with
        | None => inl "syntax error"
        | Some stmt => runQuery stmt (map bindValue ds) (tables db)
        end
    end.

(** [rows.Scan] into a slice of [interface{}]: the current row as the driver
    hands it out. *)
Definition Scan (rows : Rows) (row : list SqlValue) : list DriverValue :=
  zip_with readValue (rtypes rows) row.

End Driver.

(* ===================================================================== *)
(** ** sqlite.go: the relational collection *)
(* ===================================================================== *)

(** The state the relational backend works on: the package-level field-name
    cache and the [conn] field of the one [SQLiteDatabase] ([None] is nil). *)
Record World := mkWorld { fieldNameCache : Cache; conn : option SqlDB }.

Record SQLiteCollection := mkSQLiteCollection {
  tableName : string;
  primaryKey : string
}.

(** [SQLiteDatabase.Collection]. *)
Definition Collection (name : string) : SQLiteCollection :=
  mkSQLiteCollection name "id".

(** [SQLiteDatabase.Close]: closes the handle and leaves [conn] set. *)
Definition Close (w : World) : World :=
  match conn w with
  | Some db => mkWorld (fieldNameCache w) (Some (mkSqlDB true (tables db)))
  | None => w
  end.

(** [SQLiteDatabase.GetConn]. *)
Definition GetConn (w : World) : Result SqlDB :=
  match conn w with
  | None => Err (Adhoc "database connection not established")
  | Some db => Ok db
  end.

Section RelationalCollection.
Context `{Platform}.

(** [setFieldValue]: the field after the call. *)
Definition setFieldValue (fieldValue : GoValue) (val : DriverValue) : GoValue :=
  match fieldValue with
  | VString _ =>
      match val with
      | DString str => VString str
      | DBytes bytes => VString (default "" bytes)
      | _ => fieldValue
      end
  | VInt k _ =>
      match val with
      | DInt64 num => VInt k (wrapSigned (intBits k) num)
      | _ => fieldValue
      end
  | VUint k _ =>
      match val with
      | DInt64 num => VUint k (wrapUnsigned (uintBits k) num)
      | _ => fieldValue
      end
  | VBool _ =>
      match val with
      | DBool b => VBool b
      | DInt64 b => VBool (negb (b =? 0)%Z)
      | _ => fieldValue
      end
  | VTime _ =>
      match val with
      | DString timeStr =>
          match parseRFC3339 timeStr with
          | Some t => VTime t
          | None => fieldValue
          end
      | DBytes timeBytes =>
          match parseRFC3339 (default "" timeBytes) with
          | Some t => VTime t
          | None => fieldValue
          end
      | _ => fieldValue
      end
  | _ => fieldValue
  end.

(** [columnMap], filled from the column names and the scanned values. *)
Fixpoint columnMapOf (columns : list string) (values : list DriverValue)
    (columnMap : gmap string DriverValue) : gmap string DriverValue :=
  match columns, values with
  | column :: columns', v :: values' =>
      columnMapOf columns' values' (<[column := v]> columnMap)
  | _, _ => columnMap
  end.

Fixpoint mapRowToStructLoop (columnMap : gmap string DriverValue)
    (fields : list (StructField * GoValue)) (cache : Cache)
  : list (StructField * GoValue) * Cache :=
  match fields with
  | [] => ([], cache)
  | (field, fieldValue) :: rest =>
      if negb (CanSet field) then
        let '(rest', cache) := mapRowToStructLoop columnMap rest cache in
        ((field, fieldValue) :: rest', cache)
      else
        let '(columnName, cache) := columnNameOf field cache in
        let fieldValue :=
          match columnMap !! columnName with
          | Some DNull => fieldValue
          | Some val => setFieldValue fieldValue val
          | None => fieldValue
          end in
        let '(rest', cache) := mapRowToStructLoop columnMap rest cache in
        ((field, fieldValue) :: rest', cache)
  end.

(** [mapRowToStruct] for the current row [row] of [rows]; [resultElem] is the
    struct that [result] points to, and the value returned is that struct
    after the call.  [rows.Columns] and [rows.Scan] cannot fail on an open
    result set. *)
Definition mapRowToStruct (rows : Rows) (row : list SqlValue)
    (resultElem : GoValue) (cache : Cache) : Result GoValue * Cache :=
  let columns := rcolumns rows in
  let values := Scan rows row in
  let columnMap := columnMapOf columns values ∅ in
  match resultElem with
  | VStruct fields =>
      let '(fields', cache) := mapRowToStructLoop columnMap fields cache in
      (Ok (VStruct fields'), cache)
  | _ => (Ok resultElem, cache)
  end.

Definition withConn (w : World) (cache : Cache) (db : SqlDB) : World :=
  mkWorld cache (Some db).

Definition insertQuery (c : SQLiteCollection) (f : InsertFields) : string :=
  "INSERT INTO " +:+ tableName c +:+ " (" +:+ Str.Join (columns f) ", " +:+
  ") VALUES (" +:+ Str.Join (placeholders f) ", " +:+ ")".

(** [SQLiteCollection.Create]. *)
Definition Create (c : SQLiteCollection) (data : GoValue) (w : World)
  : Result string * World :=
  match GetConn w with
  | Err err => (Err (Wrapf ErrInternal (errorText err)), w)
  | Panic m => (Panic m, w)
  | Ok conn =>
      match extractFieldsForInsert data (primaryKey c) (fieldNameCache w) with
      | (Err err, cache) => (Err err, withConn w cache conn)
      | (Panic m, cache) => (Panic m, withConn w cache conn)
      | (Ok f, cache) =>
          let query := insertQuery c f in
          match ExecContext conn query (values f) with
          | (inl err, conn) =>
              if Str.Contains err "UNIQUE constraint failed"
              then (Err (Wrapf ErrDuplicate err), withConn w cache conn)
              else (Err (Wrapf ErrInternal err), withConn w cache conn)
          | (inr _, conn) => (Ok (id f), withConn w cache conn)
          end
      end
  end.

Definition getByIdQuery (c : SQLiteCollection) : string :=
  "SELECT * FROM " +:+ tableName c +:+ " WHERE " +:+ primaryKey c +:+ " = ?".

(** [SQLiteCollection.GetById]: on success, the struct that [result] points
    to after the call. *)
Definition GetById (c : SQLiteCollection) (id : string) (result : GoValue)
    (w : World) : Result GoValue * World :=
  match GetConn w with
  | Err err => (Err (Wrapf ErrInternal (errorText err)), w)
  | Panic m => (Panic m, w)
  | Ok conn =>
      match validateResultType result with
      | Some err => (Err err, w)
      | None =>
          let query := getByIdQuery c in
          match QueryContext conn query [VString id] with
          | inl err => (Err (Wrapf ErrInternal err), w)
          | inr rows =>
              match rdata rows with
              | [] => (Err (Wrapf ErrNotFound ("id " +:+ id)), w)
              | row :: _ =>
                  match mapRowToStruct rows row (indirect result) (fieldNameCache w) with
                  | (Ok r, cache) => (Ok r, withConn w cache conn)
                  | (Err err, cache) => (Err err, withConn w cache conn)
                  | (Panic m, cache) => (Panic m, withConn w cache conn)
                  end
              end
          end
      end
  end.

Definition selectQuery (c : SQLiteCollection) (whereClause : string) : string :=
  let query := "SELECT * FROM " +:+ tableName c in
  if bool_decide (whereClause = "") then query
  else query +:+ " WHERE " +:+ whereClause.

(** The loop of [GetAllByCondition] over the rows: [slice] holds the elements
    appended so far. *)
Fixpoint appendRows (rows : Rows) (todo : list (list SqlValue)) (elemType : GoValue)
    (slice : list GoValue) (cache : Cache) : Result (list GoValue) * Cache :=
  match todo with
  | [] => (Ok slice, cache)
  | row :: rest =>
      match mapRowToStruct rows row (zeroOf elemType) cache with
      | (Ok newElem, cache) => appendRows rows rest elemType (slice ++ [newElem]) cache
      | (Err err, cache) => (Err err, cache)
      | (Panic m, cache) => (Panic m, cache)
      end
  end.

(** [SQLiteCollection.GetAllByCondition]: on success, the slice that [results]
    points to after the call. *)
Definition GetAllByCondition (c : SQLiteCollection) (filter : Filter)
    (results : GoValue) (w : World) : Result GoValue * World :=
  match GetConn w with
  | Err err => (Err (Wrapf ErrInternal (errorText err)), w)
  | Panic m => (Panic m, w)
  | Ok conn =>
      match results with
      | VPtr (Some sliceValue) =>
          match sliceValue with
          | VSlice elemType _ =>
              match kindOf elemType with
              | KStruct =>
                  let '(whereClause, values) := buildWhereClause filter in
                  let query := selectQuery c whereClause in
                  match QueryContext conn query values with
                  | inl err => (Err (Wrapf ErrInternal err), w)
                  | inr rows =>
                      match appendRows rows (rdata rows) elemType [] (fieldNameCache w) with
                      | (Ok slice, cache) =>
                          match rerr rows with
                          | Some err => (Err (Wrapf ErrInternal err), withConn w cache conn)
                          | None => (Ok (VSlice elemType (Some slice)), withConn w cache conn)
                          end
                      | (Err err, cache) => (Err err, withConn w cache conn)
                      | (Panic m, cache) => (Panic m, withConn w cache conn)
                      end
                  end
              | _ => (Err (Wrapf ErrInvalidInput "slice elements must be structs"), w)
              end
          | VBytes _ => (Err (Wrapf ErrInvalidInput "slice elements must be structs"), w)
          | _ => (Err (Wrapf ErrInvalidInput "results must be a pointer to a slice"), w)
          end
      | _ => (Err (Wrapf ErrInvalidInput "results must be a non-nil pointer"), w)
      end
  end.

(** [SQLiteCollection.GetOne]. *)
Definition GetOne (c : SQLiteCollection) (filter : Filter) (result : GoValue)
    (w : World) : Result GoValue * World :=
  match GetConn w with
  | Err err => (Err (Wrapf ErrInternal (errorText err)), w)
  | Panic m => (Panic m, w)
  | Ok conn =>
      match validateResultType result with
      | Some err => (Err err, w)
      | None =>
          let '(whereClause, values) := buildWhereClause filter in
          let query := selectQuery c whereClause +:+ " LIMIT 1" in
          match QueryContext conn query values with
          | inl err => (Err (Wrapf ErrInternal err), w)
          | inr rows =>
              match rdata rows with
              | [] => (Err (Bare ErrNotFound), w)
              | row :: _ =>
                  match mapRowToStruct rows row (indirect result) (fieldNameCache w) with
                  | (Ok r, cache) =>
                      match rerr rows with
                      | Some err => (Err (Native err), withConn w cache conn)
                      | None => (Ok r, withConn w cache conn)
                      end
                  | (Err err, cache) => (Err err, withConn w cache conn)
                  | (Panic m, cache) => (Panic m, withConn w cache conn)
                  end
              end
          end
      end
  end.

Definition updateQuery (c : SQLiteCollection) (updateFields : list string) : string :=
  "UPDATE " +:+ tableName c +:+ " SET " +:+ Str.Join updateFields ", " +:+
  " WHERE " +:+ primaryKey c +:+ " = ?".

(** [SQLiteCollection.UpdateById]; [now] is the reading of the clock. *)
Definition UpdateById (c : SQLiteCollection) (id : string) (data : GoValue)
    (now : Time) (w : World) : Result unit * World :=
  match GetConn w with
  | Err err => (Err (Wrapf ErrInternal (errorText err)), w)
  | Panic m => (Panic m, w)
  | Ok conn =>
      match extractFieldsForUpdate data now (fieldNameCache w) with
      | (Err err, cache) => (Err err, withConn w cache conn)
      | (Panic m, cache) => (Panic m, withConn w cache conn)
      | (Ok (updateFields, values), cache) =>
          let values := values ++ [VString id] in
          let query := updateQuery c updateFields in
          match ExecContext conn query values with
          | (inl err, conn) =>
              if Str.Contains err "UNIQUE constraint failed"
              then (Err (Wrapf ErrDuplicate err), withConn w cache conn)
              else (Err (Wrapf ErrInternal err), withConn w cache conn)
          | (inr rowsAffected, conn) =>
              if (rowsAffected =? 0)%Z
              then (Err (Wrapf ErrNotFound ("id " +:+ id)), withConn w cache conn)
              else (Ok tt, withConn w cache conn)
          end
      end
  end.

Definition deleteQuery (c : SQLiteCollection) : string :=
  "DELETE FROM " +:+ tableName c +:+ " WHERE " +:+ primaryKey c +:+ " = ?".

(** [SQLiteCollection.DeleteById]. *)
Definition DeleteById (c : SQLiteCollection) (id : string) (w : World)
  : Result unit * World :=
  match GetConn w with
  | Err err => (Err (Wrapf ErrInternal (errorText err)), w)
  | Panic m => (Panic m, w)
  | Ok conn =>
      let query := deleteQuery c in
      match ExecContext conn query [VString id] with
      | (inl err, conn) =>
          (Err (Wrapf ErrInternal err), withConn w (fieldNameCache w) conn)
      | (inr rowsAffected, conn) =>
          if (rowsAffected =? 0)%Z
          then (Err (Wrapf ErrNotFound ("id " +:+ id)), withConn w (fieldNameCache w) conn)
          else (Ok tt, withConn w (fieldNameCache w) conn)
      end
  end.

Definition countQuery (c : SQLiteCollection) (whereClause : string) : string :=
  let query := "SELECT COUNT(*) FROM " +:+ tableName c in
  if bool_decide (whereClause = "") then query
  else query +:+ " WHERE " +:+ whereClause.

(** [SQLiteCollection.Count]. *)
Definition Count (c : SQLiteCollection) (filter : Filter) (w : World)
  : Result Z * World :=
  match GetConn w with
  | Err err => (Err (Wrapf ErrInternal (errorText err)), w)
  | Panic m => (Panic m, w)
  | Ok conn =>
      let '(whereClause, values) := buildWhereClause filter in
      let query := countQuery c whereClause in
      match QueryContext conn query values with
      | inl err => (Err (Wrapf ErrInternal err), w)
      | inr rows =>
          match rdata rows with
          | [] => (Err (Wrapf ErrInternal "sql: no rows in result set"), w)
          | row :: _ =>
              match Scan rows row with
              | [DInt64 count] => (Ok count, w)
              | _ => (Err (Wrapf ErrInternal "sql: Scan error on column index 0"), w)
              end
          end
      end
  end.

End RelationalCollection.

(* ===================================================================== *)
(** ** The document store behind the Firestore client

    The client library and the service are not part of the repository.  The
    store maps a collection name and a document identifier to a document, a
    map from labels to values.  What the library decides on its own is taken
    as a parameter. *)
(* ===================================================================== *)

Abbreviation Document := (gmap string GoValue).

Class FirestoreLib := {
  (** [snapshot.DataTo(p)]: the value [p] points to afterwards, or the error *)
  DataTo : Document -> GoValue -> string + GoValue;
  (** whether a stored value satisfies [== v] in a query *)
  whereEq : GoValue -> GoValue -> bool;
  (** whether the service accepts the text as a document identifier *)
  validDocumentID : string -> bool;
  (** whether the text is a field path *)
  validFieldPath : string -> bool
}.

Inductive Code := CodeNotFound | CodeCanceled | CodeInvalidArgument.

Global Instance Code_eq_dec : EqDecision Code.
Proof. solve_decision. Defined.

(** An error of the client: its status code and its text. *)
Record ClientError := mkClientError { code : Code; message : string }.

(** The [client] field of the one [FirestoreDatabase] ([None] is nil; the
    boolean tells whether the client was closed) and the documents of the
    service. *)
Record FsWorld := mkFsWorld {
  client : option bool;
  documents : gmap string (gmap string Document)
}.

Definition collectionDocs (w : FsWorld) (collectionName : string)
  : gmap string Document :=
  default ∅ (documents w !! collectionName).

Section FirestoreClient.
Context `{FirestoreLib}.

Definition clientClosed : ClientError :=
  mkClientError CodeCanceled "rpc error: code = Canceled desc = grpc: the client connection is closing".

Definition invalidDocument : ClientError :=
  mkClientError CodeInvalidArgument "rpc error: code = InvalidArgument desc = invalid document name".

(** [client.Collection(name).Doc(id).Get(ctx)] on an initialised client. *)
Definition docGet (closed : bool) (w : FsWorld) (collectionName id : string)
  : ClientError + Document :=
  if closed then inl clientClosed
  else if negb (validDocumentID id) then inl invalidDocument
  else match collectionDocs w collectionName !! id with
       | Some doc => inr doc
       | None => inl (mkClientError CodeNotFound
                        ("rpc error: code = NotFound desc = " +:+ id +:+ " not found"))
       end.

(** [client.Collection(name).Doc(id).Set(ctx, data)]. *)
Definition docSet (closed : bool) (w : FsWorld) (collectionName id : string)
    (data : Document) : option ClientError * FsWorld :=
  if closed then (Some clientClosed, w)
  else if negb (validDocumentID id) then (Some invalidDocument, w)
  else (None,
        mkFsWorld (client w)
          (<[collectionName := <[id := data]> (collectionDocs w collectionName)]>
             (documents w))).

(** [client.Collection(name).Doc(id).Delete(ctx)]: deleting a document that
    does not exist is not an error. *)
Definition docDelete (closed : bool) (w : FsWorld) (collectionName id : string)
  : option ClientError * FsWorld :=
  if closed then (Some clientClosed, w)
  else if negb (validDocumentID id) then (Some invalidDocument, w)
  else match documents w !! collectionName with
       | Some docs =>
           (None, mkFsWorld (client w) (<[collectionName := delete id docs]> (documents w)))
       | None => (None, w)
       end.

Definition docMatches (filter : Filter) (doc : Document) : bool :=
  forallb (fun '(field, value) =>
             match doc !! field with
             | Some v => whereEq v value
             | None => false
             end) filter.

(** The documents that the iterator of
    [query.Where(f1, "==", v1)...Documents(ctx)] yields, with their
    identifiers, or the error of its first [Next]. *)
Definition queryDocuments (closed : bool) (w : FsWorld) (collectionName : string)
    (filter : Filter) : ClientError + list (string * Document) :=
  if closed then inl clientClosed
  else if negb (forallb (fun '(field, _) => validFieldPath field) filter) then
    inl (mkClientError CodeInvalidArgument "firestore: invalid field path")
  else inr (List.filter (fun '(_, doc) => docMatches filter doc)
                        (map_to_list (collectionDocs w collectionName))).

End FirestoreClient.

(* ===================================================================== *)
(** ** firestore.go: the document collection *)
(* ===================================================================== *)

(** [strings.Split(s, sep)] for a separator of one byte; [cur] is the piece
    being read. *)
Fixpoint splitLoop (s : string) (sep : ascii) (cur : string) : list string :=
  match s with
  | EmptyString => [cur]
  | String c rest =>
      if bool_decide (c = sep) then cur :: splitLoop rest sep ""
      else splitLoop rest sep (cur +:+ String c "")
  end.

Definition Split (s : string) (sep : ascii) : list string := splitLoop s sep "".

(** [isZeroValue], on the value of [field], for the kinds of [GoValue]: the
    cases of the source for arrays, maps and floating-point numbers, and its
    answer [false] for the kinds it does not list, have no value here. *)
Definition isZeroValue (field : StructField) (v : GoValue) : Result bool :=
  match v with
  | VNil => Ok true
  | VString s => Ok (bool_decide (String.length s = 0%nat))
  | VBytes b => Ok (bool_decide (String.length (default "" b) = 0%nat))
  | VSlice _ xs => Ok (bool_decide (length (default [] xs) = 0%nat))
  | VBool b => Ok (negb b)
  | VInt _ n => Ok (n =? 0)%Z
  | VUint _ n => Ok (n =? 0)%Z
  | VPtr p => Ok (match p with None => true | Some _ => false end)
  | VTime t => x <- Interface field v ;;; Ok (IsZero t)
  | VStruct _ => x <- Interface field v ;;; Ok (deepEqualZero x)
  end.

Fixpoint structToMapLoop (fields : list (StructField * GoValue)) (result : Document)
  : Result Document :=
  match fields with
  | [] => Ok result
  | (field, fieldValue) :: rest =>
      let tag := TagGet (Tag field) "firestore" in
      if bool_decide (tag = "-") then structToMapLoop rest result
      else
        let parts := Split tag ","%char in
        let name := default "" (head parts) in
        let name := if bool_decide (name = "") then Name field else name in
        let omitEmpty := bool_decide ("omitempty" ∈ tail parts) in
        skip <- (if omitEmpty then isZeroValue field fieldValue else Ok false) ;;;
        if (skip : bool) then structToMapLoop rest result
        else
          x <- Interface field fieldValue ;;;
          structToMapLoop rest (<[name := x]> result)
  end.

Definition structToMap (data : GoValue) : Result Document :=
  match indirect data with
  | VStruct fields => structToMapLoop fields ∅
  | VTime _ => Panic unexportedField
  | _ => Err (Adhoc "data is not a struct")
  end.

Record FirestoreCollection := mkFirestoreCollection { collectionName : string }.

Definition notInitialized : GoError := Adhoc "firestore client is not initialized".

(** [sliceVal.Type().Elem()], as the zero value of the element type. *)
Definition sliceElem (slice : GoValue) : option GoValue :=
  match slice with
  | VSlice elem _ => Some elem
  | VBytes _ => Some (VUint Uint8 0)
  | _ => None
  end.

(** [reflect.Append(sliceVal, x)]. *)
Definition Append (slice x : GoValue) : GoValue :=
  match slice, x with
  | VSlice elem xs, _ => VSlice elem (Some (default [] xs ++ [x]))
  | VBytes b, VUint _ n =>
      VBytes (Some (default "" b +:+ String (ascii_of_N (Z.to_N n)) ""))
  | _, _ => slice
  end.

(** [v.FieldByName(name).SetString(s)]. *)
Fixpoint SetString (fields : list (StructField * GoValue)) (name s : string)
  : list (StructField * GoValue) :=
  match fields with
  | [] => []
  | (f, v) :: rest =>
      if bool_decide (Name f = name) then (f, VString s) :: rest
      else (f, v) :: SetString rest name s
  end.

Section DocumentCollection.
Context `{FirestoreLib}.

(** [FirestoreCollection.Create]. *)
Definition FsCreate (f : FirestoreCollection) (data : GoValue) (w : FsWorld)
  : Result string * FsWorld :=
  match client w with
  | None => (Err notInitialized, w)
  | Some closed =>
      let v := indirect data in
      match kindOf v with
      | KStruct =>
          let fields := match v with VStruct fields => fields | _ => [] end in
          match FieldByName fields "ID" with
          | None => (Err (Adhoc "struct does not have an ID field"), w)
          | Some (_, idField) =>
              match idField with
              | VString docID =>
                  if bool_decide (docID = "") then
                    (Err (Adhoc "ID field cannot be empty"), w)
                  else
                    match structToMap data with
                    | Err err =>
                        (Err (Adhoc ("failed to convert struct to map: " +:+ errorText err)), w)
                    | Panic m => (Panic m, w)
                    | Ok dataMap =>
                        match docSet closed w (collectionName f) docID dataMap with
                        | (Some err, w) =>
                            (Err (Adhoc ("failed to create document: " +:+ message err)), w)
                        | (None, w) => (Ok docID, w)
                        end
                    end
              | _ => (Err (Adhoc "ID field must be a string"), w)
              end
          end
      | _ => (Err (Adhoc "data is not a struct"), w)
      end
  end.

(** [FirestoreCollection.GetById]: on success, the value [result] points to
    after the call. *)
Definition FsGetById (f : FirestoreCollection) (id : string) (result : GoValue)
    (w : FsWorld) : Result GoValue :=
  match client w with
  | None => Err notInitialized
  | Some closed =>
      match docGet closed w (collectionName f) id with
      | inl err =>
          if bool_decide (code err = CodeNotFound)
          then Err (Adhoc ("document " +:+ id +:+ " not found"))
          else Err (Adhoc ("failed to get document: " +:+ message err))
      | inr docSnap =>
          match DataTo docSnap result with
          | inl err => Err (Adhoc ("failed to map document data: " +:+ err))
          | inr r => Ok r
          end
      end
  end.

(** [FirestoreCollection.GetOne]. *)
Definition FsGetOne (f : FirestoreCollection) (filter : Filter) (result : GoValue)
    (w : FsWorld) : Result GoValue :=
  match client w with
  | None => Err notInitialized
  | Some closed =>
      match queryDocuments closed w (collectionName f) filter with
      | inl _ => Err (Bare ErrInternal)
      | inr docs =>
          match take 1 docs with
          | [] => Err (Bare ErrNotFound)
          | (_, doc) :: _ =>
              match DataTo doc result with
              | inl err => Err (Adhoc ("failed to map document data: " +:+ err))
              | inr r => Ok r
              end
          end
      end
  end.

(** The second loop of [GetAllByCondition]: [sliceVal] is the slice with the
    items appended so far. *)
Fixpoint appendDocs (docs : list (string * Document)) (elemType : GoValue)
    (sliceVal : GoValue) : Result GoValue :=
  match docs with
  | [] => Ok sliceVal
  | (refID, doc) :: rest =>
      match DataTo doc (VPtr (Some (zeroOf elemType))) with
      | inl err => Err (Adhoc ("failed to map document data: " +:+ err))
      | inr item =>
          let item :=
            match kindOf elemType, item with
            | KStruct, VStruct fields =>
                match FieldByName fields "ID" with
                | Some (field, VString _) =>
                    if CanSet field then VStruct (SetString fields "ID" refID)
                    else item
                | _ => item
                end
            | _, _ => item
            end in
          appendDocs rest elemType (Append sliceVal item)
      end
  end.

(** [FirestoreCollection.GetAllByCondition]: on success, the slice [results]
    points to after the call. *)
Definition FsGetAllByCondition (f : FirestoreCollection) (filter : Filter)
    (results : GoValue) (w : FsWorld) : Result GoValue :=
  match client w with
  | None => Err notInitialized
  | Some closed =>
      match queryDocuments closed w (collectionName f) filter with
      | inl err => Err (Adhoc ("failed to iterate documents: " +:+ message err))
      | inr docs =>
          match results with
          | VPtr (Some sliceVal) =>
              match sliceElem sliceVal with
              | Some elemType => appendDocs docs elemType sliceVal
              | None => Err (Adhoc "results parameter must be a pointer to a slice")
              end
          | _ => Err (Adhoc "results parameter must be a pointer to a slice")
          end
      end
  end.

(** [FirestoreCollection.DeleteById]. *)
Definition FsDeleteById (f : FirestoreCollection) (id : string) (w : FsWorld)
  : Result unit * FsWorld :=
  match client w with
  | None => (Err notInitialized, w)
  | Some closed =>
      match docDelete closed w (collectionName f) id with
      | (Some err, w) => (Err (Adhoc ("failed to delete document: " +:+ message err)), w)
      | (None, w) => (Ok tt, w)
      end
  end.

(** [FirestoreCollection.Count]. *)
Definition FsCount (f : FirestoreCollection) (filter : Filter) (w : FsWorld)
  : Result Z :=
  match client w with
  | None => Err notInitialized
  | Some closed =>
      match queryDocuments closed w (collectionName f) filter with
      | inl err => Err (Adhoc ("failed to iterate documents: " +:+ message err))
      | inr docs => Ok (Z.of_nat (length docs))
      end
  end.

End DocumentCollection.

(* ===================================================================== *)
(** ** Vocabulary of the statements *)
(* ===================================================================== *)

(** The pure reading of [camelToSnake]: what the loop computes on a miss. *)
Definition snake (s : string) : string := camelToSnakeLoop 0 s "".

(** The spec's wording of the conversion: an underscore before each
    upper-case letter that is not the first character, then the whole name in
    lower case. *)
Fixpoint underscoreTail (s : string) : string :=
  match s with
  | EmptyString => ""
  | String r rest =>
      if Str.IsUpper r then String "_" (String r (underscoreTail rest))
      else String r (underscoreTail rest)
  end.

Definition underscoreBeforeUpper (s : string) : string :=
  match s with
  | EmptyString => ""
  | String r rest => String r (underscoreTail rest)
  end.

Fixpoint lowercase (s : string) : string :=
  match s with
  | EmptyString => ""
  | String r rest => String (Str.ToLower r) (lowercase rest)
  end.

Definition snakeSpec (s : string) : string := lowercase (underscoreBeforeUpper s).

(** Every entry of the cache was stored by [camelToSnake]. *)
Definition cacheSound (cache : Cache) : Prop :=
  ∀ s r, cache !! s = Some r → r = snake s.

(** The storage identifier of a field, read off without the cache. *)
Definition columnOf (field : StructField) : string :=
  if bool_decide (TagGet (Tag field) "db" = "") then snake (Name field)
  else TagGet (Tag field) "db".

(** A field that the extraction loops can read: exported, and not an
    interface holding nil. *)
Definition readable (fv : StructField * GoValue) : bool :=
  IsExported fv.1 && match fv.2 with VNil => false | _ => true end.

Definition nonZero (fv : StructField * GoValue) : bool := negb (deepEqualZero fv.2).

(** The fields that the insert extraction keeps, and those that the update
    extraction keeps. *)
Definition keptForInsert (fields : list (StructField * GoValue))
  : list (StructField * GoValue) :=
  List.filter nonZero fields.

Definition keptForUpdate (fields : list (StructField * GoValue))
  : list (StructField * GoValue) :=
  List.filter (fun fv => nonZero fv && negb (bool_decide (columnOf fv.1 = "id"))) fields.

(** The identifier that the insert extraction captures from the kept fields,
    starting from [id0]. *)
Definition capturedId (primaryKey : string) (fields : list (StructField * GoValue))
    (id0 : string) : string :=
  fold_left (fun id fv =>
               if bool_decide (columnOf fv.1 = primaryKey) then
                 match fv.2 with VString str => str | _ => id end
               else id)
            fields id0.

Definition declaresUpdatedAt (fields : list (StructField * GoValue)) : bool :=
  bool_decide (is_Some (FieldByName fields "Updated_at"))
  || bool_decide (is_Some (FieldByName fields "UpdatedAt")).

(** The keywords of SQLite, for the example instance. *)
Definition sqliteKeywords : list string :=
  ["ABORT"; "ACTION"; "ADD"; "AFTER"; "ALL"; "ALTER"; "ALWAYS"; "ANALYZE"; "AND";
   "AS"; "ASC"; "ATTACH"; "AUTOINCREMENT"; "BEFORE"; "BEGIN"; "BETWEEN"; "BY";
   "CASCADE"; "CASE"; "CAST"; "CHECK"; "COLLATE"; "COLUMN"; "COMMIT"; "CONFLICT";
   "CONSTRAINT"; "CREATE"; "CROSS"; "CURRENT"; "CURRENT_DATE"; "CURRENT_TIME";
   "CURRENT_TIMESTAMP"; "DATABASE"; "DEFAULT"; "DEFERRABLE"; "DEFERRED"; "DELETE";
   "DESC"; "DETACH"; "DISTINCT"; "DO"; "DROP"; "EACH"; "ELSE"; "END"; "ESCAPE";
   "EXCEPT"; "EXCLUDE"; "EXCLUSIVE"; "EXISTS"; "EXPLAIN"; "FAIL"; "FILTER"; "FIRST";
   "FOLLOWING"; "FOR"; "FOREIGN"; "FROM"; "FULL"; "GENERATED"; "GLOB"; "GROUP";
   "GROUPS"; "HAVING"; "IF"; "IGNORE"; "IMMEDIATE"; "IN"; "INDEX"; "INDEXED";
   "INITIALLY"; "INNER"; "INSERT"; "INSTEAD"; "INTERSECT"; "INTO"; "IS"; "ISNULL";
   "JOIN"; "KEY"; "LAST"; "LEFT"; "LIKE"; "LIMIT"; "MATCH"; "MATERIALIZED";
   "NATURAL"; "NO"; "NOT"; "NOTHING"; "NOTNULL"; "NULL"; "NULLS"; "OF"; "OFFSET";
   "ON"; "OR"; "ORDER"; "OTHERS"; "OUTER"; "OVER"; "PARTITION"; "PLAN"; "PRAGMA";
   "PRECEDING"; "PRIMARY"; "QUERY"; "RAISE"; "RANGE"; "RECURSIVE"; "REFERENCES";
   "REGEXP"; "REINDEX"; "RELEASE"; "RENAME"; "REPLACE"; "RESTRICT"; "RETURNING";
   "RIGHT"; "ROLLBACK"; "ROW"; "ROWS"; "SAVEPOINT"; "SELECT"; "SET"; "TABLE";
   "TEMP"; "TEMPORARY"; "THEN"; "TIES"; "TO"; "TRANSACTION"; "TRIGGER"; "UNBOUNDED";
   "UNION"; "UNIQUE"; "UPDATE"; "USING"; "VACUUM"; "VALUES"; "VIEW"; "VIRTUAL";
   "WHEN"; "WHERE"; "WINDOW"; "WITH"; "WITHOUT"].

Definition toUpper (c : ascii) : ascii :=
  let n := Ascii.nat_of_ascii c in
  if (97 <=? n)%nat && (n <=? 122)%nat then Ascii.ascii_of_nat (n - 32) else c.

Fixpoint uppercase (s : string) : string :=
  match s with
  | EmptyString => ""
  | String c rest => String (toUpper c) (uppercase rest)
  end.

(** An instance of the outside functions, for evaluating examples; the
    theorems hold for every instance. *)
Definition examplePlatform : Platform := {|
  formatTimestamp _ := "0001-01-01 00:00:00+00:00";
  parseTimestamp _ := zeroTime;
  unixTimestamp n := mkTime n None;
  parseRFC3339 _ := None;
  reservedWord w := bool_decide (uppercase w ∈ sqliteKeywords)
|}.

(** Fields and columns for examples. *)
Definition dbField (name column : string) : StructField :=
  mkField name [("json", column); ("db", column)].

Definition nullable (name : string) (ty : DeclType) : Column :=
  mkColumn name ty false false.

(** A character of a word of a query text: neither a space nor punctuation. *)
Definition wordChar (c : ascii) : bool :=
  match punctuation c with
  | Some _ => false
  | None => negb (isSpace c)
  end.

(** A name that stands in a query text as one word. *)
Definition plainWord (w : string) : bool :=
  negb (bool_decide (w = "")) && Str.allChars wordChar w.

(** The text after a word ends the word. *)
Definition delimStart (s : string) : bool :=
  match s with
  | EmptyString => true
  | String c _ => negb (wordChar c)
  end.

Fixpoint commaList (ws : list string) : list Token :=
  match ws with
  | [] => []
  | [w] => [TWord w]
  | w :: rest => TWord w :: TComma :: commaList rest
  end.

Fixpoint questionList (n : nat) : list Token :=
  match n with
  | O => []
  | S O => [TQuestion]
  | S n' => TQuestion :: TComma :: questionList n'
  end.

Fixpoint condList (keys : list string) : list Token :=
  match keys with
  | [] => []
  | [k] => [TWord k; TEq; TQuestion]
  | k :: rest => TWord k :: TEq :: TQuestion :: TWord "AND" :: condList rest
  end.

Fixpoint assignList (cols : list string) : list Token :=
  match cols with
  | [] => []
  | [c] => [TWord c; TEq; TQuestion]
  | c :: rest => TWord c :: TEq :: TQuestion :: TComma :: assignList rest
  end.

(** The operations of a collection, with their arguments. *)
Inductive Operation :=
| OpCreate (data : GoValue)
| OpGetById (id : string) (result : GoValue)
| OpGetOne (filter : Filter) (result : GoValue)
| OpGetAllByCondition (filter : Filter) (results : GoValue)
| OpUpdateById (id : string) (data : GoValue) (now : Time)
| OpDeleteById (id : string)
| OpCount (filter : Filter).

(** The outcome of a call without the value it returns. *)
Definition outcome {A} (r : Result A) : Result unit :=
  match r with
  | Ok _ => Ok tt
  | Err e => Err e
  | Panic m => Panic m
  end.

Definition run `{Platform} (c : SQLiteCollection) (op : Operation) (w : World)
  : Result unit * World :=
  match op with
  | OpCreate data => let '(r, w') := Create c data w in (outcome r, w')
  | OpGetById id result => let '(r, w') := GetById c id result w in (outcome r, w')
  | OpGetOne filter result => let '(r, w') := GetOne c filter result w in (outcome r, w')
  | OpGetAllByCondition filter results =>
      let '(r, w') := GetAllByCondition c filter results w in (outcome r, w')
  | OpUpdateById id data now =>
      let '(r, w') := UpdateById c id data now w in (outcome r, w')
  | OpDeleteById id => let '(r, w') := DeleteById c id w in (outcome r, w')
  | OpCount filter => let '(r, w') := Count c filter w in (outcome r, w')
  end.

(** The handle of a world is closed or missing. *)
Definition unusable (w : World) : Prop :=
  match conn w with
  | None => True
  | Some db => closed db = true
  end.

(** What a call on a closed or missing handle comes to. *)
Definition failsWithoutConnection (r : Result unit * World) (w : World) : Prop :=
  r.1 ≠ Ok tt
  ∧ (∀ e, r.1 = Err e →
       (errorsIs e ErrInternal = true ∨ errorsIs e ErrInvalidInput = true)
       ∧ errorsIs e ErrDatabaseConnection = false)
  ∧ conn r.2 = conn w.

(** Tables and worlds for examples. *)
Definition exampleUsers : Table :=
  mkTable [mkColumn "id" DeclText false true;
           mkColumn "username" DeclText true true;
           nullable "avatar" DeclBlob;
           nullable "created_at" DeclTimestamp]
          [[SText "u1"; SText "alice"; SNull; SNull]].

Definition exampleWorld : World :=
  mkWorld ∅ (Some (mkSqlDB false [("users", exampleUsers)])).

(** An instance of the library's decisions, for evaluating examples; the
    theorems hold for every instance.  Decoding fills the fields whose
    [firestore] label, or else name, the document holds. *)
Definition exampleDecode (doc : Document) (fv : StructField * GoValue)
  : StructField * GoValue :=
  let label := default "" (head (Split (TagGet (Tag fv.1) "firestore") ","%char)) in
  let label := if bool_decide (label = "") then Name fv.1 else label in
  match doc !! label with
  | Some v => if bool_decide (kindOf v = kindOf fv.2) then (fv.1, v) else fv
  | None => fv
  end.

Definition exampleFirestoreLib : FirestoreLib := {|
  DataTo doc p :=
    match p with
    | VPtr (Some (VStruct fields)) => inr (VStruct (map (exampleDecode doc) fields))
    | _ => inl "firestore: nil or not a pointer"
    end;
  whereEq v value :=
    match v, value with
    | VString a, VString b => bool_decide (a = b)
    | VBool a, VBool b => bool_decide (a = b)
    | VInt _ a, VInt _ b => bool_decide (a = b)
    | _, _ => false
    end;
  validDocumentID id := negb (bool_decide (id = ""));
  validFieldPath p := negb (bool_decide (p = ""))
|}.

Definition fsField (name label : string) : StructField :=
  mkField name [("firestore", label)].

Definition exampleItem (id name : string) : GoValue :=
  VStruct [(fsField "ID" "-", VString id); (fsField "Name" "name", VString name)].

Definition exampleFsWorld : FsWorld :=
  mkFsWorld (Some false)
    {["items" := {["i1" := {["name" := VString "milk"]}]}]}.

(** The pure reading of the row-mapping loop: what a field becomes. *)
Definition setFromRow `{Platform} (columnMap : gmap string DriverValue)
    (fv : StructField * GoValue) : StructField * GoValue :=
  if negb (CanSet fv.1) then fv
  else match columnMap !! columnOf fv.1 with
       | Some DNull => fv
       | Some val => (fv.1, setFieldValue fv.2 val)
       | None => fv
       end.

(** The struct that a row is mapped to, starting from [elem]. *)
Definition rowToStruct `{Platform} (rows : Rows) (row : list SqlValue) (elem : GoValue)
  : GoValue :=
  match elem with
  | VStruct fields =>
      VStruct (map (setFromRow (columnMapOf (rcolumns rows) (Scan rows row) ∅)) fields)
  | _ => elem
  end.

(** The rows of [t] that satisfy [filter], whose values the driver converted
    to [ds]. *)
Definition matching `{Platform} (t : Table) (filter : Filter) (ds : list DriverValue)
  : list (list SqlValue) :=
  List.filter (matchesAll (columnNames t) (zip (map fst filter) (map bindValue ds)))
              (trows t).

(** A field value that the relational round trip is stated for: a string that
    is not empty, an integer that is not zero and lies in the range of its
    type (below 2^63 when unsigned), or [true]. *)
Definition carried (v : GoValue) : bool :=
  match v with
  | VString s => negb (bool_decide (s = ""))
  | VInt k n =>
      negb (n =? 0)%Z && (- 2 ^ (intBits k - 1) <=? n)%Z && (n <? 2 ^ (intBits k - 1))%Z
  | VUint k n => (0 <? n)%Z && (n <? 2 ^ uintBits k)%Z && (n <? 2 ^ 63)%Z
  | VBool b => b
  | _ => false
  end.

(** A declared column type that returns such a value as it was bound. *)
Definition compatible (v : GoValue) (ty : DeclType) : bool :=
  match v, ty with
  | VString _, (DeclText | DeclBlob) => true
  | (VInt _ _ | VUint _ _), (DeclInteger | DeclBlob) => true
  | VBool _, (DeclBoolean | DeclInteger | DeclBlob) => true
  | _, _ => false
  end.

(** What the engine stores for such a value. *)
Definition stored (v : GoValue) : SqlValue :=
  match v with
  | VString s => SText s
  | VInt _ n | VUint _ n => SInteger n
  | VBool b => SInteger (if b then 1 else 0)
  | _ => SNull
  end.

(** The declared type of the column named [c]. *)
Fixpoint columnType (cols : list Column) (c : string) : option DeclType :=
  match cols with
  | [] => None
  | col :: rest =>
      if bool_decide (cname col = c) then Some (ctype col) else columnType rest c
  end.

(** The row that the INSERT of a record adds to table [t]. *)
Definition storedRow (t : Table) (fields : list (StructField * GoValue))
  : list SqlValue :=
  map (fun col =>
         default SNull (inserted (map (fun fv => columnOf fv.1) fields)
                                 (map (fun fv => stored fv.2) fields) (cname col)))
      (tcols t).

(** The record can be stored in table [t]: every field is exported, holds a
    carried value and has a column of a compatible declared type. *)
Definition storable (t : Table) (fv : StructField * GoValue) : bool :=
  IsExported fv.1 && carried fv.2
  && match columnType (tcols t) (columnOf fv.1) with
     | Some ty => compatible fv.2 ty
     | None => false
     end.

(** What the row-mapping loop makes of a field for a scanned value. *)
Definition setFromRowValue `{Platform} (fieldValue : GoValue) (val : DriverValue)
  : GoValue :=
  match val with
  | DNull => fieldValue
  | _ => setFieldValue fieldValue val
  end.

(* ===================================================================== *)
(** ** sqlite.go: the database handle *)
(* ===================================================================== *)

(** What a method call through the nil [*sql.DB] ends in. *)
Definition nilDereference : string :=
  "runtime error: invalid memory address or nil pointer dereference".

(** [SQLiteDatabase.Ping]. *)
Definition Ping (w : World) : Result unit :=
  match conn w with
  | None => Err (Adhoc "database connection not established")
  | Some db => if closed db then Err (Native "sql: database is closed") else Ok tt
  end.

Definition seedCountQuery : string := "SELECT COUNT(*) FROM users".

Definition seedInsertQuery : string :=
  "INSERT INTO users (id, username, email, password, role, created_at, updated_at) VALUES (?, ?, ?, ?, ?, ?, ?)".

(** The arguments of the INSERT of [Seed]; [now1] and [now2] are the two
    readings of [time.Now().UTC()]. *)
Definition seedArguments (now1 now2 : Time) : list GoValue :=
  [VString "admin-uuid"; VString "admin"; VString "admin@example.com";
   VString "$2a$10$zgbBOT.6IbXjZEFCJdCgeubIm4LQfy9jAEhTjkxPLAfCzer9SZape";
   VString "admin"; VTime now1; VTime now2].

Section DatabaseHandle.
Context `{Platform}.

(** [SQLiteDatabase.Seed].  The method does not look at [s.conn] before it
    calls through it.  Its errors wrap the error of the driver, which is no
    sentinel. *)
Definition Seed (now1 now2 : Time) (w : World) : Result unit * World :=
  match conn w with
  | None => (Panic nilDereference, w)
  | Some conn =>
      match QueryContext conn seedCountQuery [] with
      | inl err => (Err (Adhoc ("failed to check users table: " +:+ err)), w)
      | inr rows =>
          match rdata rows with
          | [] => (Err (Adhoc "failed to check users table: sql: no rows in result set"), w)
          | row :: _ =>
              match Scan rows row with
              | [DInt64 count] =>
                  if (count =? 0)%Z then
                    match ExecContext conn seedInsertQuery (seedArguments now1 now2) with
                    | (inl err, conn) =>
                        (Err (Adhoc ("failed to seed admin user: " +:+ err)),
                         withConn w (fieldNameCache w) conn)
                    | (inr _, conn) => (Ok tt, withConn w (fieldNameCache w) conn)
                    end
                  else (Ok tt, w)
              | _ =>
                  (Err (Adhoc "failed to check users table: sql: Scan error on column index 0"), w)
              end
          end
      end
  end.

End DatabaseHandle.

(* ===================================================================== *)
(** ** firestore.go: UpdateById *)
(* ===================================================================== *)

(** The [data] argument of [UpdateById] as its type switch sees it: a
    [map[string]interface{}], or a value of another type. *)
Inductive UpdateData :=
| DataMap (m : Document)
| DataOther (v : GoValue).

(** What the client makes, by its own rules, of a value handed to [Set]
    without options: the document, or its error. *)
Class FirestoreWriter := {
  toProtoDocument : GoValue -> string + Document
}.

Section FirestoreMerge.
Context `{FirestoreLib}.

(** [client.Collection(name).Doc(id).Set(ctx, data, firestore.MergeAll)] for a
    map whose values are not maps themselves: the entries of [data] are
    written over the stored document, the other entries of the stored document
    stay, and a document that does not exist is made. *)
Definition docSetMerge (closed : bool) (w : FsWorld) (collectionName id : string)
    (data : Document) : option ClientError * FsWorld :=
  if closed then (Some clientClosed, w)
  else if negb (validDocumentID id) then (Some invalidDocument, w)
  else
    let docs := collectionDocs w collectionName in
    (None,
     mkFsWorld (client w)
       (<[collectionName := <[id := data ∪ default ∅ (docs !! id)]> docs]> (documents w))).

End FirestoreMerge.

Section DocumentUpdate.
Context `{FirestoreLib} `{FirestoreWriter}.

Definition updateFailed (msg : string) : GoError :=
  Adhoc ("failed to update document: " +:+ msg).

(** [FirestoreCollection.UpdateById]. *)
Definition FsUpdateById (f : FirestoreCollection) (id : string) (data : UpdateData)
    (w : FsWorld) : Result unit * FsWorld :=
  match client w with
  | None => (Err notInitialized, w)
  | Some closed =>
      match data with
      | DataMap m =>
          match docSetMerge closed w (collectionName f) id m with
          | (Some err, w) => (Err (updateFailed (message err)), w)
          | (None, w) => (Ok tt, w)
          end
      | DataOther v =>
          match structToMap v with
          | Panic m => (Panic m, w)
          | Err _ =>
              match toProtoDocument v with
              | inl err => (Err (updateFailed err), w)
              | inr doc =>
                  match docSet closed w (collectionName f) id doc with
                  | (Some err, w) => (Err (updateFailed (message err)), w)
                  | (None, w) => (Ok tt, w)
                  end
              end
          | Ok dataMap =>
              match docSetMerge closed w (collectionName f) id dataMap with
              | (Some err, w) => (Err (updateFailed (message err)), w)
              | (None, w) => (Ok tt, w)
              end
          end
      end
  end.

End DocumentUpdate.

(* ===================================================================== *)
(** ** Vocabulary of the further statements *)
(* ===================================================================== *)

(** No upper-case letter occurs in the text. *)
Definition noUpper (s : string) : bool :=
  Str.allChars (fun r => negb (Str.IsUpper r)) s.

(** The cache [cache'] holds every entry of [cache], and is sound if [cache]
    is. *)
Definition cacheExtends (cache cache' : Cache) : Prop :=
  cache ⊆ cache' ∧ (cacheSound cache → cacheSound cache').

(** The error wraps one of the four sentinels that the relational collection
    uses. *)
Definition wrapsSentinel (e : GoError) : bool :=
  errorsIs e ErrInvalidInput || errorsIs e ErrNotFound
  || errorsIs e ErrDuplicate || errorsIs e ErrInternal.

(** An instance of the client's own conversion, for evaluating examples. *)
Definition exampleFirestoreWriter : FirestoreWriter := {|
  toProtoDocument _ := inl "firestore: cannot convert value into a map"
|}.

(** The columns that [UpdateById] assigns for a struct, in the order of the
    SET list, and the arguments that go with them. *)
Definition assignedColumns (fields : list (StructField * GoValue)) : list string :=
  map (fun fv => columnOf fv.1) (keptForUpdate fields)
  ++ (if declaresUpdatedAt fields then ["updated_at"] else []).

Definition assignedValues (fields : list (StructField * GoValue)) (now : Time)
  : list GoValue :=
  map snd (keptForUpdate fields)
  ++ (if declaresUpdatedAt fields then [VTime now] else []).

(** The driver accepts the value as an argument. *)
Definition accepted (v : GoValue) : bool :=
  match convertValue v with inr _ => true | inl _ => false end.

(** What the engine is handed for an argument that the driver accepts. *)
Definition bound `{Platform} (v : GoValue) : SqlValue :=
  match convertValue v with inr d => bindValue d | inl _ => SNull end.

(** The row that an UPDATE with the SET list [cols], [args] makes of [row]. *)
Definition updatedRow (t : Table) (cols : list string) (args : list SqlValue)
    (row : list SqlValue) : list SqlValue :=
  map (fun col => default (cell (columnNames t) row (cname col))
                          (assigned cols args (cname col)))
      (tcols t).

(** A table and a world for further examples. *)
Definition exampleReminders : Table :=
  mkTable [mkColumn "id" DeclText false true;
           mkColumn "title" DeclText true false;
           nullable "is_pinned" DeclBoolean;
           nullable "user_id" DeclText;
           nullable "updated_at" DeclTimestamp]
          [[SText "r1"; SText "water the plants"; SInteger 1; SText "u1"; SNull];
           [SText "r2"; SText "call home"; SNull; SText "u1"; SNull];
           [SText "r3"; SText "pay rent"; SNull; SText "u2"; SNull]].

Definition exampleReminderWorld : World :=
  mkWorld ∅ (Some (mkSqlDB false [("reminders", exampleReminders)])).

Definition exampleReminderFields (id title : string) (updatedAt : Time)
  : list (StructField * GoValue) :=
  [(dbField "ID" "id", VString id);
   (dbField "Title" "title", VString title);
   (dbField "IsPinned" "is_pinned", VBool false);
   (dbField "UserID" "user_id", VString "");
   (dbField "UpdatedAt" "updated_at", VTime updatedAt)].

Definition exampleReminder (id title : string) (updatedAt : Time) : GoValue :=
  VStruct (exampleReminderFields id title updatedAt).

(** The columns that the INSERT of [Seed] names. *)
Definition seedColumns : list string :=
  ["id"; "username"; "email"; "password"; "role"; "created_at"; "updated_at"].

(** The [users] table as [Migrate] declares it, without the defaults, and
    empty. *)
Definition migratedUsers : Table :=
  mkTable [mkColumn "id" DeclText false true;
           mkColumn "username" DeclText true true;
           mkColumn "email" DeclText true true;
           mkColumn "password" DeclText true false;
           mkColumn "role" DeclText true false;
           nullable "created_at" DeclTimestamp;
           nullable "updated_at" DeclTimestamp]
          [].

Definition migratedWorld : World :=
  mkWorld ∅ (Some (mkSqlDB false [("users", migratedUsers)])).

(** The [firestore] tag of a field, the label under which [structToMap] puts
    the field, and whether the tag asks to leave the field out when empty. *)
Definition fsTag (field : StructField) : string := TagGet (Tag field) "firestore".

Definition fsLabel (field : StructField) : string :=
  let name := default "" (head (Split (fsTag field) ","%char)) in
  if bool_decide (name = "") then Name field else name.

Definition fsOmitEmpty (field : StructField) : bool :=
  bool_decide ("omitempty" ∈ tail (Split (fsTag field) ","%char)).

(** The pure reading of [isZeroValue], for a field that is exported. *)
Definition emptyValue (v : GoValue) : bool :=
  match v with
  | VNil => true
  | VString s => bool_decide (String.length s = 0%nat)
  | VBytes b => bool_decide (String.length (default "" b) = 0%nat)
  | VSlice _ xs => bool_decide (length (default [] xs) = 0%nat)
  | VBool b => negb b
  | VInt _ n | VUint _ n => (n =? 0)%Z
  | VPtr p => match p with None => true | Some _ => false end
  | VTime t => IsZero t
  | VStruct _ => deepEqualZero v
  end.

(** The fields that [structToMap] keeps. *)
Definition fsKept (fv : StructField * GoValue) : bool :=
  negb (bool_decide (fsTag fv.1 = "-")) && negb (fsOmitEmpty fv.1 && emptyValue fv.2).

(* ===================================================================== *)
(** ** The callers: domain structs, repositories and services *)
(* ===================================================================== *)

Definition userField (name json column : string) : StructField :=
  mkField name [("json", json); ("db", column); ("firestore", column)].

(** [domain.User]. *)
Definition User (ID Username Password Role Email : string)
    (CreatedAt UpdatedAt : Time) : GoValue :=
  VStruct [(userField "ID" "id" "id", VString ID);
           (userField "Username" "username" "username", VString Username);
           (userField "Password" "password" "password", VString Password);
           (userField "Role" "role" "role", VString Role);
           (userField "Email" "email" "email", VString Email);
           (userField "CreatedAt" "createdAt" "created_at", VTime CreatedAt);
           (userField "UpdatedAt" "updatedAt" "updated_at", VTime UpdatedAt)].

Definition reminderField (name json column : string) : StructField :=
  mkField name [("json", json); ("db", column)].

(** [domain.Reminder]. *)
Definition Reminder (ID Title Description : string) (IsPinned : bool)
    (UserID ReminderGroupID : string) (CreatedAt UpdatedAt : Time) : GoValue :=
  VStruct [(reminderField "ID" "id" "id", VString ID);
           (reminderField "Title" "title" "title", VString Title);
           (reminderField "Description" "description" "description", VString Description);
           (reminderField "IsPinned" "isPinned" "is_pinned", VBool IsPinned);
           (reminderField "UserID" "userId" "user_id", VString UserID);
           (reminderField "ReminderGroupID" "reminderGroupId,omitempty" "reminder_group_id",
            VString ReminderGroupID);
           (reminderField "CreatedAt" "createdAt" "created_at", VTime CreatedAt);
           (reminderField "UpdatedAt" "updatedAt" "updated_at", VTime UpdatedAt)].

(** [domain.ErrUserAlreadyExist]. *)
Definition ErrUserAlreadyExist : GoError := Adhoc "user already exists".

(** [err == sentinel]: the error is the sentinel itself, not a wrapping of
    it. *)
Definition isSentinel (err : GoError) (sentinel : Sentinel) : bool :=
  match err with
  | Bare s => bool_decide (s = sentinel)
  | _ => false
  end.

(** The methods of the interface [db.Collection] that the repositories call,
    over the state [S] of a backend. *)
Class CollectionHandle (S : Type) := {
  create : GoValue -> S -> Result string * S;
  getById : string -> GoValue -> S -> Result GoValue * S;
  getOne : Filter -> GoValue -> S -> Result GoValue * S;
  getAllByCondition : Filter -> GoValue -> S -> Result GoValue * S
}.

(** The two implementations. *)
Definition sqliteHandle `{Platform} (c : SQLiteCollection) : CollectionHandle World := {|
  create := Create c;
  getById := GetById c;
  getOne := GetOne c;
  getAllByCondition := GetAllByCondition c
|}.

Definition firestoreHandle `{FirestoreLib} (f : FirestoreCollection)
  : CollectionHandle FsWorld := {|
  create := FsCreate f;
  getById id result w := (FsGetById f id result w, w);
  getOne filter result w := (FsGetOne f filter result w, w);
  getAllByCondition filter results w := (FsGetAllByCondition f filter results w, w)
|}.

Section Callers.
Context {S : Type} (collection : CollectionHandle S).

(** [userRepository.Create]. *)
Definition userRepository_Create (user : GoValue) (s : S) : Result unit * S :=
  let '(r, s) := create user s in (outcome r, s).

(** [userRepository.GetByEmail]: on success, the pointer to the user. *)
Definition userRepository_GetByEmail (email : string) (s : S) : Result GoValue * S :=
  match getOne [("email", VString email)]
               (VPtr (Some (User "" "" "" "" "" zeroTime zeroTime))) s with
  | (Ok user, s) => (Ok (VPtr (Some user)), s)
  | (Err err, s) => (Err err, s)
  | (Panic m, s) => (Panic m, s)
  end.

(** [reminderRepository.Create]. *)
Definition reminderRepository_Create (reminder : GoValue) (s : S) : Result unit * S :=
  let '(r, s) := create reminder s in (outcome r, s).

(** [authService.Register].  [hashedPassword] is what [utils.HashPassword]
    returns for [password], the hash or the text of its error; [username] and
    [id] are what [usernamegen.Generate] and [uuid.New] give. *)
Definition Register (email password : string) (hashedPassword : string + string)
    (username id : string) (s : S) : Result GoValue * S :=
  let proceed (s : S) : Result GoValue * S :=
    match hashedPassword with
    | inl err => (Err (Native err), s)
    | inr hashed =>
        match userRepository_Create
                (VPtr (Some (User id username hashed "" email zeroTime zeroTime))) s with
        | (Err err, s) => (Err err, s)
        | (Panic m, s) => (Panic m, s)
        | (Ok _, s) => userRepository_GetByEmail email s
        end
    end in
  match userRepository_GetByEmail email s with
  | (Ok _, s) => (Err ErrUserAlreadyExist, s)
  | (Panic m, s) => (Panic m, s)
  | (Err err, s) => if isSentinel err ErrNotFound then proceed s else (Err err, s)
  end.

(** [reminderService.CreateReminder]: the reminder that is stored has the
    user's identifier and nothing of [data]. *)
Definition CreateReminder (userID : string) (data : GoValue) (s : S)
  : Result GoValue * S :=
  let reminder := VPtr (Some (Reminder "" "" "" false userID "" zeroTime zeroTime)) in
  match reminderRepository_Create reminder s with
  | (Err err, s) => (Err err, s)
  | (Panic m, s) => (Panic m, s)
  | (Ok _, s) => (Ok reminder, s)
  end.

End Callers.

(** The [users] table of the examples with one user in it. *)
Definition usersWithAda : Table :=
  mkTable (tcols migratedUsers)
          [[SText "u1"; SText "ada"; SText "ada@example.com"; SText "hash";
            SText "user"; SNull; SNull]].

Definition usersWorld : World :=
  mkWorld ∅ (Some (mkSqlDB false [("users", usersWithAda)])).

(** The document that [structToMap] makes of a [domain.User]. *)
Definition userDocument (ID Username Password Role Email : string)
    (CreatedAt UpdatedAt : Time) : Document :=
  list_to_map [("id", VString ID); ("username", VString Username);
               ("password", VString Password); ("role", VString Role);
               ("email", VString Email); ("created_at", VTime CreatedAt);
               ("updated_at", VTime UpdatedAt)].

(* ===================================================================== *)
(** ** The field-name cache and the column names *)
(* ===================================================================== *)

Lemma append_cons (x : ascii) (a b : string) : String x a +:+ b = String x (a +:+ b).
Proof. reflexivity. Qed.

Lemma append_nil_l (b : string) : "" +:+ b = b.
Proof. reflexivity. Qed.

Lemma append_assoc (a b c : string) : (a +:+ b) +:+ c = a +:+ (b +:+ c).
Proof.
  induction a as [|x a IH]; [done|]. by rewrite !append_cons, IH.
Qed.

Lemma append_nil_r (a : string) : a +:+ "" = a.
Proof. induction a as [|x a IH]; [done|]. by rewrite append_cons, IH. Qed.

Create Rewrite HintDb str.
#[local] Hint Rewrite append_cons append_nil_l append_nil_r append_assoc : str.

Lemma camelToSnakeLoop_acc (s : string) : ∀ i result,
  camelToSnakeLoop (S i) s result = result +:+ camelToSnakeLoop (S i) s "".
Proof.
  induction s as [|r s IH]; intros i result; simpl.
  - by rewrite append_nil_r.
  - rewrite IH. symmetry. rewrite IH. symmetry.
    destruct (Str.IsUpper r); by autorewrite with str.
Qed.

Lemma camelToSnakeLoop_tail (s : string) : ∀ i,
  camelToSnakeLoop (S i) s "" = lowercase (underscoreTail s).
Proof.
  induction s as [|r s IH]; intros i; simpl; [done|].
  rewrite camelToSnakeLoop_acc, IH.
  destruct (Str.IsUpper r) eqn:Hup; autorewrite with str; simpl.
  - unfold Str.ToLower at 2. simpl. done.
  - unfold Str.ToLower. by rewrite Hup.
Qed.

Lemma snake_spec (s : string) : snake s = snakeSpec s.
Proof.
  unfold snake, snakeSpec. destruct s as [|r s]; simpl; [done|].
  rewrite camelToSnakeLoop_acc, camelToSnakeLoop_tail.
  unfold Str.ToLower. destruct (Str.IsUpper r); by autorewrite with str.
Qed.

Lemma camelToSnake_sound (s : string) (cache : Cache) :
  cacheSound cache →
  (camelToSnake s cache).1 = snake s ∧ cacheSound (camelToSnake s cache).2.
Proof.
  intros Hc. unfold camelToSnake.
  destruct (cache !! s) as [cached|] eqn:Hs; simpl.
  - split; [by apply Hc | done].
  - split; [done|]. intros s' r'. rewrite lookup_insert.
    case_decide; [intros [= <-]; by subst | apply Hc].
Qed.

Lemma columnNameOf_sound (field : StructField) (cache : Cache) :
  cacheSound cache →
  (columnNameOf field cache).1 = columnOf field
  ∧ cacheSound (columnNameOf field cache).2.
Proof.
  intros Hc. unfold columnNameOf, columnOf.
  case_bool_decide; [by apply camelToSnake_sound | done].
Qed.

(** C7. The storage identifier of a field is its [db] tag when the tag is not
    empty, and otherwise the field name with an underscore before each
    upper-case letter but the first and the whole in lower case ([UserID]
    gives [user_i_d], [CreatedAt] gives [created_at]); a converted name is in the
    cache afterwards, and converting it again, also after other names were
    converted, gives the same result from the cache. *)
Theorem column_name_derivation (field : StructField) (cache : Cache) :
  cacheSound cache →
  Str.allChars Str.isASCII (Name field) = true →
  let tag := TagGet (Tag field) "db" in
  (columnNameOf field cache).1
    = (if bool_decide (tag = "") then snakeSpec (Name field) else tag)
  ∧ (∀ (s other : string),
       let '(r, cache1) := camelToSnake s cache in
       let cache2 := (camelToSnake other cache1).2 in
       cache1 !! s = Some r
       ∧ camelToSnake s cache1 = (r, cache1)
       ∧ camelToSnake s cache2 = (r, cache2))
  ∧ snakeSpec "UserID" = "user_i_d"
  ∧ snakeSpec "CreatedAt" = "created_at".
Proof.
  intros Hc _ tag. split; [|split; [|done]].
  - rewrite (proj1 (columnNameOf_sound field cache Hc)).
    unfold columnOf. fold tag. case_bool_decide; [apply snake_spec | done].
  - intros s other.
    destruct (camelToSnake s cache) as [r cache1] eqn:Hcall.
    assert (Hin : cache1 !! s = Some r).
    { unfold camelToSnake in Hcall.
      destruct (cache !! s) as [cached|] eqn:Hs; simplify_eq; [done|].
      apply lookup_insert_eq. }
    assert (Hhit : ∀ c : Cache, c !! s = Some r → camelToSnake s c = (r, c)).
    { intros c Hs. unfold camelToSnake. by rewrite Hs. }
    split; [done|]. split; [by apply Hhit|]. apply Hhit.
    unfold camelToSnake. destruct (cache1 !! other) as [cached|] eqn:Ho; simpl; [done|].
    rewrite lookup_insert. case_decide; [congruence | done].
Qed.

Lemma column_name_derivation_witness :
  cacheSound ∅
  ∧ (columnNameOf (mkField "UserID" [("json", "userId")]) ∅).1 = "user_i_d"
  ∧ (columnNameOf (mkField "UserID" [("db", "user_id")]) ∅).1 = "user_id".
Proof.
  split; [intros s r; by rewrite lookup_empty|].
  split.
  - apply (column_name_derivation (mkField "UserID" [("json", "userId")]) ∅).
    + intros s r; by rewrite lookup_empty.
    + reflexivity.
  - apply (column_name_derivation (mkField "UserID" [("db", "user_id")]) ∅).
    + intros s r; by rewrite lookup_empty.
    + reflexivity.
Defined.

(* ===================================================================== *)
(** ** The extraction loops *)
(* ===================================================================== *)

Lemma readable_inv (field : StructField) (fieldValue : GoValue) :
  readable (field, fieldValue) = true →
  Interface field fieldValue = Ok fieldValue
  ∧ isZeroOfUnderlyingType fieldValue = Ok (deepEqualZero fieldValue).
Proof.
  unfold readable, Interface. simpl. intros [He Hn]%andb_prop.
  rewrite He. by destruct fieldValue.
Qed.

Lemma keptForInsert_cons (field : StructField) (fieldValue : GoValue)
    (rest : list (StructField * GoValue)) :
  keptForInsert ((field, fieldValue) :: rest)
  = if deepEqualZero fieldValue then keptForInsert rest
    else (field, fieldValue) :: keptForInsert rest.
Proof. unfold keptForInsert, nonZero. simpl. by destruct (deepEqualZero fieldValue). Qed.

Lemma keptForUpdate_cons (field : StructField) (fieldValue : GoValue)
    (rest : list (StructField * GoValue)) :
  keptForUpdate ((field, fieldValue) :: rest)
  = if deepEqualZero fieldValue then keptForUpdate rest
    else if bool_decide (columnOf field = "id") then keptForUpdate rest
    else (field, fieldValue) :: keptForUpdate rest.
Proof.
  unfold keptForUpdate, nonZero. simpl.
  destruct (deepEqualZero fieldValue); [done|]. simpl. by case_bool_decide.
Qed.

Lemma extractFieldsForInsertLoop_spec (primaryKey : string)
    (fields : list (StructField * GoValue)) :
  ∀ (acc : InsertFields) (cache : Cache),
  cacheSound cache →
  forallb readable fields = true →
  ∃ cache',
    extractFieldsForInsertLoop primaryKey fields acc cache
    = (Ok (mkInsertFields
             (columns acc ++ map (fun fv => columnOf fv.1) (keptForInsert fields))
             (placeholders acc ++ map (fun _ => "?") (keptForInsert fields))
             (values acc ++ map snd (keptForInsert fields))
             (capturedId primaryKey (keptForInsert fields) (id acc))),
       cache')
    ∧ cacheSound cache'.
Proof.
  induction fields as [|[field fieldValue] rest IH]; intros acc cache Hc Hr.
  - exists cache. simpl. rewrite !app_nil_r. by destruct acc.
  - simpl in Hr. apply andb_prop in Hr as [Hf Hrest].
    destruct (readable_inv _ _ Hf) as [Hi Hz].
    rewrite keptForInsert_cons. cbn [extractFieldsForInsertLoop]. rewrite Hi, Hz.
    destruct (deepEqualZero fieldValue) eqn:Hzero.
    + by apply IH.
    + destruct (columnNameOf_sound field cache Hc) as [Hname Hc'].
      destruct (columnNameOf field cache) as [columnName cache1]. simpl in *. subst.
      destruct (IH (mkInsertFields (columns acc ++ [columnOf field])
                      (placeholders acc ++ ["?"]) (values acc ++ [fieldValue])
                      (if bool_decide (columnOf field = primaryKey)
                       then match fieldValue with VString str => str | _ => id acc end
                       else id acc)) cache1 Hc' Hrest) as (cache' & -> & Hc'').
      exists cache'. split; [|done]. simpl. by rewrite <- !app_assoc.
Qed.

Lemma extractFieldsForInsert_spec (primaryKey : string)
    (fields : list (StructField * GoValue)) (cache : Cache) :
  cacheSound cache →
  forallb readable fields = true →
  ∃ cache',
    extractFieldsForInsert (VStruct fields) primaryKey cache
    = (Ok (mkInsertFields
             (map (fun fv => columnOf fv.1) (keptForInsert fields))
             (map (fun _ => "?") (keptForInsert fields))
             (map snd (keptForInsert fields))
             (capturedId primaryKey (keptForInsert fields) "")),
       cache')
    ∧ cacheSound cache'.
Proof.
  intros Hc Hr.
  destruct (extractFieldsForInsertLoop_spec primaryKey fields
              (mkInsertFields [] [] [] "") cache Hc Hr) as (cache' & Heq & Hc').
  exists cache'. split; [|done]. unfold extractFieldsForInsert. simpl. exact Heq.
Qed.

Lemma extractFieldsForUpdateLoop_spec (fields : list (StructField * GoValue)) :
  ∀ (updateFields : list string) (values : list GoValue) (cache : Cache),
  cacheSound cache →
  forallb readable fields = true →
  ∃ cache',
    extractFieldsForUpdateLoop fields updateFields values cache
    = (Ok (updateFields
             ++ map (fun fv => columnOf fv.1 +:+ " = ?") (keptForUpdate fields),
           values ++ map snd (keptForUpdate fields)),
       cache')
    ∧ cacheSound cache'.
Proof.
  induction fields as [|[field fieldValue] rest IH]; intros uf vals cache Hc Hr.
  - exists cache. simpl. by rewrite !app_nil_r.
  - simpl in Hr. apply andb_prop in Hr as [Hf Hrest].
    destruct (readable_inv _ _ Hf) as [Hi Hz].
    rewrite keptForUpdate_cons. cbn [extractFieldsForUpdateLoop]. rewrite Hi, Hz.
    destruct (deepEqualZero fieldValue) eqn:Hzero.
    + by apply IH.
    + destruct (columnNameOf_sound field cache Hc) as [Hname Hc'].
      destruct (columnNameOf field cache) as [columnName cache1]. simpl in *. subst.
      case_bool_decide; simpl.
      * by apply IH.
      * destruct (IH (uf ++ [columnOf field +:+ " = ?"]) (vals ++ [fieldValue])
                     cache1 Hc' Hrest) as (cache' & -> & Hc'').
        exists cache'. split; [|done]. by rewrite <- !app_assoc.
Qed.

Lemma cacheSound_empty : cacheSound ∅.
Proof. intros s r. by rewrite lookup_empty. Qed.

(** C6, as amended.  For a struct whose fields are all exported and none of
    which holds the nil interface, the insert extraction keeps exactly the
    fields that do not hold the zero value of their type, in order; the update
    extraction keeps exactly those of them whose storage identifier is not
    [id], and ends with an assignment of the
    clock reading to [updated_at] when the struct declares [Updated_at] or
    [UpdatedAt]. *)
Theorem zero_value_omission (fields : list (StructField * GoValue))
    (primaryKey : string) (now : Time) (cache : Cache) :
  cacheSound cache →
  forallb readable fields = true →
  (∃ f cache',
     extractFieldsForInsert (VStruct fields) primaryKey cache = (Ok f, cache')
     ∧ columns f = map (fun fv => columnOf fv.1) (keptForInsert fields)
     ∧ values f = map snd (keptForInsert fields))
  ∧ (∃ cache',
       extractFieldsForUpdate (VStruct fields) now cache
       = (Ok (map (fun fv => columnOf fv.1 +:+ " = ?") (keptForUpdate fields)
                ++ (if declaresUpdatedAt fields then ["updated_at = ?"] else []),
              map snd (keptForUpdate fields)
                ++ (if declaresUpdatedAt fields then [VTime now] else [])),
          cache')).
Proof.
  intros Hc Hr. split.
  - destruct (extractFieldsForInsertLoop_spec primaryKey fields
                (mkInsertFields [] [] [] "") cache Hc Hr) as (cache' & Heq & _).
    eexists _, cache'. unfold extractFieldsForInsert. simpl.
    rewrite Heq. simpl. done.
  - destruct (extractFieldsForUpdateLoop_spec fields [] [] cache Hc Hr)
      as (cache' & Heq & _).
    exists cache'. unfold extractFieldsForUpdate. simpl. rewrite Heq. simpl.
    unfold declaresUpdatedAt.
    destruct (bool_decide (is_Some (FieldByName fields "Updated_at"))); simpl; [done|].
    destruct (bool_decide (is_Some (FieldByName fields "UpdatedAt"))); simpl; [done|].
    by rewrite !app_nil_r.
Qed.

Lemma zero_value_omission_witness :
  cacheSound ∅
  ∧ ∃ f cache',
      extractFieldsForInsert
        (VStruct [(dbField "ID" "id", VString "i1");
                  (dbField "Title" "title", VString "buy milk");
                  (dbField "IsPinned" "is_pinned", VBool false);
                  (dbField "Position" "position", VInt Int 0)])
        "id" ∅ = (Ok f, cache')
      ∧ columns f = ["id"; "title"]
      ∧ values f = [VString "i1"; VString "buy milk"].
Proof.
  split; [apply cacheSound_empty|].
  exact (proj1 (zero_value_omission
                  [(dbField "ID" "id", VString "i1");
                   (dbField "Title" "title", VString "buy milk");
                   (dbField "IsPinned" "is_pinned", VBool false);
                   (dbField "Position" "position", VInt Int 0)]
                  "id" zeroTime ∅ cacheSound_empty eq_refl)).
Defined.

(** C6 as stated fails for the update extraction: the identifier field is not
    zero and is left out all the same. *)
Lemma zero_value_omission_counterexample :
  nonZero (dbField "ID" "id", VString "i1") = true
  ∧ (extractFieldsForUpdate
       (VStruct [(dbField "ID" "id", VString "i1");
                 (dbField "Title" "title", VString "buy oat milk")])
       zeroTime ∅).1
    = Ok (["title = ?"], [VString "buy oat milk"]).
Proof. split; reflexivity. Qed.

(* ===================================================================== *)
(** ** The texts of the statements are read back as the statements *)
(* ===================================================================== *)

Lemma lexLoop_word (w : string) : ∀ (s cur : string),
  Str.allChars wordChar w = true →
  lexLoop (w +:+ s) cur = lexLoop s (cur +:+ w).
Proof.
  induction w as [|c w IH]; intros s cur Hw.
  - by rewrite append_nil_l, append_nil_r.
  - simpl in Hw. apply andb_prop in Hw as [Hc Hw].
    rewrite append_cons. simpl. unfold wordChar in Hc.
    destruct (punctuation c); [done|].
    destruct (isSpace c); [done|].
    rewrite IH by done. f_equal. by rewrite append_assoc.
Qed.

Lemma lexLoop_delim (s cur : string) :
  delimStart s = true → cur ≠ "" →
  lexLoop s cur = TWord cur :: lexLoop s "".
Proof.
  intros Hs Hcur. destruct s as [|c s]; simpl.
  - unfold flushWord. by rewrite bool_decide_eq_false_2.
  - simpl in Hs. unfold wordChar in Hs.
    destruct (isSpace c) eqn:Hsp.
    + unfold flushWord. by rewrite bool_decide_eq_false_2.
    + destruct (punctuation c); [|done].
      unfold flushWord. by rewrite bool_decide_eq_false_2.
Qed.

Lemma lex_word (w s : string) :
  plainWord w = true → delimStart s = true →
  lexLoop (w +:+ s) "" = TWord w :: lexLoop s "".
Proof.
  intros [Hne Hw]%andb_prop Hs.
  rewrite lexLoop_word by done. rewrite append_nil_l.
  apply lexLoop_delim; [done|].
  by apply negb_true_iff, bool_decide_eq_false in Hne.
Qed.

Lemma Join_cons2 (x y : string) (l : list string) (sep : string) :
  Str.Join (x :: y :: l) sep = x +:+ sep +:+ Str.Join (y :: l) sep.
Proof. reflexivity. Qed.

Lemma lex_commaList (cols : list string) (rest : string) :
  forallb plainWord cols = true → delimStart rest = true →
  lexLoop (Str.Join cols ", " +:+ rest) "" = commaList cols ++ lexLoop rest "".
Proof.
  induction cols as [|x [|y l] IH]; intros Hw Hr.
  - done.
  - simpl in Hw. apply andb_prop in Hw as [Hx _].
    simpl. by apply lex_word.
  - apply andb_prop in Hw as [Hx Hw].
    rewrite Join_cons2, !append_assoc, lex_word by done.
    change (lexLoop (", " +:+ Str.Join (y :: l) ", " +:+ rest) "")
      with (TComma :: lexLoop (Str.Join (y :: l) ", " +:+ rest) "").
    rewrite IH by done. done.
Qed.

Lemma lex_questionList {A} (l : list A) (rest : string) :
  lexLoop (Str.Join (map (fun _ => "?") l) ", " +:+ rest) ""
  = questionList (length l) ++ lexLoop rest "".
Proof.
  induction l as [|x [|y l] IH].
  - done.
  - done.
  - change (map (fun _ => "?") (x :: y :: l))
      with ("?" :: "?" :: map (fun _ : A => "?") l).
    rewrite Join_cons2, !append_assoc.
    change (lexLoop ("?" +:+ ", " +:+ Str.Join ("?" :: map (fun _ : A => "?") l) ", " +:+ rest) "")
      with (TQuestion :: TComma
              :: lexLoop (Str.Join (map (fun _ => "?") (y :: l)) ", " +:+ rest) "").
    by rewrite IH.
Qed.

Lemma lex_condList (keys : list string) (rest : string) :
  forallb plainWord keys = true →
  lexLoop (Str.Join (map (fun k => k +:+ " = ?") keys) " AND " +:+ rest) ""
  = condList keys ++ lexLoop rest "".
Proof.
  induction keys as [|x [|y l] IH]; intros Hw.
  - done.
  - simpl in Hw. apply andb_prop in Hw as [Hx _].
    simpl. rewrite append_assoc, lex_word by done. done.
  - apply andb_prop in Hw as [Hx Hw].
    change (map (fun k => k +:+ " = ?") (x :: y :: l))
      with ((x +:+ " = ?") :: map (fun k => k +:+ " = ?") (y :: l)).
    destruct (map (fun k => k +:+ " = ?") (y :: l)) as [|m ms] eqn:Hm; [done|].
    rewrite Join_cons2, !append_assoc, lex_word by done.
    change (lexLoop (" = ?" +:+ " AND " +:+ Str.Join (m :: ms) " AND " +:+ rest) "")
      with (TEq :: TQuestion :: TWord "AND"
              :: lexLoop (Str.Join (m :: ms) " AND " +:+ rest) "").
    by rewrite IH.
Qed.

Lemma lex_assignList (cols : list string) (rest : string) :
  forallb plainWord cols = true →
  lexLoop (Str.Join (map (fun c => c +:+ " = ?") cols) ", " +:+ rest) ""
  = assignList cols ++ lexLoop rest "".
Proof.
  induction cols as [|x [|y l] IH]; intros Hw.
  - done.
  - simpl in Hw. apply andb_prop in Hw as [Hx _].
    simpl. rewrite append_assoc, lex_word by done. done.
  - apply andb_prop in Hw as [Hx Hw].
    change (map (fun c => c +:+ " = ?") (x :: y :: l))
      with ((x +:+ " = ?") :: map (fun c => c +:+ " = ?") (y :: l)).
    destruct (map (fun c => c +:+ " = ?") (y :: l)) as [|m ms] eqn:Hm; [done|].
    rewrite Join_cons2, !append_assoc, lex_word by done.
    change (lexLoop (" = ?" +:+ ", " +:+ Str.Join (m :: ms) ", " +:+ rest) "")
      with (TEq :: TQuestion :: TComma
              :: lexLoop (Str.Join (m :: ms) ", " +:+ rest) "").
    by rewrite IH.
Qed.

Lemma parseColumns_commaList (cols : list string) (rest : list Token) :
  cols ≠ [] →
  parseColumns (commaList cols ++ TRParen :: rest) = Some (cols, rest).
Proof.
  induction cols as [|x [|y l] IH]; intros Hne; [done|done|].
  change (commaList (x :: y :: l)) with (TWord x :: TComma :: commaList (y :: l)).
  remember (commaList (y :: l)) as tl eqn:Htl. simpl. subst tl.
  by rewrite IH.
Qed.

Lemma parseParams_questionList (n : nat) :
  parseParams (questionList (S n) ++ [TRParen]) = Some (S n).
Proof.
  induction n as [|n IH]; [done|].
  change (questionList (S (S n))) with (TQuestion :: TComma :: questionList (S n)).
  remember (questionList (S n)) as tl eqn:Htl. simpl. subst tl.
  by rewrite IH.
Qed.

Lemma parseConditions_condList (keys : list string) (limit1 : bool) :
  keys ≠ [] →
  parseConditions (condList keys
                     ++ (if limit1 then [TWord "LIMIT"; TWord "1"] else []))
  = Some (keys, limit1).
Proof.
  induction keys as [|x [|y l] IH]; intros Hne; [done| |].
  - by destruct limit1.
  - change (condList (x :: y :: l))
      with (TWord x :: TEq :: TQuestion :: TWord "AND" :: condList (y :: l)).
    remember (condList (y :: l)) as tl eqn:Htl. simpl. subst tl.
    by rewrite IH.
Qed.

Lemma parseAssignments_assignList (cols : list string) (pk : string) :
  cols ≠ [] →
  parseAssignments (assignList cols ++ [TWord "WHERE"; TWord pk; TEq; TQuestion])
  = Some (cols, pk).
Proof.
  induction cols as [|x [|y l] IH]; intros Hne; [done|done|].
  change (assignList (x :: y :: l))
    with (TWord x :: TEq :: TQuestion :: TComma :: assignList (y :: l)).
  remember (assignList (y :: l)) as tl eqn:Htl. simpl. subst tl.
  by rewrite IH.
Qed.

Lemma buildWhereClauseLoop_spec (filter : Filter) :
  ∀ (whereClauses : list string) (values : list GoValue),
  buildWhereClauseLoop filter whereClauses values
  = (whereClauses ++ map (fun kv => kv.1 +:+ " = ?") filter, values ++ map snd filter).
Proof.
  induction filter as [|[k v] rest IH]; intros wc vals; simpl.
  - by rewrite !app_nil_r.
  - rewrite IH. by rewrite <- !app_assoc.
Qed.

Lemma buildWhereClause_spec (filter : Filter) :
  buildWhereClause filter
  = (Str.Join (map (fun kv => kv.1 +:+ " = ?") filter) " AND ", map snd filter).
Proof.
  unfold buildWhereClause. destruct filter as [|kv rest]; [done|].
  rewrite bool_decide_eq_false_2 by done.
  by rewrite buildWhereClauseLoop_spec.
Qed.

Lemma map_condition_keys (filter : Filter) :
  map (fun kv : string * GoValue => kv.1 +:+ " = ?") filter
  = map (fun k => k +:+ " = ?") (map fst filter).
Proof. by rewrite map_map. Qed.

Lemma whereClause_nonempty (k : string) (ms : list string) :
  Str.Join ((k +:+ " = ?") :: ms) " AND " ≠ "".
Proof.
  destruct ms as [|m ms]; simpl; by destruct k.
Qed.

Lemma parse_insert (t : string) (cols : list string) {A} (l : list A) :
  plainWord t = true → forallb plainWord cols = true → cols ≠ [] → l ≠ [] →
  parse (lex ("INSERT INTO " +:+ t +:+ " (" +:+ Str.Join cols ", " +:+
              ") VALUES (" +:+ Str.Join (map (fun _ => "?") l) ", " +:+ ")"))
  = Some (SInsert t cols (length l)).
Proof.
  intros Ht Hcols Hne Hl. unfold lex.
  change (lexLoop ("INSERT INTO " +:+ ?R) "") with (lexLoop ("INSERT INTO " +:+ R) "").
  assert (H1 : ∀ R, lexLoop ("INSERT INTO " +:+ R) ""
                    = TWord "INSERT" :: TWord "INTO" :: lexLoop R "") by reflexivity.
  assert (H2 : ∀ R, lexLoop (" (" +:+ R) "" = TLParen :: lexLoop R "") by reflexivity.
  assert (H3 : ∀ R, lexLoop (") VALUES (" +:+ R) ""
                    = TRParen :: TWord "VALUES" :: TLParen :: lexLoop R "")
    by reflexivity.
  rewrite H1, lex_word, H2, lex_commaList, H3, lex_questionList by done.
  change (lexLoop ")" "") with [TRParen].
  destruct l as [|a l]; [done|]. simpl length.
  remember (questionList (S (length l)) ++ [TRParen]) as qs eqn:Hqs.
  remember (commaList cols) as cs eqn:Hcs.
  simpl. subst cs.
  change (TRParen :: TWord "VALUES" :: TLParen :: qs)
    with (TRParen :: (TWord "VALUES" :: TLParen :: qs)).
  rewrite parseColumns_commaList by done.
  change (isWord (TWord "VALUES") "VALUES") with true. cbn iota.
  subst qs. by rewrite parseParams_questionList.
Qed.

Lemma parse_select (t : string) (keys : list string) (limit1 : bool) :
  plainWord t = true → forallb plainWord keys = true →
  parse (lex ((if bool_decide (Str.Join (map (fun k => k +:+ " = ?") keys) " AND " = "")
               then "SELECT * FROM " +:+ t
               else ("SELECT * FROM " +:+ t) +:+ " WHERE " +:+
                    Str.Join (map (fun k => k +:+ " = ?") keys) " AND ")
              +:+ (if limit1 then " LIMIT 1" else "")))
  = Some (SSelect t keys limit1).
Proof.
  intros Ht Hkeys. unfold lex.
  assert (H1 : ∀ R, lexLoop ("SELECT * FROM " +:+ R) ""
                    = TWord "SELECT" :: TStar :: TWord "FROM" :: lexLoop R "")
    by reflexivity.
  assert (H2 : ∀ R, lexLoop (" WHERE " +:+ R) "" = TWord "WHERE" :: lexLoop R "")
    by reflexivity.
  destruct keys as [|k keys].
  - change (Str.Join (map (fun k => k +:+ " = ?") []) " AND ") with "".
    rewrite bool_decide_eq_true_2 by done.
    rewrite !append_assoc, H1, lex_word by (done || by destruct limit1).
    by destruct limit1.
  - change (map (fun k => k +:+ " = ?") (k :: keys))
      with ((k +:+ " = ?") :: map (fun k => k +:+ " = ?") keys).
    rewrite bool_decide_eq_false_2 by apply whereClause_nonempty.
    change ((k +:+ " = ?") :: map (fun k => k +:+ " = ?") keys)
      with (map (fun k => k +:+ " = ?") (k :: keys)).
    rewrite !append_assoc, H1, lex_word, H2, lex_condList by done.
    remember (condList (k :: keys)) as cs eqn:Hcs.
    replace (lexLoop (if limit1 then " LIMIT 1" else "") "")
      with (if limit1 then [TWord "LIMIT"; TWord "1"] else [])
      by (by destruct limit1).
    simpl. subst cs. by rewrite parseConditions_condList.
Qed.

Lemma parse_count (t : string) (keys : list string) :
  plainWord t = true → forallb plainWord keys = true →
  parse (lex (if bool_decide (Str.Join (map (fun k => k +:+ " = ?") keys) " AND " = "")
              then "SELECT COUNT(*) FROM " +:+ t
              else ("SELECT COUNT(*) FROM " +:+ t) +:+ " WHERE " +:+
                   Str.Join (map (fun k => k +:+ " = ?") keys) " AND "))
  = Some (SCount t keys).
Proof.
  intros Ht Hkeys. unfold lex.
  assert (H1 : ∀ R, lexLoop ("SELECT COUNT(*) FROM " +:+ R) ""
                    = TWord "SELECT" :: TWord "COUNT" :: TLParen :: TStar :: TRParen
                        :: TWord "FROM" :: lexLoop R "")
    by reflexivity.
  assert (H2 : ∀ R, lexLoop (" WHERE " +:+ R) "" = TWord "WHERE" :: lexLoop R "")
    by reflexivity.
  destruct keys as [|k keys].
  - change (Str.Join (map (fun k => k +:+ " = ?") []) " AND ") with "".
    rewrite bool_decide_eq_true_2 by done.
    rewrite H1.
    assert (Hw : lexLoop t "" = [TWord t]).
    { pose proof (lex_word t "" Ht eq_refl) as Hw. by rewrite append_nil_r in Hw. }
    by rewrite Hw.
  - change (map (fun k => k +:+ " = ?") (k :: keys))
      with ((k +:+ " = ?") :: map (fun k => k +:+ " = ?") keys).
    rewrite bool_decide_eq_false_2 by apply whereClause_nonempty.
    change ((k +:+ " = ?") :: map (fun k => k +:+ " = ?") keys)
      with (map (fun k => k +:+ " = ?") (k :: keys)).
    rewrite !append_assoc, H1, lex_word, H2 by done.
    pose proof (lex_condList (k :: keys) "" Hkeys) as Hl.
    rewrite append_nil_r in Hl. rewrite Hl. clear Hl.
    pose proof (parseConditions_condList (k :: keys) false) as Hp.
    remember (condList (k :: keys)) as cs eqn:Hcs.
    change (lexLoop "" "") with (@nil Token).
    simpl. by rewrite Hp.
Qed.

Lemma parse_delete (t pk : string) :
  plainWord t = true → plainWord pk = true →
  parse (lex ("DELETE FROM " +:+ t +:+ " WHERE " +:+ pk +:+ " = ?"))
  = Some (SDelete t pk).
Proof.
  intros Ht Hpk. unfold lex.
  assert (H1 : ∀ R, lexLoop ("DELETE FROM " +:+ R) ""
                    = TWord "DELETE" :: TWord "FROM" :: lexLoop R "") by reflexivity.
  assert (H2 : ∀ R, lexLoop (" WHERE " +:+ R) "" = TWord "WHERE" :: lexLoop R "")
    by reflexivity.
  rewrite H1, lex_word, H2, lex_word by done. done.
Qed.

Lemma parse_update (t pk : string) (cols : list string) :
  plainWord t = true → plainWord pk = true →
  forallb plainWord cols = true → cols ≠ [] →
  parse (lex ("UPDATE " +:+ t +:+ " SET " +:+
              Str.Join (map (fun c => c +:+ " = ?") cols) ", " +:+
              " WHERE " +:+ pk +:+ " = ?"))
  = Some (SUpdate t cols pk).
Proof.
  intros Ht Hpk Hcols Hne. unfold lex.
  assert (H1 : ∀ R, lexLoop ("UPDATE " +:+ R) "" = TWord "UPDATE" :: lexLoop R "")
    by reflexivity.
  assert (H2 : ∀ R, lexLoop (" SET " +:+ R) "" = TWord "SET" :: lexLoop R "")
    by reflexivity.
  assert (H3 : ∀ R, lexLoop (" WHERE " +:+ R) "" = TWord "WHERE" :: lexLoop R "")
    by reflexivity.
  rewrite H1, lex_word, H2, lex_assignList, H3, lex_word by done.
  change (lexLoop " = ?" "") with [TEq; TQuestion].
  remember (assignList cols) as cs eqn:Hcs.
  simpl. subst cs.
  change (TWord "WHERE" :: TWord pk :: [TEq; TQuestion])
    with [TWord "WHERE"; TWord pk; TEq; TQuestion].
  by rewrite parseAssignments_assignList.
Qed.

Lemma identifier_wordChar (c : ascii) :
  isLetter c || isDigit c = true → wordChar c = true.
Proof. destruct c as [[] [] [] [] [] [] [] []]; by vm_compute. Qed.

Lemma isIdentifier_plainWord (w : string) :
  isIdentifier w = true → plainWord w = true.
Proof.
  destruct w as [|c w]; [done|]. simpl.
  intros [Hc Hw]%andb_prop. unfold plainWord.
  rewrite bool_decide_eq_false_2 by done. simpl.
  rewrite identifier_wordChar by (by rewrite Hc). simpl.
  induction w as [|d w IH]; [done|]. simpl in *.
  apply andb_prop in Hw as [Hd Hw].
  by rewrite identifier_wordChar, IH.
Qed.

Section Prepare.
Context `{Platform}.

Lemma isName_plainWord (w : string) : isName w = true → plainWord w = true.
Proof.
  unfold isName. intros [Hi _]%andb_prop. by apply isIdentifier_plainWord.
Qed.

Lemma isName_plainWords (ws : list string) :
  forallb isName ws = true → forallb plainWord ws = true.
Proof.
  induction ws as [|w ws IH]; [done|]. simpl.
  intros [Hw Hws]%andb_prop. by rewrite isName_plainWord, IH.
Qed.

Lemma prepare_insert (t : string) (cols : list string) {A} (l : list A) :
  isName t = true → forallb isName cols = true → cols ≠ [] → l ≠ [] →
  prepare ("INSERT INTO " +:+ t +:+ " (" +:+ Str.Join cols ", " +:+
           ") VALUES (" +:+ Str.Join (map (fun _ => "?") l) ", " +:+ ")")
  = Some (SInsert t cols (length l)).
Proof.
  intros Ht Hcols Hne Hl. unfold prepare.
  rewrite parse_insert by (done || by apply isName_plainWord || by apply isName_plainWords).
  cbn [namesOf forallb]. by rewrite Ht, Hcols.
Qed.

Lemma prepare_select (t : string) (keys : list string) (limit1 : bool) :
  isName t = true → forallb isName keys = true →
  prepare ((if bool_decide (Str.Join (map (fun k => k +:+ " = ?") keys) " AND " = "")
            then "SELECT * FROM " +:+ t
            else ("SELECT * FROM " +:+ t) +:+ " WHERE " +:+
                 Str.Join (map (fun k => k +:+ " = ?") keys) " AND ")
           +:+ (if limit1 then " LIMIT 1" else ""))
  = Some (SSelect t keys limit1).
Proof.
  intros Ht Hkeys. unfold prepare.
  rewrite parse_select by (by apply isName_plainWord || by apply isName_plainWords).
  cbn [namesOf forallb]. by rewrite Ht, Hkeys.
Qed.

Lemma prepare_count (t : string) (keys : list string) :
  isName t = true → forallb isName keys = true →
  prepare (if bool_decide (Str.Join (map (fun k => k +:+ " = ?") keys) " AND " = "")
           then "SELECT COUNT(*) FROM " +:+ t
           else ("SELECT COUNT(*) FROM " +:+ t) +:+ " WHERE " +:+
                Str.Join (map (fun k => k +:+ " = ?") keys) " AND ")
  = Some (SCount t keys).
Proof.
  intros Ht Hkeys. unfold prepare.
  rewrite parse_count by (by apply isName_plainWord || by apply isName_plainWords).
  cbn [namesOf forallb]. by rewrite Ht, Hkeys.
Qed.

Lemma prepare_delete (t pk : string) :
  isName t = true → isName pk = true →
  prepare ("DELETE FROM " +:+ t +:+ " WHERE " +:+ pk +:+ " = ?") = Some (SDelete t pk).
Proof.
  intros Ht Hpk. unfold prepare.
  rewrite parse_delete by (by apply isName_plainWord).
  cbn [namesOf forallb]. by rewrite Ht, Hpk.
Qed.

Lemma prepare_update (t pk : string) (cols : list string) :
  isName t = true → isName pk = true → forallb isName cols = true → cols ≠ [] →
  prepare ("UPDATE " +:+ t +:+ " SET " +:+
           Str.Join (map (fun c => c +:+ " = ?") cols) ", " +:+
           " WHERE " +:+ pk +:+ " = ?")
  = Some (SUpdate t cols pk).
Proof.
  intros Ht Hpk Hcols Hne. unfold prepare.
  rewrite parse_update
    by (done || by apply isName_plainWord || by apply isName_plainWords).
  cbn [namesOf forallb]. by rewrite Ht, Hpk, Hcols.
Qed.

End Prepare.

(* ===================================================================== *)
(** ** After Close *)
(* ===================================================================== *)

Lemma extractFieldsForInsertLoop_no_error (primaryKey : string)
    (fields : list (StructField * GoValue)) :
  ∀ acc cache e cache',
  extractFieldsForInsertLoop primaryKey fields acc cache ≠ (Err e, cache').
Proof.
  induction fields as [|[field fieldValue] rest IH]; intros acc cache e cache'; simpl.
  - done.
  - unfold Interface. destruct (IsExported field); [|done].
    destruct fieldValue; simpl; try done;
      repeat match goal with
             | |- context [if ?b then _ else _] => destruct b
             | |- context [let '(_, _) := ?p in _] => destruct p
             end; apply IH.
Qed.

Lemma extractFieldsForInsert_error (data : GoValue) (primaryKey : string)
    (cache cache' : Cache) (e : GoError) :
  extractFieldsForInsert data primaryKey cache = (Err e, cache') →
  errorsIs e ErrInvalidInput = true.
Proof.
  unfold extractFieldsForInsert.
  destruct (indirect data); try (intros [= <- _]; done).
  intros Heq. by apply extractFieldsForInsertLoop_no_error in Heq.
Qed.

Lemma extractFieldsForUpdateLoop_no_error (fields : list (StructField * GoValue)) :
  ∀ updateFields values cache e cache',
  extractFieldsForUpdateLoop fields updateFields values cache ≠ (Err e, cache').
Proof.
  induction fields as [|[field fieldValue] rest IH];
    intros uf vals cache e cache'; simpl.
  - done.
  - unfold Interface. destruct (IsExported field); [|done].
    destruct fieldValue; simpl; try done;
      repeat match goal with
             | |- context [if ?b then _ else _] => destruct b
             | |- context [let '(_, _) := ?p in _] => destruct p
             end; apply IH.
Qed.

Lemma extractFieldsForUpdate_error (data : GoValue) (now : Time)
    (cache cache' : Cache) (e : GoError) :
  extractFieldsForUpdate data now cache = (Err e, cache') →
  errorsIs e ErrInvalidInput = true.
Proof.
  unfold extractFieldsForUpdate.
  destruct (indirect data); try (intros [= <- _]; done).
  destruct (extractFieldsForUpdateLoop fields [] [] cache) as [[[uf vals]|e'|m] cache1] eqn:Hl.
  - repeat case_bool_decide; intros [=].
  - by apply extractFieldsForUpdateLoop_no_error in Hl.
  - intros [=].
Qed.

Lemma validateResultType_error (result : GoValue) (e : GoError) :
  validateResultType result = Some e → errorsIs e ErrInvalidInput = true.
Proof.
  unfold validateResultType.
  destruct result as [| | | | | | |[r|]| |]; try (intros [= <-]; done).
  destruct (kindOf r); intros [= <-]; done.
Qed.

Section AfterClose.
Context `{Platform}.

Lemma ExecContext_closed (db : SqlDB) (query : string) (args : list GoValue) :
  closed db = true →
  ExecContext db query args = (inl "sql: database is closed", db).
Proof. intros Hc. unfold ExecContext. by rewrite Hc. Qed.

Lemma QueryContext_closed (db : SqlDB) (query : string) (args : list GoValue) :
  closed db = true →
  QueryContext db query args = inl "sql: database is closed".
Proof. intros Hc. unfold QueryContext. by rewrite Hc. Qed.

Lemma unusable_Close (w : World) : unusable (Close w).
Proof. unfold unusable, Close. by destruct w as [cache [db|]]. Qed.

Lemma internal_fails (w w' : World) (detail : string) :
  conn w' = conn w →
  failsWithoutConnection (Err (Wrapf ErrInternal detail), w') w.
Proof.
  intros Hw. split; [done|]. split; [|done].
  intros e [= <-]. split; [by left | done].
Qed.

Lemma invalid_fails (w w' : World) (e : GoError) :
  errorsIs e ErrInvalidInput = true → conn w' = conn w →
  failsWithoutConnection (Err e, w') w.
Proof.
  intros He Hw. split; [done|]. split; [|done].
  intros e' [= <-]. split; [by right|].
  destruct e as [s|s d|m|m]; simpl in *; try done;
    apply bool_decide_eq_true in He; by subst.
Qed.

Lemma panic_fails (w w' : World) (m : string) :
  conn w' = conn w → failsWithoutConnection (Panic m, w') w.
Proof. intros Hw. split; [done|]. split; [|done]. intros e [=]. Qed.

Lemma run_unusable (c : SQLiteCollection) (op : Operation) (w : World) :
  unusable w → failsWithoutConnection (run c op w) w.
Proof.
  unfold unusable. destruct w as [cache [db|]]; simpl; intros Hu.
  - destruct op; simpl.
    + unfold Create. simpl.
      destruct (extractFieldsForInsert data (primaryKey c) cache)
        as [[f|e|m] cache1] eqn:He.
      * rewrite ExecContext_closed by done. simpl. by apply internal_fails.
      * apply invalid_fails; [by eapply extractFieldsForInsert_error | done].
      * by apply panic_fails.
    + unfold GetById. simpl.
      destruct (validateResultType result) as [e|] eqn:Hv.
      * apply invalid_fails; [by eapply validateResultType_error | done].
      * rewrite QueryContext_closed by done. by apply internal_fails.
    + unfold GetOne. simpl.
      destruct (validateResultType result) as [e|] eqn:Hv.
      * apply invalid_fails; [by eapply validateResultType_error | done].
      * destruct (buildWhereClause filter) as [whereClause values].
        rewrite QueryContext_closed by done. by apply internal_fails.
    + unfold GetAllByCondition. simpl.
      destruct results as [| | | | | | |[sliceValue|]| |];
        try (by apply invalid_fails).
      destruct sliceValue as [| | | | | | | |elemType xs|];
        try (by apply invalid_fails).
      destruct (kindOf elemType); try (by apply invalid_fails).
      destruct (buildWhereClause filter) as [whereClause values].
      rewrite QueryContext_closed by done. by apply internal_fails.
    + unfold UpdateById. simpl.
      destruct (extractFieldsForUpdate data now cache)
        as [[[uf vals]|e|m] cache1] eqn:He.
      * rewrite ExecContext_closed by done. simpl. by apply internal_fails.
      * apply invalid_fails; [by eapply extractFieldsForUpdate_error | done].
      * by apply panic_fails.
    + unfold DeleteById. simpl.
      rewrite ExecContext_closed by done. simpl. by apply internal_fails.
    + unfold Count. simpl.
      destruct (buildWhereClause filter) as [whereClause values].
      rewrite QueryContext_closed by done. by apply internal_fails.
  - destruct op; simpl;
      try (by apply internal_fails).
Qed.

(** C8, as amended.  After [Close], every operation of every collection
    handle fails and leaves the handle as it is, closed: the error wraps
    Internal, or InvalidInput when the operation rejects its argument before
    it reaches the engine, and never the connection-failure sentinel. *)
Theorem use_after_close (name : string) (op : Operation) (w : World) :
  let r := run (Collection name) op (Close w) in
  r.1 ≠ Ok tt
  ∧ (∀ e, r.1 = Err e →
       (errorsIs e ErrInternal = true ∨ errorsIs e ErrInvalidInput = true)
       ∧ errorsIs e ErrDatabaseConnection = false)
  ∧ conn r.2 = conn (Close w).
Proof. apply run_unusable, unusable_Close. Qed.

End AfterClose.

(** C8 as stated fails: on a closed database [DeleteById] returns an error
    that wraps Internal, not the connection-failure sentinel. *)
Lemma use_after_close_counterexample :
  (DeleteById (H := examplePlatform) (Collection "users") "u1" (Close exampleWorld)).1
  = Err (Wrapf ErrInternal "sql: database is closed")
  ∧ errorsIs (Wrapf ErrInternal "sql: database is closed") ErrDatabaseConnection = false.
Proof. split; reflexivity. Qed.

(* ===================================================================== *)
(** ** Lemmas on tables *)
(* ===================================================================== *)

Lemma storeTable_same (ts : list (string * Table)) (name : string) (t : Table) :
  lookupTable ts name = Some t → storeTable ts name t = ts.
Proof.
  induction ts as [|[n t0] rest IH]; simpl; [done|].
  case_bool_decide; [by intros [= ->] | intros Hl; by rewrite IH].
Qed.

Lemma lookupTable_storeTable (ts : list (string * Table)) (name : string)
    (t t' : Table) :
  lookupTable ts name = Some t → lookupTable (storeTable ts name t') name = Some t'.
Proof.
  induction ts as [|[n t0] rest IH]; simpl; [done|].
  case_bool_decide as Hn; simpl.
  - by rewrite bool_decide_eq_true_2.
  - intros Hl. rewrite bool_decide_eq_false_2 by done. by apply IH.
Qed.

Lemma undeclared_None (names cols : list string) :
  Forall (fun c => c ∈ names) cols → undeclared names cols = None.
Proof.
  unfold undeclared. induction 1 as [|c cols Hc Hcols IH]; simpl; [done|].
  by rewrite bool_decide_eq_true_2.
Qed.

Lemma filter_none {A} (p : A → bool) (l : list A) :
  Forall (fun x => p x = false) l → List.filter p l = [].
Proof. induction 1 as [|x l Hx Hl IH]; simpl; [done|]. by rewrite Hx. Qed.

Lemma filter_all {A} (p : A → bool) (l : list A) :
  Forall (fun x => p x = true) l → List.filter p l = l.
Proof. induction 1 as [|x l Hx Hl IH]; simpl; [done|]. by rewrite Hx, IH. Qed.

Lemma sqlEq_SText_false (v : SqlValue) (s : string) :
  v ≠ SText s → sqlEq v (SText s) = false.
Proof.
  intros Hv. destruct v; simpl; try done; by rewrite bool_decide_eq_false_2.
Qed.

(* ===================================================================== *)
(** ** Deleting what is not there *)
(* ===================================================================== *)

Section DeleteMissing.
Context `{Platform} `{FirestoreLib}.

Lemma ExecContext_delete_missing (db : SqlDB) (name id : string) (t : Table) :
  closed db = false →
  isName name = true →
  isName "id" = true →
  lookupTable (tables db) name = Some t →
  "id" ∈ columnNames t →
  Forall (fun row => cell (columnNames t) row "id" ≠ SText id) (trows t) →
  ExecContext db (deleteQuery (Collection name)) [VString id] = (inr 0%Z, db).
Proof.
  intros Hopen Hname Hpk Ht Hid Hrows. unfold ExecContext, deleteQuery. rewrite Hopen.
  simpl convertArgs. cbn iota.
  change (primaryKey (Collection name)) with "id".
  change (tableName (Collection name)) with name.
  rewrite prepare_delete by done. simpl. rewrite Ht.
  unfold execDelete.
  rewrite undeclared_None by (by repeat constructor).
  assert (Hmiss : Forall (fun row => sqlEq (cell (columnNames t) row "id") (SText id) = false)
                         (trows t)).
  { eapply Forall_impl; [exact Hrows|]. intros row Hrow. by apply sqlEq_SText_false. }
  rewrite filter_none by done.
  rewrite filter_all.
  - simpl. destruct t as [cols rows]. simpl.
    rewrite storeTable_same by done.
    destruct db as [cl ts]. simpl in *. by subst.
  - eapply Forall_impl; [exact Hmiss|]. intros row Hrow. simpl in *. by rewrite Hrow.
Qed.

(** C4.  For an identifier that no stored record has, on an open connection
    with the table in place and an initialised client, the relational
    [DeleteById] finds zero rows affected and returns an error that wraps
    NotFound, and the document [DeleteById] returns no error; both leave the
    store as it was. *)
Theorem delete_of_missing (name id : string) (w : World) (db : SqlDB) (t : Table)
    (f : FirestoreCollection) (fw : FsWorld) :
  conn w = Some db →
  closed db = false →
  isName name = true →
  isName "id" = true →
  lookupTable (tables db) name = Some t →
  "id" ∈ columnNames t →
  Forall (fun row => cell (columnNames t) row "id" ≠ SText id) (trows t) →
  client fw = Some false →
  validDocumentID id = true →
  collectionDocs fw (collectionName f) !! id = None →
  (ExecContext db (deleteQuery (Collection name)) [VString id]).1 = inr 0%Z
  ∧ DeleteById (Collection name) id w = (Err (Wrapf ErrNotFound ("id " +:+ id)), w)
  ∧ errorsIs (Wrapf ErrNotFound ("id " +:+ id)) ErrNotFound = true
  ∧ FsDeleteById f id fw = (Ok tt, fw).
Proof.
  intros Hconn Hopen Hname Hpk Ht Hid Hrows Hclient Hvalid Hdoc.
  pose proof (ExecContext_delete_missing db name id t Hopen Hname Hpk Ht Hid Hrows)
    as Hexec.
  split; [by rewrite Hexec|]. split; [|split; [done|]].
  - unfold DeleteById, GetConn. rewrite Hconn, Hexec. simpl.
    destruct w as [cache c]. simpl in *. by subst.
  - unfold FsDeleteById, docDelete. rewrite Hclient, Hvalid. simpl.
    unfold collectionDocs in Hdoc.
    destruct (documents fw !! collectionName f) as [docs|] eqn:Hdocs; simpl in *.
    + rewrite delete_id by done. rewrite insert_id by done.
      destruct fw as [cl docs']. simpl in *. by subst.
    + destruct fw as [cl docs']. simpl in *. by subst.
Qed.

End DeleteMissing.

Lemma delete_of_missing_witness :
  DeleteById (H := examplePlatform) (Collection "users") "u2" exampleWorld
  = (Err (Wrapf ErrNotFound "id u2"), exampleWorld)
  ∧ FsDeleteById (H := exampleFirestoreLib) (mkFirestoreCollection "items") "i2"
      exampleFsWorld
    = (Ok tt, exampleFsWorld).
Proof.
  pose proof (delete_of_missing (H := examplePlatform) (H0 := exampleFirestoreLib)
                "users" "u2" exampleWorld
                (mkSqlDB false [("users", exampleUsers)]) exampleUsers
                (mkFirestoreCollection "items") exampleFsWorld
                eq_refl eq_refl eq_refl eq_refl eq_refl) as Hthm.
  assert (Hid : "id" ∈ columnNames exampleUsers) by constructor.
  assert (Hrows : Forall (fun row => cell (columnNames exampleUsers) row "id" ≠ SText "u2")
                         (trows exampleUsers)) by (by repeat constructor).
  destruct (Hthm Hid Hrows eq_refl eq_refl eq_refl) as (_ & Hrel & _ & Hdoc).
  by split.
Defined.

(* ===================================================================== *)
(** ** Mapping rows to structs *)
(* ===================================================================== *)

Section RowMapping.
Context `{Platform}.

Lemma mapRowToStructLoop_spec (columnMap : gmap string DriverValue)
    (fields : list (StructField * GoValue)) :
  ∀ cache, cacheSound cache →
  (mapRowToStructLoop columnMap fields cache).1 = map (setFromRow columnMap) fields
  ∧ cacheSound (mapRowToStructLoop columnMap fields cache).2.
Proof.
  induction fields as [|[field fieldValue] rest IH]; intros cache Hc; [done|].
  cbn [mapRowToStructLoop map]. unfold setFromRow at 1. cbn [fst snd].
  destruct (CanSet field); cbn [negb].
  - destruct (columnNameOf_sound field cache Hc) as [Hname Hc'].
    destruct (columnNameOf field cache) as [columnName cache1]. simpl in Hname, Hc'.
    subst columnName.
    destruct (IH cache1 Hc') as [Hrest Hc''].
    destruct (mapRowToStructLoop columnMap rest cache1) as [rest' cache2].
    simpl in *. subst rest'. split; [|done].
    destruct (columnMap !! columnOf field) as [[]|]; done.
  - destruct (IH cache Hc) as [Hrest Hc''].
    destruct (mapRowToStructLoop columnMap rest cache) as [rest' cache2].
    simpl in *. by subst rest'.
Qed.

Lemma mapRowToStruct_spec (rows : Rows) (row : list SqlValue) (elem : GoValue)
    (cache : Cache) :
  cacheSound cache →
  (mapRowToStruct rows row elem cache).1 = Ok (rowToStruct rows row elem)
  ∧ cacheSound (mapRowToStruct rows row elem cache).2.
Proof.
  intros Hc. unfold mapRowToStruct, rowToStruct.
  destruct elem; try done.
  destruct (mapRowToStructLoop_spec
              (columnMapOf (rcolumns rows) (Scan rows row) ∅) fields cache Hc)
    as [Hf Hc'].
  destruct (mapRowToStructLoop _ fields cache) as [fields' cache']. simpl in *.
  by subst.
Qed.

Lemma appendRows_spec (rows : Rows) (elemType : GoValue) (todo : list (list SqlValue)) :
  ∀ slice cache, cacheSound cache →
  (appendRows rows todo elemType slice cache).1
  = Ok (slice ++ map (fun row => rowToStruct rows row (zeroOf elemType)) todo)
  ∧ cacheSound (appendRows rows todo elemType slice cache).2.
Proof.
  induction todo as [|row rest IH]; intros slice cache Hc; simpl.
  - by rewrite app_nil_r.
  - destruct (mapRowToStruct_spec rows row (zeroOf elemType) cache Hc) as [Hr Hc'].
    destruct (mapRowToStruct rows row (zeroOf elemType) cache) as [r cache1].
    simpl in *. subst r.
    destruct (IH (slice ++ [rowToStruct rows row (zeroOf elemType)]) cache1 Hc')
      as [Hrest Hc''].
    rewrite Hrest. by rewrite <- app_assoc.
Qed.

Lemma runQuery_rerr (stmt : Stmt) (args : list SqlValue) (ts : list (string * Table))
    (rows : Rows) :
  runQuery stmt args ts = inr rows → rerr rows = None.
Proof.
  unfold runQuery. intros Hq.
  repeat match type of Hq with
         | match ?x with _ => _ end = _ => destruct x eqn:?
         | (if ?b then _ else _) = _ => destruct b eqn:?
         end; simplify_eq; done.
Qed.

Lemma QueryContext_rerr (db : SqlDB) (query : string) (args : list GoValue)
    (rows : Rows) :
  QueryContext db query args = inr rows → rerr rows = None.
Proof.
  unfold QueryContext. intros Hq.
  destruct (closed db); [done|].
  destruct (convertArgs args); [done|].
  destruct (prepare query); [|done].
  by eapply runQuery_rerr.
Qed.

End RowMapping.

(* ===================================================================== *)
(** ** Queries with a filter *)
(* ===================================================================== *)

Lemma convertArgs_length (args : list GoValue) :
  ∀ ds, convertArgs args = inr ds → length ds = length args.
Proof.
  induction args as [|a rest IH]; intros ds; simpl.
  - by intros [= <-].
  - destruct (convertValue a); [done|].
    destruct (convertArgs rest) as [|ds']; [done|].
    intros [= <-]. simpl. by rewrite (IH ds').
Qed.

Section FilterQueries.
Context `{Platform}.

Lemma QueryContext_select (db : SqlDB) (name : string) (filter : Filter)
    (limit1 : bool) (t : Table) (ds : list DriverValue) :
  closed db = false →
  isName name = true →
  forallb isName (map fst filter) = true →
  convertArgs (map snd filter) = inr ds →
  lookupTable (tables db) name = Some t →
  Forall (fun k => k ∈ columnNames t) (map fst filter) →
  QueryContext db
    (selectQuery (Collection name) (buildWhereClause filter).1
       +:+ (if limit1 then " LIMIT 1" else ""))
    (buildWhereClause filter).2
  = inr (mkRows (columnNames t) (map ctype (tcols t))
           (if limit1 then take 1 (matching t filter ds) else matching t filter ds)
           None).
Proof.
  intros Hopen Hname Hkeys Hconv Ht Hdecl.
  rewrite buildWhereClause_spec. cbn [fst snd].
  unfold QueryContext. rewrite Hopen, Hconv.
  unfold selectQuery. change (tableName (Collection name)) with name.
  rewrite map_condition_keys, prepare_select by done.
  cbn [runQuery]. rewrite Ht.
  unfold argumentCount.
  rewrite bool_decide_eq_true_2
    by (rewrite !length_map, (convertArgs_length _ _ Hconv); by rewrite length_map).
  unfold execSelect. by rewrite undeclared_None.
Qed.

End FilterQueries.

(* ===================================================================== *)
(** ** The results slice of GetAllByCondition *)
(* ===================================================================== *)

Section ResultsSlice.
Context `{Platform} `{FirestoreLib}.

Lemma appendDocs_prefix (docs : list (string * Document)) (elemType elem : GoValue) :
  ∀ (xs ys r : list GoValue) (e : GoValue),
  appendDocs docs elemType (VSlice elem (Some xs)) = Ok (VSlice e (Some r)) →
  appendDocs docs elemType (VSlice elem (Some (ys ++ xs))) = Ok (VSlice e (Some (ys ++ r))).
Proof.
  induction docs as [|[refID doc] rest IH]; intros xs ys r e; simpl.
  - by intros [= <- <-].
  - destruct (DataTo doc (VPtr (Some (zeroOf elemType)))) as [err|item]; [done|].
    intros Hrest. rewrite <- app_assoc. by apply IH.
Qed.

Lemma GetAllByCondition_rows (name : string) (filter : Filter) (elemType : GoValue)
    (xs : option (list GoValue)) (w : World) (db : SqlDB) (rows : Rows) :
  cacheSound (fieldNameCache w) →
  conn w = Some db →
  kindOf elemType = KStruct →
  QueryContext db (selectQuery (Collection name) (buildWhereClause filter).1)
               (buildWhereClause filter).2 = inr rows →
  (GetAllByCondition (Collection name) filter (VPtr (Some (VSlice elemType xs))) w).1
  = Ok (VSlice elemType
          (Some (map (fun row => rowToStruct rows row (zeroOf elemType)) (rdata rows)))).
Proof.
  intros Hc Hconn Hk Hq. unfold GetAllByCondition, GetConn. rewrite Hconn, Hk.
  destruct (buildWhereClause filter) as [whereClause values]. cbn [fst snd] in Hq.
  rewrite Hq.
  destruct (appendRows_spec rows elemType (rdata rows) [] (fieldNameCache w) Hc)
    as [Hrows _].
  destruct (appendRows rows (rdata rows) elemType [] (fieldNameCache w))
    as [r cache1]. simpl in Hrows. subst r.
  by rewrite (QueryContext_rerr _ _ _ _ Hq).
Qed.

End ResultsSlice.

(* ===================================================================== *)
(** ** Filters that match nothing *)
(* ===================================================================== *)

Section ZeroMatches.
Context `{Platform} `{FirestoreLib}.

Lemma queryDocuments_none (fw : FsWorld) (name : string) (filter : Filter) :
  forallb (fun '(field, _) => validFieldPath field) filter = true →
  (∀ id doc, collectionDocs fw name !! id = Some doc → docMatches filter doc = false) →
  queryDocuments false fw name filter = inr [].
Proof.
  intros Hpaths Hnone. unfold queryDocuments. rewrite Hpaths. simpl. f_equal.
  apply filter_none, Forall_forall. intros [id doc] Hin.
  apply elem_of_map_to_list in Hin. by eapply Hnone.
Qed.

(** C5, as amended.  For a filter that no record satisfies, [GetOne] returns
    NotFound on both backends and [GetAllByCondition] returns no error on
    both; the relational one sets the results to the empty slice, while the
    document one leaves the results slice as the caller passed it. *)
Theorem zero_matches (name : string) (filter : Filter) (w : World) (db : SqlDB)
    (t : Table) (ds : list DriverValue) (result : GoValue) (elemType : GoValue)
    (xs : option (list GoValue)) (f : FirestoreCollection) (fw : FsWorld)
    (slice docElem : GoValue) :
  conn w = Some db →
  closed db = false →
  isName name = true →
  lookupTable (tables db) name = Some t →
  forallb isName (map fst filter) = true →
  Forall (fun k => k ∈ columnNames t) (map fst filter) →
  convertArgs (map snd filter) = inr ds →
  matching t filter ds = [] →
  validateResultType result = None →
  kindOf elemType = KStruct →
  client fw = Some false →
  forallb (fun '(field, _) => validFieldPath field) filter = true →
  (∀ id doc, collectionDocs fw (collectionName f) !! id = Some doc →
             docMatches filter doc = false) →
  sliceElem slice = Some docElem →
  (GetOne (Collection name) filter result w).1 = Err (Bare ErrNotFound)
  ∧ (GetAllByCondition (Collection name) filter (VPtr (Some (VSlice elemType xs))) w).1
    = Ok (VSlice elemType (Some []))
  ∧ FsGetOne f filter result fw = Err (Bare ErrNotFound)
  ∧ FsGetAllByCondition f filter (VPtr (Some slice)) fw = Ok slice.
Proof.
  intros Hconn Hopen Hname Ht Hkeys Hdecl Hconv Hnone Hres Hk Hclient Hpaths Hdocs Hslice.
  split; [|split; [|split]].
  - unfold GetOne, GetConn. rewrite Hconn, Hres.
    pose proof (QueryContext_select db name filter true t ds
                  Hopen Hname Hkeys Hconv Ht Hdecl) as Hq.
    destruct (buildWhereClause filter) as [whereClause values]. cbn [fst snd] in Hq.
    rewrite Hq, Hnone. done.
  - unfold GetAllByCondition, GetConn. rewrite Hconn, Hk.
    pose proof (QueryContext_select db name filter false t ds
                  Hopen Hname Hkeys Hconv Ht Hdecl) as Hq.
    rewrite append_nil_r in Hq.
    destruct (buildWhereClause filter) as [whereClause values]. cbn [fst snd] in Hq.
    rewrite Hq, Hnone. done.
  - unfold FsGetOne. rewrite Hclient, queryDocuments_none by done. done.
  - unfold FsGetAllByCondition. rewrite Hclient, queryDocuments_none by done.
    by rewrite Hslice.
Qed.

End ZeroMatches.

Lemma zero_matches_witness :
  (GetOne (H := examplePlatform) (Collection "users") [("username", VString "bob")]
     (VPtr (Some (VStruct [(dbField "ID" "id", VString "")]))) exampleWorld).1
  = Err (Bare ErrNotFound)
  ∧ (GetAllByCondition (H := examplePlatform) (Collection "users")
       [("username", VString "bob")]
       (VPtr (Some (VSlice (VStruct [(dbField "ID" "id", VString "")])
                           (Some [VStruct [(dbField "ID" "id", VString "stale")]]))))
       exampleWorld).1
    = Ok (VSlice (VStruct [(dbField "ID" "id", VString "")]) (Some []))
  ∧ FsGetOne (H := exampleFirestoreLib) (mkFirestoreCollection "items")
      [("name", VString "bread")]
      (VPtr (Some (VStruct [(dbField "ID" "id", VString "")]))) exampleFsWorld
    = Err (Bare ErrNotFound)
  ∧ FsGetAllByCondition (H := exampleFirestoreLib) (mkFirestoreCollection "items")
      [("name", VString "bread")]
      (VPtr (Some (VSlice (exampleItem "" "") None))) exampleFsWorld
    = Ok (VSlice (exampleItem "" "") None).
Proof.
  apply (zero_matches (H := examplePlatform) (H0 := exampleFirestoreLib)
           "users" [("username", VString "bob")] exampleWorld
           (mkSqlDB false [("users", exampleUsers)]) exampleUsers [DString "bob"]
           (VPtr (Some (VStruct [(dbField "ID" "id", VString "")])))
           (VStruct [(dbField "ID" "id", VString "")])
           (Some [VStruct [(dbField "ID" "id", VString "stale")]])
           (mkFirestoreCollection "items") exampleFsWorld
           (VSlice (exampleItem "" "") None) (exampleItem "" ""));
    try reflexivity.
  - repeat constructor.
  - intros id doc. unfold collectionDocs, exampleFsWorld. simpl.
    rewrite lookup_singleton_eq. simpl.
    destruct (decide (id = "i1")) as [->|Hne].
    + rewrite lookup_singleton_eq. by intros [= <-].
    + by rewrite lookup_singleton_ne.
Defined.

(** C5 as stated fails on the document backend: with no match, the results
    slice keeps the element it held and is not empty. *)
Lemma zero_matches_counterexample :
  queryDocuments (H := exampleFirestoreLib) false exampleFsWorld "items"
    [("name", VString "bread")] = inr []
  ∧ FsGetAllByCondition (H := exampleFirestoreLib) (mkFirestoreCollection "items")
      [("name", VString "bread")]
      (VPtr (Some (VSlice (exampleItem "" "") (Some [exampleItem "i0" "stale"]))))
      exampleFsWorld
    = Ok (VSlice (exampleItem "" "") (Some [exampleItem "i0" "stale"])).
Proof. split; vm_compute; reflexivity. Qed.

(* ===================================================================== *)
(** ** Filter keys *)
(* ===================================================================== *)

Section FilterKeys.
Context `{Platform}.

Lemma mapRowToStruct_ok (rows : Rows) (row : list SqlValue) (elem : GoValue)
    (cache : Cache) :
  ∃ r cache', mapRowToStruct rows row elem cache = (Ok r, cache').
Proof.
  unfold mapRowToStruct. destruct elem; eauto.
  destruct (mapRowToStructLoop _ fields cache). eauto.
Qed.

Lemma appendRows_ok (rows : Rows) (elemType : GoValue) (todo : list (list SqlValue)) :
  ∀ slice cache, ∃ r cache', appendRows rows todo elemType slice cache = (Ok r, cache').
Proof.
  induction todo as [|row rest IH]; intros slice cache; simpl; [eauto|].
  destruct (mapRowToStruct_ok rows row (zeroOf elemType) cache) as (r & cache1 & ->).
  apply IH.
Qed.

(** C2, as amended.  The translation of a filter cannot fail and checks no
    key: each key stands in the WHERE clause as it is, followed by [= ?], and
    the clause stands in the text of the query.  With a well-typed result
    argument, no filter makes [GetOne], [GetAllByCondition] or [Count] return
    InvalidInput. *)
Theorem filter_keys_not_validated (name : string) (filter : Filter) (w : World) :
  buildWhereClause filter
  = (Str.Join (map (fun kv => kv.1 +:+ " = ?") filter) " AND ", map snd filter)
  ∧ (filter ≠ [] →
     selectQuery (Collection name) (buildWhereClause filter).1
     = ("SELECT * FROM " +:+ name) +:+ " WHERE " +:+ (buildWhereClause filter).1
     ∧ countQuery (Collection name) (buildWhereClause filter).1
       = ("SELECT COUNT(*) FROM " +:+ name) +:+ " WHERE " +:+ (buildWhereClause filter).1)
  ∧ (∀ e, (Count (Collection name) filter w).1 = Err e →
          errorsIs e ErrInvalidInput = false)
  ∧ (∀ result e,
       validateResultType result = None →
       (GetOne (Collection name) filter result w).1 = Err e →
       errorsIs e ErrInvalidInput = false)
  ∧ (∀ elemType xs e,
       kindOf elemType = KStruct →
       (GetAllByCondition (Collection name) filter
          (VPtr (Some (VSlice elemType xs))) w).1 = Err e →
       errorsIs e ErrInvalidInput = false).
Proof.
  split; [apply buildWhereClause_spec|]. split; [|split; [|split]].
  - intros Hne. rewrite buildWhereClause_spec. cbn [fst].
    destruct filter as [|[k v] rest]; [done|].
    unfold selectQuery, countQuery.
    change (map (fun kv : string * GoValue => kv.1 +:+ " = ?") ((k, v) :: rest))
      with ((k +:+ " = ?") :: map (fun kv : string * GoValue => kv.1 +:+ " = ?") rest).
    by rewrite !bool_decide_eq_false_2 by apply whereClause_nonempty.
  - intros e. unfold Count, GetConn.
    destruct (conn w) as [db|]; [|by intros [= <-]].
    destruct (buildWhereClause filter) as [whereClause values].
    destruct (QueryContext db _ values) as [err|rows]; [by intros [= <-]|].
    destruct (rdata rows) as [|row rest]; [by intros [= <-]|].
    destruct (Scan rows row) as [|[] [|]]; by intros [= <-].
  - intros result e Hres. unfold GetOne, GetConn.
    destruct (conn w) as [db|]; [|by intros [= <-]].
    rewrite Hres.
    destruct (buildWhereClause filter) as [whereClause values].
    destruct (QueryContext db _ values) as [err|rows]; [by intros [= <-]|].
    destruct (rdata rows) as [|row rest]; [by intros [= <-]|].
    destruct (mapRowToStruct_ok rows row (indirect result) (fieldNameCache w))
      as (r & cache1 & ->).
    destruct (rerr rows); by intros [= <-].
  - intros elemType xs e Hk. unfold GetAllByCondition, GetConn.
    destruct (conn w) as [db|]; [|by intros [= <-]].
    rewrite Hk.
    destruct (buildWhereClause filter) as [whereClause values].
    destruct (QueryContext db _ values) as [err|rows]; [by intros [= <-]|].
    destruct (appendRows_ok rows elemType (rdata rows) [] (fieldNameCache w))
      as (r & cache1 & ->).
    destruct (rerr rows); by intros [= <-].
Qed.

End FilterKeys.

(** C2 as stated fails: a key with a semicolon is put into the clause as it
    is, and the error of the call wraps Internal, not InvalidInput. *)
Lemma filter_keys_not_validated_counterexample :
  isIdentifier "invalid;column" = false
  ∧ buildWhereClause [("invalid;column", VString "value")]
    = ("invalid;column = ?", [VString "value"])
  ∧ countQuery (Collection "users") "invalid;column = ?"
    = "SELECT COUNT(*) FROM users WHERE invalid;column = ?"
  ∧ ∃ detail,
      (Count (H := examplePlatform) (Collection "users")
         [("invalid;column", VString "value")] exampleWorld).1
      = Err (Wrapf ErrInternal detail)
      ∧ errorsIs (Wrapf ErrInternal detail) ErrInvalidInput = false.
Proof.
  split; [reflexivity|]. split; [reflexivity|]. split; [reflexivity|].
  eexists. split; reflexivity.
Qed.

(* ===================================================================== *)
(** ** The errors of the document collection *)
(* ===================================================================== *)

(** C3 at its failing inputs: the document [GetById] of a document that does
    not exist, and the document [Create] of a value that is not a struct, of a
    struct with an empty identifier, of a struct without identifier field and
    of a struct whose identifier is not a string, return errors made on the
    spot that wrap no sentinel of the taxonomy. *)
Lemma document_errors_outside_taxonomy :
  let items := mkFirestoreCollection "items" in
  let isAdhoc (r : Result string) (msg : string) :=
    r = Err (Adhoc msg) ∧ isTaxonomyError (Adhoc msg) = false in
  (FsGetById (H := exampleFirestoreLib) items "i2"
     (VPtr (Some (exampleItem "" ""))) exampleFsWorld
   = Err (Adhoc "document i2 not found")
   ∧ errorsIs (Adhoc "document i2 not found") ErrNotFound = false
   ∧ isTaxonomyError (Adhoc "document i2 not found") = false)
  ∧ isAdhoc (FsCreate (H := exampleFirestoreLib) items (VString "not a struct")
               exampleFsWorld).1
            "data is not a struct"
  ∧ isAdhoc (FsCreate (H := exampleFirestoreLib) items (exampleItem "" "milk")
               exampleFsWorld).1
            "ID field cannot be empty"
  ∧ isAdhoc (FsCreate (H := exampleFirestoreLib) items
               (VStruct [(fsField "Name" "name", VString "milk")]) exampleFsWorld).1
            "struct does not have an ID field"
  ∧ isAdhoc (FsCreate (H := exampleFirestoreLib) items
               (VStruct [(fsField "ID" "-", VInt Int 7)]) exampleFsWorld).1
            "ID field must be a string".
Proof. vm_compute. repeat split; reflexivity. Qed.

(* ===================================================================== *)
(** ** Create with an empty identifier *)
(* ===================================================================== *)

Lemma capturedId_none (primaryKey : string) (fields : list (StructField * GoValue)) :
  ∀ id0, Forall (fun fv => columnOf fv.1 ≠ primaryKey) fields →
  capturedId primaryKey fields id0 = id0.
Proof.
  unfold capturedId. induction fields as [|fv rest IH]; intros id0 Hall; [done|].
  inversion Hall as [|? ? Hfv Hrest]; subst. simpl.
  rewrite bool_decide_eq_false_2 by done. by apply IH.
Qed.

Lemma keptForInsert_elem (fields : list (StructField * GoValue))
    (fv : StructField * GoValue) :
  fv ∈ keptForInsert fields ↔ fv ∈ fields ∧ nonZero fv = true.
Proof.
  unfold keptForInsert. rewrite !list_elem_of_In, filter_In. done.
Qed.

Section EmptyIdentifier.
Context `{Platform}.

(** C9.  The relational [Create] does not validate the identifier.  For a
    struct whose identifier field holds the empty string, the extraction
    leaves the [id] column out of the INSERT and captures the empty string;
    [Create] then returns the empty string as the new identifier whenever the
    engine accepts the INSERT, and in no case an error that wraps
    InvalidInput. *)
Theorem create_without_identifier (name : string)
    (fields : list (StructField * GoValue)) (w : World) :
  cacheSound (fieldNameCache w) →
  forallb readable fields = true →
  (∀ fv, fv ∈ fields → columnOf fv.1 = "id" → fv.2 = VString "") →
  (∃ f cache',
     extractFieldsForInsert (VStruct fields) "id" (fieldNameCache w) = (Ok f, cache')
     ∧ ("id" ∉ columns f)
     ∧ id f = ""
     ∧ (∀ db k,
          conn w = Some db →
          (ExecContext db (insertQuery (Collection name) f) (values f)).1 = inr k →
          (Create (Collection name) (VStruct fields) w).1 = Ok ""))
  ∧ (∀ e, (Create (Collection name) (VStruct fields) w).1 = Err e →
          errorsIs e ErrInvalidInput = false)
  ∧ (∀ newId, (Create (Collection name) (VStruct fields) w).1 = Ok newId → newId = "").
Proof.
  intros Hc Hr Hid.
  destruct (extractFieldsForInsertLoop_spec "id" fields (mkInsertFields [] [] [] "")
              (fieldNameCache w) Hc Hr) as (cache' & Hloop & _).
  assert (Hkept : Forall (fun fv => columnOf fv.1 ≠ "id") (keptForInsert fields)).
  { apply Forall_forall. intros fv [Hin Hnz]%keptForInsert_elem Hcol.
    specialize (Hid fv Hin Hcol). unfold nonZero in Hnz. by rewrite Hid in Hnz. }
  cbn [id columns placeholders values app] in Hloop.
  rewrite (capturedId_none "id" _ "" Hkept) in Hloop.
  assert (Hext : extractFieldsForInsert (VStruct fields) "id" (fieldNameCache w)
                 = (Ok (mkInsertFields
                          (map (fun fv => columnOf fv.1) (keptForInsert fields))
                          (map (fun _ => "?") (keptForInsert fields))
                          (map snd (keptForInsert fields)) ""), cache')).
  { unfold extractFieldsForInsert. simpl. exact Hloop. }
  split; [|split].
  - eexists _, cache'. split; [exact Hext|]. split; [|split; [done|]].
    + simpl. intros Hin. apply list_elem_of_fmap in Hin as (fv & Hcol & Hfv).
      rewrite Forall_forall in Hkept. by apply (Hkept fv Hfv).
    + intros db k Hconn Hexec. unfold Create, GetConn.
      rewrite Hconn. change (primaryKey (Collection name)) with "id". rewrite Hext.
      destruct (ExecContext db _ _) as [[err|k'] db']; simpl in *; [done|done].
  - intros e. unfold Create, GetConn.
    destruct (conn w) as [db|]; [|by intros [= <-]].
    change (primaryKey (Collection name)) with "id". rewrite Hext.
    destruct (ExecContext db _ _) as [[err|k'] db']; simpl; [|done].
    destruct (Str.Contains err "UNIQUE constraint failed"); by intros [= <-].
  - intros newId. unfold Create, GetConn.
    destruct (conn w) as [db|]; [|done].
    change (primaryKey (Collection name)) with "id". rewrite Hext.
    destruct (ExecContext db _ _) as [[err|k'] db']; simpl.
    + destruct (Str.Contains err "UNIQUE constraint failed"); done.
    + by intros [= <-].
Qed.

End EmptyIdentifier.

Lemma create_without_identifier_witness :
  (Create (H := examplePlatform) (Collection "users")
     (VStruct [(dbField "ID" "id", VString "");
               (dbField "Username" "username", VString "carol")])
     exampleWorld).1
  = Ok "".
Proof.
  destruct (create_without_identifier (H := examplePlatform) "users"
              [(dbField "ID" "id", VString "");
               (dbField "Username" "username", VString "carol")]
              exampleWorld cacheSound_empty eq_refl) as ((f & cache' & Hext & _ & _ & Hok) & _).
  - intros fv Hin Hcol.
    apply elem_of_cons in Hin as [->|Hin]; [done|].
    apply elem_of_cons in Hin as [->|Hin]; [done|].
    by apply elem_of_nil in Hin.
  - apply (Hok (mkSqlDB false [("users", exampleUsers)]) 1%Z eq_refl).
    vm_compute in Hext. injection Hext as <- _. vm_compute. reflexivity.
Defined.

(* ===================================================================== *)
(** ** Create followed by GetById *)
(* ===================================================================== *)


Lemma storable_inv (t : Table) (fv : StructField * GoValue) :
  storable t fv = true →
  IsExported fv.1 = true ∧ carried fv.2 = true
  ∧ ∃ ty, columnType (tcols t) (columnOf fv.1) = Some ty ∧ compatible fv.2 ty = true.
Proof.
  unfold storable. intros [[He Hca]%andb_prop Hty]%andb_prop.
  split; [done|]. split; [done|].
  destruct (columnType (tcols t) (columnOf fv.1)) as [ty|]; [|done]. by exists ty.
Qed.

Lemma carried_nonZero (v : GoValue) : carried v = true → deepEqualZero v = false.
Proof.
  destruct v; simpl; try done.
  - by destruct b.
  - intros [[Hn _]%andb_prop _]%andb_prop. by apply negb_true_iff in Hn.
  - intros [[Hn _]%andb_prop _]%andb_prop. apply Z.ltb_lt in Hn.
    apply Z.eqb_neq. lia.
  - intros Hs. apply negb_true_iff, bool_decide_eq_false in Hs.
    by apply bool_decide_eq_false.
Qed.

Lemma storable_keptForInsert (t : Table) (fields : list (StructField * GoValue)) :
  forallb (storable t) fields = true →
  forallb readable fields = true ∧ keptForInsert fields = fields.
Proof.
  induction fields as [|[f v] rest IH]; [done|].
  cbn [forallb]. intros [Hfv Hrest]%andb_prop.
  destruct (storable_inv t _ Hfv) as (He & Hca & _). cbn [fst snd] in He, Hca.
  destruct (IH Hrest) as [Hr Hk].
  split.
  - rewrite Hr. unfold readable. cbn [fst snd]. rewrite He. by destruct v.
  - rewrite keptForInsert_cons, (carried_nonZero v Hca). by rewrite Hk.
Qed.

Lemma carried_convert (v : GoValue) :
  carried v = true → ∀ `{Platform},
  ∃ d, convertValue v = inr d ∧ bindValue d = stored v.
Proof.
  intros Hca Htl. destruct v; simpl in *; try done.
  - by eexists.
  - by eexists.
  - apply andb_prop in Hca as [_ H63]. apply Z.ltb_lt in H63.
    assert (Hle : (2 ^ 63 <=? n)%Z = false) by (apply Z.leb_gt; lia).
    destruct k; rewrite ?Hle; by eexists.
  - by eexists.
Qed.

Lemma carried_convertArgs `{Platform} (fields : list (StructField * GoValue)) :
  forallb (fun fv => carried fv.2) fields = true →
  ∃ ds, convertArgs (map snd fields) = inr ds
        ∧ map bindValue ds = map (fun fv => stored fv.2) fields.
Proof.
  induction fields as [|[f v] rest IH]; [by exists []|].
  simpl. intros [Hv Hrest]%andb_prop.
  destruct (carried_convert v Hv) as (d & Hd & Hb).
  destruct (IH Hrest) as (ds & Hds & Hbs).
  exists (d :: ds). rewrite Hd, Hds. simpl. by rewrite Hb, Hbs.
Qed.

Lemma columnType_elem (cols : list Column) (c : string) (ty : DeclType) :
  columnType cols c = Some ty →
  ∃ col, col ∈ cols ∧ cname col = c ∧ ctype col = ty.
Proof.
  induction cols as [|col rest IH]; simpl; [done|].
  case_bool_decide as Hc.
  - intros [= <-]. exists col. split; [by left | done].
  - intros Hty. destruct (IH Hty) as (col' & Hin & Hn & Ht).
    exists col'. split; [by right | done].
Qed.

Lemma cell_map (cols : list Column) (h : string → SqlValue) (c : string) :
  c ∈ map cname cols →
  cell (map cname cols) (map (fun col => h (cname col)) cols) c = h c.
Proof.
  unfold cell. induction cols as [|col rest IH]; simpl.
  - intros Hin. by apply elem_of_nil in Hin.
  - intros Hin. case_bool_decide as Hc; [by subst|].
    apply elem_of_cons in Hin as [Heq|Hin]; [by subst|].
    specialize (IH Hin).
    destruct (columnIndex (map cname rest) c) as [i|]; simpl in *; done.
Qed.

Lemma inserted_lookup (fields : list (StructField * GoValue))
    (field : StructField) (v : GoValue) :
  NoDup (map (fun fv => columnOf fv.1) fields) →
  (field, v) ∈ fields →
  inserted (map (fun fv => columnOf fv.1) fields)
           (map (fun fv => stored fv.2) fields) (columnOf field)
  = Some (stored v).
Proof.
  induction fields as [|[f0 v0] rest IH]; intros Hnd Hin.
  - by apply elem_of_nil in Hin.
  - simpl in *. apply NoDup_cons in Hnd as [Hfresh Hnd].
    apply elem_of_cons in Hin as [[= <- <-]|Hin].
    + by rewrite bool_decide_eq_true_2.
    + rewrite bool_decide_eq_false_2; [by apply IH|].
      intros Heq. apply Hfresh. rewrite Heq.
      apply list_elem_of_fmap. by exists (field, v).
Qed.

Lemma columnMapOf_other (cols : list Column) (val : Column → DriverValue) (c : string) :
  ∀ m : gmap string DriverValue,
  c ∉ map cname cols →
  columnMapOf (map cname cols) (map val cols) m !! c = m !! c.
Proof.
  induction cols as [|col rest IH]; intros m Hc; simpl; [done|].
  simpl in Hc. apply not_elem_of_cons in Hc as [Hne Hc].
  rewrite IH by done. by rewrite lookup_insert_ne.
Qed.

Lemma columnMapOf_lookup (cols : list Column) (val : Column → DriverValue) (col : Column) :
  ∀ m : gmap string DriverValue,
  NoDup (map cname cols) →
  col ∈ cols →
  columnMapOf (map cname cols) (map val cols) m !! cname col = Some (val col).
Proof.
  induction cols as [|col0 rest IH]; intros m Hnd Hin.
  - by apply elem_of_nil in Hin.
  - simpl in *. apply NoDup_cons in Hnd as [Hfresh Hnd].
    apply elem_of_cons in Hin as [->|Hin].
    + rewrite columnMapOf_other by done. by rewrite lookup_insert_eq.
    + by apply IH.
Qed.

Lemma zip_with_map_same {A B C D} (f : B → C → D) (g : A → B) (h : A → C) (l : list A) :
  zip_with f (map g l) (map h l) = map (fun x => f (g x) (h x)) l.
Proof. induction l as [|x l IH]; simpl; [done | by rewrite IH]. Qed.

Lemma zeroOf_VStruct (fields : list (StructField * GoValue)) :
  zeroOf (VStruct fields) = VStruct (map (fun fv => (fv.1, zeroOf fv.2)) fields).
Proof.
  simpl. f_equal. induction fields as [|[f v] rest IH]; [done|].
  simpl. by rewrite IH.
Qed.

Lemma wrapSigned_id (bits n : Z) :
  (0 < bits)%Z → (- 2 ^ (bits - 1) <= n < 2 ^ (bits - 1))%Z → wrapSigned bits n = n.
Proof.
  intros Hb Hn. unfold wrapSigned.
  assert (Hpow : (2 ^ bits = 2 * 2 ^ (bits - 1))%Z).
  { rewrite <- Z.pow_succ_r by lia. f_equal. lia. }
  rewrite Z.mod_small by lia. lia.
Qed.

Lemma intBits_pos (k : IntKind) : (0 < intBits k)%Z.
Proof. by destruct k. Qed.

Section ValueRoundTrip.
Context `{Platform}.

Lemma roundtrip_value (v : GoValue) (ty : DeclType) :
  carried v = true → compatible v ty = true →
  setFromRowValue (zeroOf v) (readValue ty (stored v)) = v.
Proof.
  unfold setFromRowValue.
  intros Hca Hco. destruct v; simpl in *; try done.
  - subst. destruct ty; simpl in *; done.
  - apply andb_prop in Hca as [[_ Hlo]%andb_prop Hhi].
    apply Z.leb_le in Hlo. apply Z.ltb_lt in Hhi.
    destruct ty; simpl in *; try done;
      by rewrite wrapSigned_id by (apply intBits_pos || done).
  - apply andb_prop in Hca as [[Hlo Hhi]%andb_prop _].
    apply Z.ltb_lt in Hlo. apply Z.ltb_lt in Hhi.
    destruct ty; simpl in *; try done;
      unfold wrapUnsigned; by rewrite Z.mod_small by lia.
  - destruct ty; simpl in *; done.
Qed.

End ValueRoundTrip.

Lemma storable_carried (t : Table) (fields : list (StructField * GoValue)) :
  forallb (storable t) fields = true →
  forallb (fun fv => carried fv.2) fields = true.
Proof.
  induction fields as [|fv rest IH]; [done|].
  cbn [forallb]. intros [Hfv Hrest]%andb_prop.
  destruct (storable_inv t _ Hfv) as (_ & Hca & _). by rewrite Hca, IH.
Qed.

Lemma storable_declared (t : Table) (fields : list (StructField * GoValue)) :
  forallb (storable t) fields = true →
  Forall (fun c => c ∈ columnNames t) (map (fun fv => columnOf fv.1) fields).
Proof.
  induction fields as [|fv rest IH]; [constructor|].
  cbn [forallb]. intros [Hfv Hrest]%andb_prop.
  destruct (storable_inv t _ Hfv) as (_ & _ & ty & Hty & _).
  simpl. constructor; [|by apply IH].
  destruct (columnType_elem _ _ _ Hty) as (col & Hin & Hn & _).
  unfold columnNames. apply list_elem_of_fmap. by exists col.
Qed.

Section RoundTrip.
Context `{Platform}.


Lemma getByIdQuery_select (name id : string) :
  getByIdQuery (Collection name)
  = selectQuery (Collection name) (buildWhereClause [("id", VString id)]).1 +:+ "".
Proof.
  unfold getByIdQuery, selectQuery. cbn [tableName primaryKey Collection].
  by rewrite append_nil_r, !append_assoc.
Qed.

Lemma QueryContext_getById (db : SqlDB) (name id : string) (t : Table) :
  closed db = false →
  isName name = true →
  isName "id" = true →
  lookupTable (tables db) name = Some t →
  "id" ∈ columnNames t →
  QueryContext db (getByIdQuery (Collection name)) [VString id]
  = inr (mkRows (columnNames t) (map ctype (tcols t))
           (List.filter (fun row => sqlEq (cell (columnNames t) row "id") (SText id) && true)
                        (trows t))
           None).
Proof.
  intros Hopen Hname Hpk Ht Hid.
  rewrite (getByIdQuery_select name id).
  change [VString id] with (buildWhereClause [("id", VString id)]).2.
  rewrite (QueryContext_select db name [("id", VString id)] false t [DString id]);
    try done.
  - cbn [map fst forallb]. by rewrite Hpk.
  - by repeat constructor.
Qed.

Lemma setFromRow_roundtrip (t : Table) (fields : list (StructField * GoValue))
    (fv : StructField * GoValue) :
  NoDup (columnNames t) →
  NoDup (map (fun fv => columnOf fv.1) fields) →
  storable t fv = true →
  fv ∈ fields →
  setFromRow
    (columnMapOf (columnNames t)
       (zip_with readValue (map ctype (tcols t)) (storedRow t fields)) ∅)
    (fv.1, zeroOf fv.2)
  = fv.
Proof.
  intros Hschema Hnd Hst Hin. destruct fv as [field v].
  destruct (storable_inv t _ Hst) as (He & Hca & ty & Hty & Hco).
  cbn [fst snd] in *.
  destruct (columnType_elem _ _ _ Hty) as (col & Hcol & Hn & Hct).
  unfold setFromRow, CanSet. cbn [fst snd]. rewrite He. cbn [negb].
  unfold storedRow, columnNames. rewrite zip_with_map_same.
  rewrite <- Hn.
  rewrite (columnMapOf_lookup (tcols t)
             (fun col => readValue (ctype col)
                (default SNull
                   (inserted (map (fun fv => columnOf fv.1) fields)
                             (map (fun fv => stored fv.2) fields) (cname col))))
             col ∅ Hschema Hcol).
  rewrite Hn, (inserted_lookup fields field v Hnd Hin), Hct.
  cbn [default from_option Datatypes.id].
  pose proof (roundtrip_value v ty Hca Hco) as Hrt. unfold setFromRowValue in Hrt.
  destruct (readValue ty (stored v)) eqn:Hread; by rewrite ?Hrt.
Qed.

End RoundTrip.

Section CreateGetById.
Context `{Platform}.

Lemma rowToStruct_roundtrip (t : Table) (fields : list (StructField * GoValue)) :
  NoDup (columnNames t) →
  NoDup (map (fun fv => columnOf fv.1) fields) →
  forallb (storable t) fields = true →
  rowToStruct (mkRows (columnNames t) (map ctype (tcols t)) [storedRow t fields] None)
              (storedRow t fields) (zeroOf (VStruct fields))
  = VStruct fields.
Proof.
  intros Hschema Hnd Hst. rewrite zeroOf_VStruct. unfold rowToStruct, Scan.
  cbn [rcolumns rtypes]. f_equal. rewrite map_map.
  rewrite <- (map_id fields) at 2. apply map_ext_in.
  intros fv Hin. apply setFromRow_roundtrip; try done.
  - apply forallb_forall with (x := fv) in Hst; done.
  - by apply list_elem_of_In.
Qed.


End CreateGetById.



(* ===================================================================== *)
(** ** What GetAllByCondition leaves in the results slice *)
(* ===================================================================== *)

Section ResultsSliceContents.
Context `{Platform} `{FirestoreLib}.

(** C10.  The relational [GetAllByCondition] gives the same result whatever
    the slice held before.  For a filter on columns of the table it succeeds,
    and the slice then holds one struct for each row that satisfies the
    filter, the row mapped into a zero struct, in the order of the rows, and
    nothing else; where such a row is the row of a record that the table can
    store, the struct is that record.
    The document [GetAllByCondition] leaves the elements that the slice held
    and puts after them the items it would have put into an empty slice. *)
Theorem output_slice_handling (name : string) (filter : Filter) (elemType : GoValue)
    (old : list GoValue) (w : World) (f : FirestoreCollection) (fw : FsWorld) :
  cacheSound (fieldNameCache w) →
  GetAllByCondition (Collection name) filter (VPtr (Some (VSlice elemType (Some old)))) w
  = GetAllByCondition (Collection name) filter (VPtr (Some (VSlice elemType (Some [])))) w
  ∧ (∀ db t ds,
       conn w = Some db →
       closed db = false →
       isName name = true →
       lookupTable (tables db) name = Some t →
       forallb isName (map fst filter) = true →
       Forall (fun k => k ∈ columnNames t) (map fst filter) →
       convertArgs (map snd filter) = inr ds →
       kindOf elemType = KStruct →
       ∃ items,
         (GetAllByCondition (Collection name) filter
            (VPtr (Some (VSlice elemType (Some old)))) w).1
         = Ok (VSlice elemType (Some items))
         ∧ items
           = map (fun row =>
                    rowToStruct (mkRows (columnNames t) (map ctype (tcols t))
                                        (matching t filter ds) None)
                                row (zeroOf elemType))
                 (matching t filter ds)
         ∧ length items = length (matching t filter ds)
         ∧ ∀ i fields,
             NoDup (columnNames t) →
             NoDup (map (fun fv => columnOf fv.1) fields) →
             forallb (storable t) fields = true →
             zeroOf (VStruct fields) = zeroOf elemType →
             matching t filter ds !! i = Some (storedRow t fields) →
             items !! i = Some (VStruct fields))
  ∧ (∀ items,
       FsGetAllByCondition f filter (VPtr (Some (VSlice elemType (Some [])))) fw
       = Ok (VSlice elemType (Some items)) →
       FsGetAllByCondition f filter (VPtr (Some (VSlice elemType (Some old)))) fw
       = Ok (VSlice elemType (Some (old ++ items)))).
Proof.
  intros Hc. split; [done|]. split.
  - intros db t ds Hconn Hopen Hname Ht Hkeys Hdecl Hconv Hk.
    pose proof (QueryContext_select db name filter false t ds
                  Hopen Hname Hkeys Hconv Ht Hdecl) as Hq.
    rewrite append_nil_r in Hq.
    pose proof (GetAllByCondition_rows name filter elemType (Some old) w db _
                  Hc Hconn Hk Hq) as Hall.
    cbn [rdata] in Hall.
    eexists. split; [exact Hall|]. split; [done|]. split; [by rewrite length_map|].
    intros i fields Hschema Hnd Hst Hzero Hi.
    change (map ?g (matching t filter ds)) with (g <$> matching t filter ds).
    rewrite list_lookup_fmap, Hi. cbn [fmap option_fmap option_map]. f_equal.
    rewrite <- Hzero.
    exact (rowToStruct_roundtrip t fields Hschema Hnd Hst).
  - intros items. unfold FsGetAllByCondition.
    destruct (client fw) as [cl|]; [|done].
    destruct (queryDocuments cl fw (collectionName f) filter) as [err|docs]; [done|].
    simpl. intros Hitems.
    pose proof (appendDocs_prefix docs elemType elemType [] old items elemType Hitems)
      as Hp.
    by rewrite app_nil_r in Hp.
Qed.

End ResultsSliceContents.

Lemma output_slice_handling_witness :
  let alice := [(dbField "ID" "id", VString "u1");
                (dbField "Username" "username", VString "alice")] in
  let stale := VStruct [(dbField "ID" "id", VString "u0");
                        (dbField "Username" "username", VString "zoe")] in
  cacheSound (fieldNameCache exampleWorld)
  ∧ (∃ items,
       (GetAllByCondition (H := examplePlatform) (Collection "users")
          [("username", VString "alice")]
          (VPtr (Some (VSlice (zeroOf (VStruct alice)) (Some [stale])))) exampleWorld).1
       = Ok (VSlice (zeroOf (VStruct alice)) (Some items))
       ∧ length items = 1%nat
       ∧ items !! 0%nat = Some (VStruct alice))
  ∧ FsGetAllByCondition (H := exampleFirestoreLib) (mkFirestoreCollection "items")
      [("name", VString "milk")]
      (VPtr (Some (VSlice (exampleItem "" "") (Some [exampleItem "i0" "bread"]))))
      exampleFsWorld
    = Ok (VSlice (exampleItem "" "")
            (Some ([exampleItem "i0" "bread"] ++ [exampleItem "i1" "milk"]))).
Proof.
  intros alice stale. split; [apply cacheSound_empty|]. split.
  - destruct (proj1 (proj2 (output_slice_handling (H := examplePlatform)
                              (H0 := exampleFirestoreLib) "users"
                              [("username", VString "alice")] (zeroOf (VStruct alice))
                              [stale] exampleWorld (mkFirestoreCollection "items")
                              exampleFsWorld cacheSound_empty))
                (mkSqlDB false [("users", exampleUsers)]) exampleUsers
                [DString "alice"] eq_refl eq_refl eq_refl eq_refl eq_refl
                ltac:(repeat constructor) eq_refl eq_refl)
      as (items & Hrun & _ & Hlen & Hitems).
    exists items. split; [exact Hrun|]. split; [exact Hlen|].
    apply (Hitems 0%nat alice).
    + apply (bool_decide_unpack _). vm_compute. exact I.
    + apply (bool_decide_unpack _). vm_compute. exact I.
    + reflexivity.
    + reflexivity.
    + reflexivity.
  - apply (output_slice_handling (H := examplePlatform) (H0 := exampleFirestoreLib)
             "users" [("name", VString "milk")] (exampleItem "" "")
             [exampleItem "i0" "bread"] exampleWorld (mkFirestoreCollection "items")
             exampleFsWorld cacheSound_empty).
    vm_compute. reflexivity.
Defined.

(* ===================================================================== *)
(** * Further properties of the persistence layer *)
(* ===================================================================== *)

(* ===================================================================== *)
(** ** Converted field names *)
(* ===================================================================== *)

Lemma ToLower_not_upper (r : ascii) : Str.IsUpper (Str.ToLower r) = false.
Proof. destruct r as [[] [] [] [] [] [] [] []]; reflexivity. Qed.

Lemma lowercase_noUpper (s : string) : noUpper (lowercase s) = true.
Proof.
  unfold noUpper. induction s as [|r s IH]; [done|].
  simpl. by rewrite ToLower_not_upper, IH.
Qed.

Lemma lowercase_id (s : string) : noUpper s = true → lowercase s = s.
Proof.
  unfold noUpper. induction s as [|r s IH]; [done|].
  simpl. intros [Hr Hs]%andb_prop. apply negb_true_iff in Hr.
  unfold Str.ToLower. by rewrite Hr, IH.
Qed.

Lemma underscoreTail_id (s : string) : noUpper s = true → underscoreTail s = s.
Proof.
  unfold noUpper. induction s as [|r s IH]; [done|].
  simpl. intros [Hr Hs]%andb_prop. apply negb_true_iff in Hr.
  by rewrite Hr, IH.
Qed.

Lemma snake_noUpper (s : string) : noUpper (snake s) = true.
Proof. rewrite snake_spec. apply lowercase_noUpper. Qed.

Lemma snake_id (s : string) : noUpper s = true → snake s = s.
Proof.
  intros Hs. rewrite snake_spec. unfold snakeSpec.
  destruct s as [|r s]; [done|].
  cbn [underscoreBeforeUpper].
  assert (Htail : noUpper s = true).
  { unfold noUpper in *. simpl in Hs. by apply andb_prop in Hs as [_ ?]. }
  rewrite (underscoreTail_id s Htail). by apply lowercase_id.
Qed.

Lemma camelToSnake_miss (s : string) : (camelToSnake s ∅).1 = snake s.
Proof. unfold camelToSnake. by rewrite lookup_empty. Qed.

(** The converted name of an ASCII field name holds no upper-case letter;
    converting it once more gives it back; and a name without upper-case
    letters is its own converted name. *)
Theorem camelToSnake_lower_case (s : string) :
  Str.allChars Str.isASCII s = true →
  let r := (camelToSnake s ∅).1 in
  noUpper r = true
  ∧ (camelToSnake r ∅).1 = r
  ∧ (noUpper s = true → r = s).
Proof.
  intros _. cbn zeta. rewrite !camelToSnake_miss.
  split; [apply snake_noUpper|]. split.
  - apply snake_id, snake_noUpper.
  - apply snake_id.
Qed.

Lemma camelToSnake_lower_case_witness :
  (camelToSnake "ReminderGroupID" ∅).1 = "reminder_group_i_d"
  ∧ noUpper "reminder_group_i_d" = true
  ∧ (camelToSnake "reminder_group_i_d" ∅).1 = "reminder_group_i_d".
Proof.
  destruct (camelToSnake_lower_case "ReminderGroupID" eq_refl) as (Hl & Hi & _).
  split; [reflexivity|]. split; [exact Hl | exact Hi].
Defined.

(* ===================================================================== *)
(** ** The field-name cache *)
(* ===================================================================== *)

Lemma cacheExtends_refl (cache : Cache) : cacheExtends cache cache.
Proof. by split. Qed.

Lemma cacheExtends_trans (c1 c2 c3 : Cache) :
  cacheExtends c1 c2 → cacheExtends c2 c3 → cacheExtends c1 c3.
Proof.
  intros [Hs1 Hc1] [Hs2 Hc2]. split; [by etrans | auto].
Qed.

Lemma camelToSnake_extends (s : string) (cache : Cache) :
  cacheExtends cache (camelToSnake s cache).2.
Proof.
  split; [|intros Hc; by apply camelToSnake_sound].
  unfold camelToSnake. destruct (cache !! s) eqn:Hs; simpl; [done|].
  by apply insert_subseteq.
Qed.

Lemma columnNameOf_extends (field : StructField) (cache : Cache) :
  cacheExtends cache (columnNameOf field cache).2.
Proof.
  unfold columnNameOf. case_bool_decide.
  - apply camelToSnake_extends.
  - apply cacheExtends_refl.
Qed.

Lemma extractFieldsForInsertLoop_extends (primaryKey : string)
    (fields : list (StructField * GoValue)) :
  ∀ acc cache,
  cacheExtends cache (extractFieldsForInsertLoop primaryKey fields acc cache).2.
Proof.
  induction fields as [|[field fieldValue] rest IH]; intros acc cache.
  - apply cacheExtends_refl.
  - cbn [extractFieldsForInsertLoop].
    destruct (Interface field fieldValue) as [x|e|m]; try apply cacheExtends_refl.
    destruct (isZeroOfUnderlyingType x) as [[]|e|m]; try apply cacheExtends_refl.
    + apply IH.
    + pose proof (columnNameOf_extends field cache) as Hext.
      destruct (columnNameOf field cache) as [columnName cache1].
      eapply cacheExtends_trans; [exact Hext | apply IH].
Qed.

Lemma extractFieldsForInsert_extends (data : GoValue) (primaryKey : string)
    (cache : Cache) :
  cacheExtends cache (extractFieldsForInsert data primaryKey cache).2.
Proof.
  unfold extractFieldsForInsert.
  destruct (indirect data); try apply cacheExtends_refl.
  apply extractFieldsForInsertLoop_extends.
Qed.

Lemma extractFieldsForUpdateLoop_extends (fields : list (StructField * GoValue)) :
  ∀ updateFields values cache,
  cacheExtends cache (extractFieldsForUpdateLoop fields updateFields values cache).2.
Proof.
  induction fields as [|[field fieldValue] rest IH]; intros updateFields values cache.
  - apply cacheExtends_refl.
  - cbn [extractFieldsForUpdateLoop].
    destruct (Interface field fieldValue) as [x|e|m]; try apply cacheExtends_refl.
    destruct (isZeroOfUnderlyingType x) as [[]|e|m]; try apply cacheExtends_refl.
    + apply IH.
    + pose proof (columnNameOf_extends field cache) as Hext.
      destruct (columnNameOf field cache) as [columnName cache1].
      case_bool_decide; (eapply cacheExtends_trans; [exact Hext | apply IH]).
Qed.

Lemma extractFieldsForUpdate_extends (data : GoValue) (now : Time) (cache : Cache) :
  cacheExtends cache (extractFieldsForUpdate data now cache).2.
Proof.
  unfold extractFieldsForUpdate.
  destruct (indirect data) as [| | | | | | | | |fields]; try apply cacheExtends_refl.
  pose proof (extractFieldsForUpdateLoop_extends fields [] [] cache) as Hext.
  destruct (extractFieldsForUpdateLoop fields [] [] cache) as [[[ufs vs]|e|m] cache1];
    [|done|done].
  repeat case_bool_decide; exact Hext.
Qed.

Section CacheInvariant.
Context `{Platform}.

Lemma mapRowToStructLoop_extends (columnMap : gmap string DriverValue)
    (fields : list (StructField * GoValue)) :
  ∀ cache, cacheExtends cache (mapRowToStructLoop columnMap fields cache).2.
Proof.
  induction fields as [|[field fieldValue] rest IH]; intros cache.
  - apply cacheExtends_refl.
  - cbn [mapRowToStructLoop]. destruct (negb (CanSet field)).
    + specialize (IH cache).
      by destruct (mapRowToStructLoop columnMap rest cache).
    + pose proof (columnNameOf_extends field cache) as Hext.
      destruct (columnNameOf field cache) as [columnName cache1].
      specialize (IH cache1).
      destruct (mapRowToStructLoop columnMap rest cache1).
      eapply cacheExtends_trans; [exact Hext | exact IH].
Qed.

Lemma mapRowToStruct_extends (rows : Rows) (row : list SqlValue) (elem : GoValue)
    (cache : Cache) :
  cacheExtends cache (mapRowToStruct rows row elem cache).2.
Proof.
  unfold mapRowToStruct. destruct elem as [| | | | | | | | |fields];
    try apply cacheExtends_refl.
  pose proof (mapRowToStructLoop_extends
                (columnMapOf (rcolumns rows) (Scan rows row) ∅) fields cache) as Hext.
  by destruct (mapRowToStructLoop _ fields cache).
Qed.

Lemma appendRows_extends (rows : Rows) (elemType : GoValue)
    (todo : list (list SqlValue)) :
  ∀ slice cache, cacheExtends cache (appendRows rows todo elemType slice cache).2.
Proof.
  induction todo as [|row rest IH]; intros slice cache.
  - apply cacheExtends_refl.
  - cbn [appendRows].
    pose proof (mapRowToStruct_extends rows row (zeroOf elemType) cache) as Hext.
    destruct (mapRowToStruct rows row (zeroOf elemType) cache) as [[r|e|m] cache1];
      try exact Hext.
    eapply cacheExtends_trans; [exact Hext | apply IH].
Qed.

(** Whatever operation runs, with whatever arguments and outcome, the
    field-name cache keeps every entry it had, and if each of its entries was
    the converted form of its key before the call, that is so after it. *)
Theorem field_name_cache_grows (c : SQLiteCollection) (op : Operation) (w : World) :
  fieldNameCache w ⊆ fieldNameCache (run c op w).2
  ∧ (cacheSound (fieldNameCache w) → cacheSound (fieldNameCache (run c op w).2)).
Proof.
  change (cacheExtends (fieldNameCache w) (fieldNameCache (run c op w).2)).
  destruct op as [data|id result|filter result|filter results|id data now|id|filter];
    cbn [run].
  - unfold Create.
    destruct (GetConn w) as [db|e|m]; try apply cacheExtends_refl.
    pose proof (extractFieldsForInsert_extends data (primaryKey c) (fieldNameCache w))
      as Hext.
    destruct (extractFieldsForInsert data (primaryKey c) (fieldNameCache w))
      as [[f|e|m] cache1]; try exact Hext.
    destruct (ExecContext db (insertQuery c f) (values f)) as [[err|k] db1].
    + by destruct (Str.Contains err "UNIQUE constraint failed").
    + exact Hext.
  - unfold GetById.
    destruct (GetConn w) as [db|e|m]; try apply cacheExtends_refl.
    destruct (validateResultType result); [apply cacheExtends_refl|].
    destruct (QueryContext db (getByIdQuery c) [VString id]) as [err|rows];
      [apply cacheExtends_refl|].
    destruct (rdata rows) as [|row rest]; [apply cacheExtends_refl|].
    pose proof (mapRowToStruct_extends rows row (indirect result) (fieldNameCache w))
      as Hext.
    by destruct (mapRowToStruct rows row (indirect result) (fieldNameCache w))
      as [[r|e|m] cache1].
  - unfold GetOne.
    destruct (GetConn w) as [db|e|m]; try apply cacheExtends_refl.
    destruct (validateResultType result); [apply cacheExtends_refl|].
    destruct (buildWhereClause filter) as [whereClause values].
    destruct (QueryContext db _ values) as [err|rows]; [apply cacheExtends_refl|].
    destruct (rdata rows) as [|row rest]; [apply cacheExtends_refl|].
    pose proof (mapRowToStruct_extends rows row (indirect result) (fieldNameCache w))
      as Hext.
    destruct (mapRowToStruct rows row (indirect result) (fieldNameCache w))
      as [[r|e|m] cache1]; try exact Hext.
    by destruct (rerr rows).
  - unfold GetAllByCondition.
    destruct (GetConn w) as [db|e|m]; try apply cacheExtends_refl.
    destruct results as [| | | | | |? |[sliceValue|]| |]; try apply cacheExtends_refl.
    destruct sliceValue as [| | | | | | | |elemType xs|]; try apply cacheExtends_refl.
    destruct (kindOf elemType); try apply cacheExtends_refl.
    destruct (buildWhereClause filter) as [whereClause values].
    destruct (QueryContext db _ values) as [err|rows]; [apply cacheExtends_refl|].
    pose proof (appendRows_extends rows elemType (rdata rows) [] (fieldNameCache w))
      as Hext.
    destruct (appendRows rows (rdata rows) elemType [] (fieldNameCache w))
      as [[r|e|m] cache1]; try exact Hext.
    by destruct (rerr rows).
  - unfold UpdateById.
    destruct (GetConn w) as [db|e|m]; try apply cacheExtends_refl.
    pose proof (extractFieldsForUpdate_extends data now (fieldNameCache w)) as Hext.
    destruct (extractFieldsForUpdate data now (fieldNameCache w))
      as [[[ufs vs]|e|m] cache1]; try exact Hext.
    destruct (ExecContext db (updateQuery c ufs) (vs ++ [VString id])) as [[err|k] db1].
    + by destruct (Str.Contains err "UNIQUE constraint failed").
    + by destruct (k =? 0)%Z.
  - unfold DeleteById.
    destruct (GetConn w) as [db|e|m]; try apply cacheExtends_refl.
    destruct (ExecContext db (deleteQuery c) [VString id]) as [[err|k] db1].
    + apply cacheExtends_refl.
    + destruct (k =? 0)%Z; apply cacheExtends_refl.
  - unfold Count.
    destruct (GetConn w) as [db|e|m]; try apply cacheExtends_refl.
    destruct (buildWhereClause filter) as [whereClause values].
    destruct (QueryContext db _ values) as [err|rows]; [apply cacheExtends_refl|].
    destruct (rdata rows) as [|row rest]; [apply cacheExtends_refl|].
    destruct (Scan rows row) as [|[] [|]]; apply cacheExtends_refl.
Qed.

End CacheInvariant.

(* ===================================================================== *)
(** ** Structs with unexported fields *)
(* ===================================================================== *)

Lemma extractFieldsForInsertLoop_unexported (primaryKey : string)
    (fields : list (StructField * GoValue)) :
  ∀ acc cache,
  forallb (fun fv => IsExported fv.1) fields = false →
  ∃ m cache', extractFieldsForInsertLoop primaryKey fields acc cache = (Panic m, cache').
Proof.
  induction fields as [|[field fieldValue] rest IH]; intros acc cache Hex; [done|].
  cbn [forallb fst] in Hex. cbn [extractFieldsForInsertLoop]. unfold Interface.
  destruct (IsExported field); [|by eexists _, _].
  cbn [andb] in Hex.
  destruct (isZeroOfUnderlyingType fieldValue) as [[]|e|m] eqn:Hz.
  - by apply IH.
  - destruct (columnNameOf field cache) as [columnName cache1]. by apply IH.
  - by destruct fieldValue.
  - by eexists _, _.
Qed.

Lemma extractFieldsForUpdateLoop_unexported (fields : list (StructField * GoValue)) :
  ∀ updateFields values cache,
  forallb (fun fv => IsExported fv.1) fields = false →
  ∃ m cache',
    extractFieldsForUpdateLoop fields updateFields values cache = (Panic m, cache').
Proof.
  induction fields as [|[field fieldValue] rest IH];
    intros updateFields values cache Hex; [done|].
  cbn [forallb fst] in Hex. cbn [extractFieldsForUpdateLoop]. unfold Interface.
  destruct (IsExported field); [|by eexists _, _].
  cbn [andb] in Hex.
  destruct (isZeroOfUnderlyingType fieldValue) as [[]|e|m] eqn:Hz.
  - by apply IH.
  - destruct (columnNameOf field cache) as [columnName cache1].
    case_bool_decide; by apply IH.
  - by destruct fieldValue.
  - by eexists _, _.
Qed.

Section Unexported.
Context `{Platform}.

(** A struct with a field that is not exported cannot be written: on a
    database that was connected, [Create] and [UpdateById] panic in the
    extraction of the fields, before any statement is sent; the handle stays
    as it was. *)
Theorem unexported_field_panics (name id : string) (data : GoValue)
    (fields : list (StructField * GoValue)) (now : Time) (w : World) (db : SqlDB) :
  conn w = Some db →
  indirect data = VStruct fields →
  forallb (fun fv => IsExported fv.1) fields = false →
  (∃ m w', Create (Collection name) data w = (Panic m, w') ∧ conn w' = Some db)
  ∧ (∃ m w', UpdateById (Collection name) id data now w = (Panic m, w')
             ∧ conn w' = Some db).
Proof.
  intros Hconn Hdata Hex. split.
  - unfold Create, GetConn. rewrite Hconn.
    change (primaryKey (Collection name)) with "id".
    unfold extractFieldsForInsert. rewrite Hdata.
    destruct (extractFieldsForInsertLoop_unexported "id" fields
                (mkInsertFields [] [] [] "") (fieldNameCache w) Hex) as (m & cache' & ->).
    by eexists _, _.
  - unfold UpdateById, GetConn. rewrite Hconn.
    unfold extractFieldsForUpdate. rewrite Hdata.
    destruct (extractFieldsForUpdateLoop_unexported fields [] [] (fieldNameCache w) Hex)
      as (m & cache' & ->).
    by eexists _, _.
Qed.

End Unexported.

Lemma unexported_field_panics_witness :
  let record := VStruct [(dbField "ID" "id", VString "u7");
                         (mkField "secret" [], VString "x")] in
  (∃ m w', Create (H := examplePlatform) (Collection "users") (VPtr (Some record))
             exampleWorld = (Panic m, w') ∧ conn w' = conn exampleWorld)
  ∧ (∃ m w', UpdateById (H := examplePlatform) (Collection "users") "u1"
               (VPtr (Some record)) zeroTime exampleWorld = (Panic m, w')
             ∧ conn w' = conn exampleWorld).
Proof.
  intros record.
  exact (unexported_field_panics (H := examplePlatform) "users" "u1"
           (VPtr (Some record)) _ zeroTime exampleWorld _ eq_refl eq_refl eq_refl).
Defined.

(* ===================================================================== *)
(** ** Placeholders and arguments *)
(* ===================================================================== *)

Lemma extractFieldsForInsertLoop_shape (primaryKey : string)
    (fields : list (StructField * GoValue)) :
  ∀ acc cache f cache',
  extractFieldsForInsertLoop primaryKey fields acc cache = (Ok f, cache') →
  length (placeholders acc) = length (columns acc) →
  length (values acc) = length (columns acc) →
  Forall (fun p => p = "?") (placeholders acc) →
  length (placeholders f) = length (columns f)
  ∧ length (values f) = length (columns f)
  ∧ Forall (fun p => p = "?") (placeholders f).
Proof.
  induction fields as [|[field fieldValue] rest IH]; intros acc cache f cache' Hrun Hp Hv Hq.
  - cbn in Hrun. by injection Hrun as <- <-.
  - cbn [extractFieldsForInsertLoop] in Hrun.
    destruct (Interface field fieldValue) as [x|e|m]; try done.
    destruct (isZeroOfUnderlyingType x) as [[]|e|m]; try done.
    + by eapply IH.
    + destruct (columnNameOf field cache) as [columnName cache1].
      eapply IH; [exact Hrun|..]; cbn [columns placeholders values].
      * rewrite !length_app. simpl. lia.
      * rewrite !length_app. simpl. lia.
      * apply Forall_app. split; [done | by repeat constructor].
Qed.

Lemma extractFieldsForUpdateLoop_shape (fields : list (StructField * GoValue)) :
  ∀ updateFields values cache ufs vs cache',
  extractFieldsForUpdateLoop fields updateFields values cache = (Ok (ufs, vs), cache') →
  length values = length updateFields →
  length vs = length ufs.
Proof.
  induction fields as [|[field fieldValue] rest IH];
    intros updateFields values cache ufs vs cache' Hrun Hlen.
  - cbn in Hrun. by injection Hrun as <- <- <-.
  - cbn [extractFieldsForUpdateLoop] in Hrun.
    destruct (Interface field fieldValue) as [x|e|m]; try done.
    destruct (isZeroOfUnderlyingType x) as [[]|e|m]; try done.
    + by eapply IH.
    + destruct (columnNameOf field cache) as [columnName cache1].
      case_bool_decide; [by eapply IH|].
      eapply IH; [exact Hrun|]. rewrite !length_app. simpl. lia.
Qed.

(** The lists from which the statements are put together fit each other,
    whatever the data: an insert has as many placeholders, each of them [?],
    and as many arguments as columns; an update has as many arguments as
    assignments; a filter gives as many arguments as it has keys, and an empty
    WHERE clause only when it has no key. *)
Theorem placeholders_fit_arguments :
  (∀ data primaryKey cache f cache',
     extractFieldsForInsert data primaryKey cache = (Ok f, cache') →
     length (placeholders f) = length (columns f)
     ∧ length (values f) = length (columns f)
     ∧ Forall (fun p => p = "?") (placeholders f))
  ∧ (∀ data now cache updateFields values cache',
       extractFieldsForUpdate data now cache = (Ok (updateFields, values), cache') →
       length values = length updateFields)
  ∧ (∀ filter : Filter,
       length (buildWhereClause filter).2 = length filter
       ∧ ((buildWhereClause filter).1 = "" ↔ filter = [])).
Proof.
  split; [|split].
  - intros data primaryKey cache f cache'. unfold extractFieldsForInsert.
    destruct (indirect data); try done.
    intros Hrun.
    by apply (extractFieldsForInsertLoop_shape _ _ _ _ _ _ Hrun).
  - intros data now cache updateFields values cache'. unfold extractFieldsForUpdate.
    destruct (indirect data) as [| | | | | | | | |fields]; try done.
    destruct (extractFieldsForUpdateLoop fields [] [] cache)
      as [[[ufs vs]|e|m] cache1] eqn:Hloop; try done.
    pose proof (extractFieldsForUpdateLoop_shape _ _ _ _ _ _ _ Hloop eq_refl) as Hlen.
    repeat case_bool_decide; intros [= <- <- <-]; rewrite ?length_app; simpl; lia.
  - intros filter. rewrite buildWhereClause_spec. cbn [fst snd].
    split; [by rewrite length_map|].
    destruct filter as [|[k v] rest]; [done|].
    split; [|done]. intros Hempty. exfalso.
    cbn [map fst] in Hempty. by apply whereClause_nonempty in Hempty.
Qed.

(* ===================================================================== *)
(** ** The errors of the relational collection *)
(* ===================================================================== *)

Section RelationalErrors.
Context `{Platform}.

Lemma wrapsSentinel_invalid (e : GoError) :
  errorsIs e ErrInvalidInput = true → wrapsSentinel e = true.
Proof. unfold wrapsSentinel. by intros ->. Qed.

(** Every error that an operation of the relational collection returns wraps
    InvalidInput, NotFound, Duplicate or Internal; the one exception in the
    code is [GetOne], which returns the error of [rows.Err()] as it is. *)
Theorem relational_errors_wrap_sentinel (c : SQLiteCollection) (op : Operation)
    (w : World) (e : GoError) :
  (run c op w).1 = Err e →
  wrapsSentinel e = true
  ∨ (∃ filter result msg, op = OpGetOne filter result ∧ e = Native msg).
Proof.
  destruct op as [data|id result|filter result|filter results|id data now|id|filter];
    cbn [run].
  - unfold Create. destruct (GetConn w) as [db|e0|m]; cbn; [|by intros [= <-]; left|done].
    destruct (extractFieldsForInsert data (primaryKey c) (fieldNameCache w))
      as [[f|e0|m] cache1] eqn:Hex; cbn; [| |done].
    + destruct (ExecContext db (insertQuery c f) (values f)) as [[err|k] db1]; [|done].
      destruct (Str.Contains err "UNIQUE constraint failed"); cbn;
        intros [= <-]; by left.
    + intros [= <-]. left.
      by apply wrapsSentinel_invalid, (extractFieldsForInsert_error _ _ _ _ _ Hex).
  - unfold GetById. destruct (GetConn w) as [db|e0|m]; cbn; [|by intros [= <-]; left|done].
    destruct (validateResultType result) as [e0|] eqn:Hv; cbn.
    { intros [= <-]. left. by apply wrapsSentinel_invalid, (validateResultType_error _ _ Hv). }
    destruct (QueryContext db (getByIdQuery c) [VString id]) as [err|rows]; cbn;
      [by intros [= <-]; left|].
    destruct (rdata rows) as [|row rest]; cbn; [by intros [= <-]; left|].
    destruct (mapRowToStruct_ok rows row (indirect result) (fieldNameCache w))
      as (r & cache1 & ->). done.
  - unfold GetOne. destruct (GetConn w) as [db|e0|m]; cbn; [|by intros [= <-]; left|done].
    destruct (validateResultType result) as [e0|] eqn:Hv; cbn.
    { intros [= <-]. left. by apply wrapsSentinel_invalid, (validateResultType_error _ _ Hv). }
    destruct (buildWhereClause filter) as [whereClause values].
    destruct (QueryContext db _ values) as [err|rows]; cbn; [by intros [= <-]; left|].
    destruct (rdata rows) as [|row rest]; cbn; [by intros [= <-]; left|].
    destruct (mapRowToStruct_ok rows row (indirect result) (fieldNameCache w))
      as (r & cache1 & ->).
    destruct (rerr rows) as [msg|]; cbn; [|done].
    intros [= <-]. right. by eexists _, _, _.
  - unfold GetAllByCondition.
    destruct (GetConn w) as [db|e0|m]; cbn; [|by intros [= <-]; left|done].
    destruct results as [| | | | | |? |[sliceValue|]| |]; cbn;
      try (by intros [= <-]; left).
    destruct sliceValue as [| | | | | | | |elemType xs|]; cbn;
      try (by intros [= <-]; left).
    destruct (kindOf elemType); cbn; try (by intros [= <-]; left).
    destruct (buildWhereClause filter) as [whereClause values].
    destruct (QueryContext db _ values) as [err|rows]; cbn; [by intros [= <-]; left|].
    destruct (appendRows_ok rows elemType (rdata rows) [] (fieldNameCache w))
      as (r & cache1 & ->).
    destruct (rerr rows); cbn; [by intros [= <-]; left | done].
  - unfold UpdateById.
    destruct (GetConn w) as [db|e0|m]; cbn; [|by intros [= <-]; left|done].
    destruct (extractFieldsForUpdate data now (fieldNameCache w))
      as [[[ufs vs]|e0|m] cache1] eqn:Hex; cbn; [| |done].
    + destruct (ExecContext db (updateQuery c ufs) (vs ++ [VString id]))
        as [[err|k] db1].
      * destruct (Str.Contains err "UNIQUE constraint failed"); cbn;
          intros [= <-]; by left.
      * destruct (k =? 0)%Z; cbn; [by intros [= <-]; left | done].
    + intros [= <-]. left.
      by apply wrapsSentinel_invalid, (extractFieldsForUpdate_error _ _ _ _ _ Hex).
  - unfold DeleteById.
    destruct (GetConn w) as [db|e0|m]; cbn; [|by intros [= <-]; left|done].
    destruct (ExecContext db (deleteQuery c) [VString id]) as [[err|k] db1]; cbn.
    + intros [= <-]. by left.
    + destruct (k =? 0)%Z; cbn; [by intros [= <-]; left | done].
  - unfold Count.
    destruct (GetConn w) as [db|e0|m]; cbn; [|by intros [= <-]; left|done].
    destruct (buildWhereClause filter) as [whereClause values].
    destruct (QueryContext db _ values) as [err|rows]; cbn; [by intros [= <-]; left|].
    destruct (rdata rows) as [|row rest]; cbn; [by intros [= <-]; left|].
    destruct (Scan rows row) as [|[] [|]]; cbn; try (by intros [= <-]; left).
Qed.

End RelationalErrors.

Lemma relational_errors_wrap_sentinel_witness :
  (run (H := examplePlatform) (Collection "users")
     (OpGetById "u2" (VPtr (Some (VStruct [(dbField "ID" "id", VString "")]))))
     exampleWorld).1
  = Err (Wrapf ErrNotFound "id u2")
  ∧ wrapsSentinel (Wrapf ErrNotFound "id u2") = true.
Proof.
  assert (Hrun : (run (H := examplePlatform) (Collection "users")
                    (OpGetById "u2" (VPtr (Some (VStruct [(dbField "ID" "id", VString "")]))))
                    exampleWorld).1 = Err (Wrapf ErrNotFound "id u2"))
    by (vm_compute; reflexivity).
  split; [exact Hrun|].
  destruct (relational_errors_wrap_sentinel (H := examplePlatform) _ _ _ _ Hrun)
    as [Hw|(? & ? & ? & Hop & _)]; [exact Hw | discriminate Hop].
Defined.

(* ===================================================================== *)
(** ** Before Connect *)
(* ===================================================================== *)

Section NotConnected.
Context `{Platform} `{FirestoreLib} `{FirestoreWriter}.

(** On a backend that was never connected, every operation of a collection
    returns the error of the missing handle before it looks at its arguments,
    and changes nothing: the relational operations wrap it in Internal, [Ping]
    and the document operations return it bare, outside the taxonomy. *)
Theorem operations_before_connect (c : SQLiteCollection) (op : Operation) (w : World)
    (f : FirestoreCollection) (fw : FsWorld) :
  conn w = None →
  client fw = None →
  run c op w = (Err (Wrapf ErrInternal "database connection not established"), w)
  ∧ Ping w = Err (Adhoc "database connection not established")
  ∧ (∀ data, FsCreate f data fw = (Err notInitialized, fw))
  ∧ (∀ id result, FsGetById f id result fw = Err notInitialized)
  ∧ (∀ filter result, FsGetOne f filter result fw = Err notInitialized)
  ∧ (∀ filter results, FsGetAllByCondition f filter results fw = Err notInitialized)
  ∧ (∀ id data, FsUpdateById f id data fw = (Err notInitialized, fw))
  ∧ (∀ id, FsDeleteById f id fw = (Err notInitialized, fw))
  ∧ (∀ filter, FsCount f filter fw = Err notInitialized)
  ∧ isTaxonomyError notInitialized = false.
Proof.
  intros Hconn Hclient. split.
  - destruct op; cbn [run];
      unfold Create, GetById, GetOne, GetAllByCondition, UpdateById, DeleteById, Count,
        GetConn; by rewrite Hconn.
  - unfold Ping, FsCreate, FsGetById, FsGetOne, FsGetAllByCondition, FsUpdateById,
      FsDeleteById, FsCount. rewrite Hconn, Hclient. by repeat split.
Qed.

End NotConnected.

Lemma operations_before_connect_witness :
  run (H := examplePlatform) (Collection "users") (OpCount [("id", VNil)]) (mkWorld ∅ None)
  = (Err (Wrapf ErrInternal "database connection not established"), mkWorld ∅ None)
  ∧ FsCount (H := exampleFirestoreLib) (mkFirestoreCollection "items") []
      (mkFsWorld None ∅)
    = Err notInitialized.
Proof.
  pose proof (operations_before_connect (H := examplePlatform) (H0 := exampleFirestoreLib)
                (H1 := exampleFirestoreWriter)
                (Collection "users") (OpCount [("id", VNil)]) (mkWorld ∅ None)
                (mkFirestoreCollection "items") (mkFsWorld None ∅) eq_refl eq_refl)
    as (Hrun & _ & _ & _ & _ & _ & _ & _ & Hcount & _).
  split; [exact Hrun | exact (Hcount [])].
Defined.

(* ===================================================================== *)
(** ** What the row mapping leaves alone *)
(* ===================================================================== *)

Lemma columnMapOf_absent (columns : list string) :
  ∀ (values : list DriverValue) (m : gmap string DriverValue) (c : string),
  c ∉ columns → columnMapOf columns values m !! c = m !! c.
Proof.
  induction columns as [|column rest IH]; intros values m c Hc; [done|].
  apply not_elem_of_cons in Hc as [Hne Hc].
  destruct values as [|v values]; [done|].
  cbn [columnMapOf]. rewrite IH by done. by rewrite lookup_insert_ne.
Qed.

Section RowMappingShape.
Context `{Platform}.

Lemma setFieldValue_kind (fieldValue : GoValue) (val : DriverValue) :
  kindOf (setFieldValue fieldValue val) = kindOf fieldValue.
Proof.
  destruct fieldValue, val; simpl; try done.
  - by destruct (parseRFC3339 (default "" b)).
  - by destruct (parseRFC3339 s).
Qed.

Lemma setFromRow_shape (columnMap : gmap string DriverValue)
    (fv : StructField * GoValue) :
  (setFromRow columnMap fv).1 = fv.1
  ∧ kindOf (setFromRow columnMap fv).2 = kindOf fv.2.
Proof.
  unfold setFromRow. destruct (negb (CanSet fv.1)); [done|].
  destruct (columnMap !! columnOf fv.1) as [[]|]; cbn [fst snd];
    by rewrite ?setFieldValue_kind.
Qed.

(** Mapping a row never changes the shape of the struct it fills: the fields
    keep their names, tags, order and kinds.  A field that is not exported, a
    field whose column the row does not have, and a field whose column holds
    NULL keep the value they had before the call. *)
Theorem row_mapping_keeps_shape (rows : Rows) (row : list SqlValue)
    (fields : list (StructField * GoValue)) (cache : Cache) :
  cacheSound cache →
  ∃ fields' cache',
    mapRowToStruct rows row (VStruct fields) cache = (Ok (VStruct fields'), cache')
    ∧ map fst fields' = map fst fields
    ∧ map (fun fv => kindOf fv.2) fields' = map (fun fv => kindOf fv.2) fields
    ∧ ∀ i field v,
        fields !! i = Some (field, v) →
        IsExported field = false
        ∨ columnOf field ∉ rcolumns rows
        ∨ columnMapOf (rcolumns rows) (Scan rows row) ∅ !! columnOf field = Some DNull →
        fields' !! i = Some (field, v).
Proof.
  intros Hc.
  destruct (mapRowToStruct_spec rows row (VStruct fields) cache Hc) as [Hmap _].
  destruct (mapRowToStruct rows row (VStruct fields) cache) as [r cache'].
  cbn [fst] in Hmap. subst r. cbn [rowToStruct].
  set (columnMap := columnMapOf (rcolumns rows) (Scan rows row) ∅).
  exists (map (setFromRow columnMap) fields), cache'.
  split; [done|]. split; [|split].
  - rewrite map_map. apply map_ext. intros fv. apply setFromRow_shape.
  - rewrite map_map. apply map_ext. intros fv. apply setFromRow_shape.
  - intros i field v Hi Hwhy.
    change (map (setFromRow columnMap) fields) with (setFromRow columnMap <$> fields).
    rewrite list_lookup_fmap, Hi. cbn [fmap option_fmap option_map]. f_equal.
    unfold setFromRow, CanSet. cbn [fst snd].
    destruct Hwhy as [Hex|[Habsent|Hnull]].
    + by rewrite Hex.
    + destruct (negb (IsExported field)); [done|].
      unfold columnMap. rewrite columnMapOf_absent by done. by rewrite lookup_empty.
    + destruct (negb (IsExported field)); [done|]. by rewrite Hnull.
Qed.

End RowMappingShape.

Lemma row_mapping_keeps_shape_witness :
  ∃ cache',
    mapRowToStruct (H := examplePlatform)
      (mkRows ["id"; "username"] [DeclText; DeclText] [[SText "u1"; SNull]] None)
      [SText "u1"; SNull]
      (VStruct [(dbField "ID" "id", VString "stale");
                (dbField "Username" "username", VString "stale");
                (dbField "Role" "role", VString "stale");
                (mkField "note" [("db", "id")], VString "stale")])
      ∅
    = (Ok (VStruct [(dbField "ID" "id", VString "u1");
                    (dbField "Username" "username", VString "stale");
                    (dbField "Role" "role", VString "stale");
                    (mkField "note" [("db", "id")], VString "stale")]),
       cache').
Proof.
  destruct (row_mapping_keeps_shape (H := examplePlatform)
              (mkRows ["id"; "username"] [DeclText; DeclText] [[SText "u1"; SNull]] None)
              [SText "u1"; SNull]
              [(dbField "ID" "id", VString "stale");
               (dbField "Username" "username", VString "stale");
               (dbField "Role" "role", VString "stale");
               (mkField "note" [("db", "id")], VString "stale")]
              ∅ cacheSound_empty)
    as (fields' & cache' & Hrun & _).
  exists cache'. rewrite Hrun. vm_compute in Hrun.
  by injection Hrun as <- _.
Defined.

(* ===================================================================== *)
(** ** UpdateById on the relational backend *)
(* ===================================================================== *)

Lemma extractFieldsForUpdate_assigned (fields : list (StructField * GoValue))
    (now : Time) (cache : Cache) :
  cacheSound cache →
  forallb readable fields = true →
  ∃ cache',
    extractFieldsForUpdate (VStruct fields) now cache
    = (Ok (map (fun c => c +:+ " = ?") (assignedColumns fields),
           assignedValues fields now), cache')
    ∧ cacheSound cache'.
Proof.
  intros Hc Hr.
  destruct (extractFieldsForUpdateLoop_spec fields [] [] cache Hc Hr)
    as (cache' & Hloop & Hc').
  exists cache'. split; [|done].
  unfold extractFieldsForUpdate. cbn [indirect]. rewrite Hloop. cbn [app].
  unfold assignedColumns, assignedValues, declaresUpdatedAt.
  rewrite map_app, map_map.
  repeat case_bool_decide; cbn [orb map]; by rewrite ?app_nil_r.
Qed.

Lemma accepted_convertArgs (vs : list GoValue) :
  forallb accepted vs = true → ∃ ds, convertArgs vs = inr ds.
Proof.
  induction vs as [|v vs IH]; [by exists []|].
  cbn [forallb]. intros [Hv Hvs]%andb_prop. unfold accepted in Hv.
  destruct (IH Hvs) as (ds & Hds). cbn [convertArgs].
  destruct (convertValue v) as [|d]; [done|]. rewrite Hds. by eexists.
Qed.

Lemma convertArgs_bound `{Platform} (vs : list GoValue) :
  ∀ ds, convertArgs vs = inr ds → map bindValue ds = map bound vs.
Proof.
  induction vs as [|v vs IH]; intros ds Hds.
  - by injection Hds as <-.
  - cbn [convertArgs] in Hds.
    destruct (convertValue v) as [|d] eqn:Hv; [done|].
    destruct (convertArgs vs) as [|ds']; [done|].
    injection Hds as <-. cbn [map]. f_equal; [|by apply IH].
    unfold bound. by rewrite Hv.
Qed.

Lemma undeclared_inv (names cols : list string) :
  undeclared names cols = None → Forall (fun c => c ∈ names) cols.
Proof.
  unfold undeclared. intros Hfind. apply Forall_forall. intros c Hc.
  apply list_elem_of_In in Hc.
  pose proof (find_none _ _ Hfind c Hc) as Hdec. cbn beta in Hdec.
  apply negb_false_iff in Hdec. by apply bool_decide_eq_true in Hdec.
Qed.

Lemma sqlEq_SText (v : SqlValue) (s : string) :
  sqlEq v (SText s) = true ↔ v = SText s.
Proof.
  split.
  - destruct v; simpl; try done; intros Heq; by apply bool_decide_eq_true in Heq.
  - intros ->. simpl. by rewrite bool_decide_eq_true_2.
Qed.

Lemma assigned_absent (cols : list string) :
  ∀ (args : list SqlValue) (c : string), c ∉ cols → assigned cols args c = None.
Proof.
  induction cols as [|col cols IH]; intros args c Hc; [done|].
  apply not_elem_of_cons in Hc as [Hne Hc].
  destruct args as [|a args]; [done|].
  cbn [assigned]. rewrite IH by done. by rewrite bool_decide_eq_false_2.
Qed.

Lemma assigned_last (cols : list string) :
  ∀ (args : list SqlValue) (c : string) (a : SqlValue),
  length args = length cols →
  assigned (cols ++ [c]) (args ++ [a]) c = Some a.
Proof.
  induction cols as [|col cols IH]; intros args c a Hlen.
  - destruct args; [|done]. simpl. by rewrite bool_decide_eq_true_2.
  - destruct args as [|a0 args]; [done|].
    cbn [app assigned]. rewrite IH; [done|]. by injection Hlen.
Qed.

Lemma assigned_lookup (cols : list string) :
  ∀ (args : list SqlValue) (i : nat) (c : string) (a : SqlValue),
  NoDup cols → cols !! i = Some c → args !! i = Some a →
  assigned cols args c = Some a.
Proof.
  induction cols as [|col cols IH]; intros args i c a Hnd Hc Ha; [done|].
  apply NoDup_cons in Hnd as [Hfresh Hnd].
  destruct args as [|a0 args]; [done|].
  cbn [assigned]. destruct i as [|i].
  - injection Hc as ->. injection Ha as ->.
    rewrite assigned_absent by done. by rewrite bool_decide_eq_true_2.
  - by rewrite (IH args i c a).
Qed.

Lemma execUpdateRows_spec (name : string) (t : Table) (cols : list string)
    (args : list SqlValue) (pk : string) (key : SqlValue) (todo : list (list SqlValue)) :
  ∀ done affected rows k,
  execUpdateRows name t cols args pk key done todo affected = inr (rows, k) →
  rows = done ++ map (fun row => if sqlEq (cell (columnNames t) row pk) key
                                  then updatedRow t cols args row else row) todo
  ∧ k = (affected
         + Z.of_nat (length (List.filter
                               (fun row => sqlEq (cell (columnNames t) row pk) key) todo)))%Z.
Proof.
  induction todo as [|row rest IH]; intros done affected rows k Hrun.
  - cbn in Hrun. injection Hrun as <- <-. cbn. rewrite app_nil_r. split; [done | lia].
  - cbn [execUpdateRows] in Hrun. cbn [map List.filter].
    fold (updatedRow t cols args row) in Hrun.
    destruct (sqlEq (cell (columnNames t) row pk) key).
    + destruct (notNullViolation t (updatedRow t cols args row)); [done|].
      destruct (uniqueViolation t (done ++ rest) (updatedRow t cols args row)); [done|].
      destruct (IH _ _ _ _ Hrun) as [-> ->].
      rewrite <- app_assoc. split; [done|]. cbn [length]. lia.
    + destruct (IH _ _ _ _ Hrun) as [-> ->].
      rewrite <- app_assoc. by split.
Qed.

Lemma execUpdateRows_no_hit (name : string) (t : Table) (cols : list string)
    (args : list SqlValue) (pk : string) (key : SqlValue) (todo : list (list SqlValue)) :
  ∀ done affected,
  Forall (fun row => sqlEq (cell (columnNames t) row pk) key = false) todo →
  execUpdateRows name t cols args pk key done todo affected
  = inr (done ++ todo, affected).
Proof.
  induction todo as [|row rest IH]; intros done affected Hno.
  - cbn. by rewrite app_nil_r.
  - apply Forall_cons in Hno as [Hrow Hrest].
    cbn [execUpdateRows]. rewrite Hrow, IH by done. by rewrite <- app_assoc.
Qed.

Section UpdateStatement.
Context `{Platform}.

Lemma ExecContext_update (db : SqlDB) (name id : string) (cols : list string)
    (vals : list GoValue) (t : Table) :
  closed db = false →
  isName name = true →
  isName "id" = true →
  forallb isName cols = true →
  cols ≠ [] →
  length vals = length cols →
  forallb accepted vals = true →
  lookupTable (tables db) name = Some t →
  ExecContext db (updateQuery (Collection name) (map (fun c => c +:+ " = ?") cols))
              (vals ++ [VString id])
  = match execUpdate name t cols (map bound vals) "id" (SText id) with
    | inl msg => (inl msg, db)
    | inr (t', k) => (inr k, mkSqlDB false (storeTable (tables db) name t'))
    end.
Proof.
  intros Hopen Hname Hpk Hcols Hne Hlen Hacc Ht.
  unfold ExecContext. rewrite Hopen.
  assert (Hall : forallb accepted (vals ++ [VString id]) = true).
  { rewrite forallb_app, Hacc. reflexivity. }
  destruct (accepted_convertArgs _ Hall) as (ds & Hds). rewrite Hds.
  unfold updateQuery. cbn [tableName primaryKey Collection].
  rewrite prepare_update by done.
  cbn [runExec]. rewrite Ht. unfold argumentCount.
  rewrite bool_decide_eq_true_2.
  2:{ rewrite length_map, (convertArgs_length _ _ Hds), length_app. simpl. lia. }
  rewrite (convertArgs_bound _ _ Hds), map_app. cbn [map].
  assert (Hl : length (map bound vals) = length cols) by by rewrite length_map.
  rewrite take_app_length' by done.
  rewrite <- Hl, nth_middle.
  change (bound (VString id)) with (SText id).
  by destruct (execUpdate name t cols (map bound vals) "id" (SText id)) as [|[]].
Qed.

End UpdateStatement.

Lemma parse_insert_nothing (t : string) :
  plainWord t = true →
  parse (lex ("INSERT INTO " +:+ t +:+ " (" +:+ Str.Join [] ", " +:+
              ") VALUES (" +:+ Str.Join [] ", " +:+ ")"))
  = None.
Proof.
  intros Ht. unfold lex.
  assert (H1 : ∀ R, lexLoop ("INSERT INTO " +:+ R) ""
                    = TWord "INSERT" :: TWord "INTO" :: lexLoop R "") by reflexivity.
  by rewrite H1, lex_word.
Qed.

Lemma parse_update_nothing (t pk : string) :
  plainWord t = true → plainWord pk = true →
  parse (lex ("UPDATE " +:+ t +:+ " SET " +:+ Str.Join [] ", " +:+
              " WHERE " +:+ pk +:+ " = ?"))
  = None.
Proof.
  intros Ht Hpk. unfold lex.
  assert (H1 : ∀ R, lexLoop ("UPDATE " +:+ R) "" = TWord "UPDATE" :: lexLoop R "")
    by reflexivity.
  assert (H2 : ∀ R, lexLoop (" SET " +:+ Str.Join [] ", " +:+ " WHERE " +:+ R) ""
                    = TWord "SET" :: TWord "WHERE" :: lexLoop R "")
    by reflexivity.
  by rewrite H1, lex_word, H2, lex_word.
Qed.

Lemma assignedColumns_nil (fields : list (StructField * GoValue)) (now : Time) :
  assignedColumns fields = [] → assignedValues fields now = [].
Proof.
  unfold assignedColumns, assignedValues.
  intros [Hkept Hdecl]%app_eq_nil. apply map_eq_nil in Hkept. rewrite Hkept.
  by destruct (declaresUpdatedAt fields).
Qed.

Section NothingToWrite.
Context `{Platform}.

Lemma ExecContext_syntax (db : SqlDB) (query : string) (args : list GoValue) :
  prepare query = None →
  forallb accepted args = true →
  ∃ detail, ExecContext db query args = (inl detail, db)
            ∧ Str.Contains detail "UNIQUE constraint failed" = false.
Proof.
  intros Hq Hacc. unfold ExecContext. destruct (closed db); [by eexists|].
  destruct (accepted_convertArgs _ Hacc) as (ds & ->). rewrite Hq. by eexists.
Qed.

(** A record with nothing to write is refused by the engine, not by the
    collection: when every field of the struct holds its zero value, [Create]
    sends an INSERT with an empty column list, and when no field is left for
    the SET list, [UpdateById] sends an UPDATE with an empty SET list; both
    return an error that wraps Internal, whether or not the identifier
    exists, and the tables stay as they were. *)
Theorem nothing_to_write (name : string) (fields : list (StructField * GoValue))
    (w : World) (db : SqlDB) :
  cacheSound (fieldNameCache w) →
  conn w = Some db →
  isName name = true →
  isName "id" = true →
  forallb readable fields = true →
  (keptForInsert fields = [] →
   ∃ detail cache',
     Create (Collection name) (VStruct fields) w
     = (Err (Wrapf ErrInternal detail), withConn w cache' db))
  ∧ (assignedColumns fields = [] →
     ∀ id now, ∃ detail cache',
       UpdateById (Collection name) id (VStruct fields) now w
       = (Err (Wrapf ErrInternal detail), withConn w cache' db)).
Proof.
  intros Hc Hconn Hname Hpk Hr. split.
  - intros Hkept.
    destruct (extractFieldsForInsert_spec "id" fields (fieldNameCache w) Hc Hr)
      as (cache' & Hex & _).
    rewrite Hkept in Hex. cbn [map] in Hex.
    unfold Create, GetConn. rewrite Hconn.
    change (primaryKey (Collection name)) with "id". rewrite Hex.
    cbn [values]. unfold insertQuery. cbn [tableName columns placeholders Collection].
    destruct (ExecContext_syntax db
                ("INSERT INTO " +:+ name +:+ " (" +:+ Str.Join [] ", " +:+
                 ") VALUES (" +:+ Str.Join [] ", " +:+ ")") [])
      as (detail & -> & ->); [|done|by eexists _, _].
    unfold prepare. by rewrite parse_insert_nothing by by apply isName_plainWord.
  - intros Hcols id now.
    destruct (extractFieldsForUpdate_assigned fields now (fieldNameCache w) Hc Hr)
      as (cache' & Hex & _).
    rewrite Hcols, (assignedColumns_nil fields now Hcols) in Hex. cbn [map] in Hex.
    unfold UpdateById, GetConn. rewrite Hconn, Hex.
    unfold updateQuery. cbn [tableName primaryKey Collection app].
    destruct (ExecContext_syntax db
                ("UPDATE " +:+ name +:+ " SET " +:+ Str.Join [] ", " +:+
                 " WHERE " +:+ "id" +:+ " = ?") [VString id])
      as (detail & -> & ->); [|done|by eexists _, _].
    unfold prepare. by rewrite parse_update_nothing by by apply isName_plainWord.
Qed.

End NothingToWrite.

Lemma nothing_to_write_witness :
  let record := [(dbField "ID" "id", VString "");
                 (dbField "Username" "username", VString "")] in
  (∃ detail cache',
     Create (H := examplePlatform) (Collection "users") (VStruct record) exampleWorld
     = (Err (Wrapf ErrInternal detail), mkWorld cache' (conn exampleWorld)))
  ∧ (∃ detail cache',
       UpdateById (H := examplePlatform) (Collection "users") "u1" (VStruct record)
         zeroTime exampleWorld
       = (Err (Wrapf ErrInternal detail), mkWorld cache' (conn exampleWorld))).
Proof.
  intros record.
  destruct (nothing_to_write (H := examplePlatform) "users" record exampleWorld _
              cacheSound_empty eq_refl eq_refl eq_refl eq_refl) as [Hcreate Hupdate].
  split; [exact (Hcreate eq_refl) | exact (Hupdate eq_refl "u1" zeroTime)].
Defined.

(* ===================================================================== *)
(** ** Create of a record that repeats a unique value *)
(* ===================================================================== *)

Lemma Contains_prefix (rest : string) :
  Str.Contains ("UNIQUE constraint failed: " +:+ rest) "UNIQUE constraint failed" = true.
Proof. reflexivity. Qed.

Section Duplicate.
Context `{Platform}.

Lemma uniqueViolation_repeat (t : Table) (others : list (list SqlValue))
    (row other : list SqlValue) (col : Column) :
  col ∈ tcols t →
  cunique col = true →
  other ∈ others →
  sqlEq (cell (columnNames t) other (cname col)) (cell (columnNames t) row (cname col))
  = true →
  ∃ c, uniqueViolation t others row = Some c.
Proof.
  intros Hcol Hu Hother Heq. unfold uniqueViolation.
  destruct (find _ (tcols t)) as [c|] eqn:Hfind; [eexists; reflexivity|]. exfalso.
  pose proof (find_none _ _ Hfind col (proj1 (list_elem_of_In _ _) Hcol)) as Hp.
  cbn beta in Hp. rewrite Hu in Hp. cbn [andb] in Hp.
  assert (Hex : existsb (fun r => sqlEq (cell (columnNames t) r (cname col))
                                        (cell (columnNames t) row (cname col))) others
                = true).
  { apply existsb_exists. exists other. split; [by apply list_elem_of_In | done]. }
  by rewrite Hex in Hp.
Qed.

(** When the row of a record repeats, in a column declared UNIQUE, the value
    that a stored row holds there, [Create] returns an error that wraps
    Duplicate and stores nothing. *)
Theorem create_of_duplicate (name : string) (fields : list (StructField * GoValue))
    (w : World) (db : SqlDB) (t : Table) (col : Column) (other : list SqlValue) :
  cacheSound (fieldNameCache w) →
  conn w = Some db →
  closed db = false →
  isName name = true →
  lookupTable (tables db) name = Some t →
  fields ≠ [] →
  forallb (storable t) fields = true →
  forallb isName (map (fun fv => columnOf fv.1) fields) = true →
  notNullViolation t (storedRow t fields) = None →
  col ∈ tcols t →
  cunique col = true →
  other ∈ trows t →
  sqlEq (cell (columnNames t) other (cname col))
        (cell (columnNames t) (storedRow t fields) (cname col)) = true →
  ∃ e cache',
    Create (Collection name) (VStruct fields) w = (Err e, withConn w cache' db)
    ∧ errorsIs e ErrDuplicate = true.
Proof.
  intros Hc Hconn Hopen Hname Ht Hne Hst Hwords Hnn Hcol Hu Hother Heq.
  destruct (uniqueViolation_repeat t (trows t) (storedRow t fields) other col
              Hcol Hu Hother Heq) as (c & Huq).
  destruct (storable_keptForInsert t fields Hst) as [Hr Hk].
  destruct (extractFieldsForInsert_spec "id" fields (fieldNameCache w) Hc Hr)
    as (cache' & Hex & _).
  rewrite Hk in Hex.
  exists (Wrapf ErrDuplicate ("UNIQUE constraint failed: " +:+ name +:+ "." +:+ c)), cache'.
  split; [|done].
  unfold Create, GetConn. rewrite Hconn.
  change (primaryKey (Collection name)) with "id". rewrite Hex. cbn [values].
  unfold ExecContext. rewrite Hopen.
  destruct (carried_convertArgs fields (storable_carried t fields Hst))
    as (ds & Hds & Hbs).
  rewrite Hds. unfold insertQuery. cbn [columns placeholders tableName Collection].
  rewrite prepare_insert; [|done|done|by destruct fields|done].
  cbn [runExec]. rewrite Ht.
  rewrite length_map. rewrite bool_decide_eq_true_2 by done. cbn [negb].
  unfold argumentCount.
  rewrite bool_decide_eq_true_2
    by (by rewrite length_map, (convertArgs_length _ _ Hds), length_map).
  unfold execInsert.
  rewrite undeclared_None by (by apply storable_declared).
  rewrite Hbs. fold (storedRow t fields). rewrite Hnn, Huq.
  by rewrite Contains_prefix.
Qed.

End Duplicate.

Lemma create_of_duplicate_witness :
  ∃ e cache',
    Create (H := examplePlatform) (Collection "users")
      (VStruct [(dbField "ID" "id", VString "u7");
                (dbField "Username" "username", VString "alice")])
      exampleWorld
    = (Err e, mkWorld cache' (conn exampleWorld))
    ∧ errorsIs e ErrDuplicate = true.
Proof.
  apply (create_of_duplicate (H := examplePlatform) "users"
           [(dbField "ID" "id", VString "u7");
            (dbField "Username" "username", VString "alice")]
           exampleWorld (mkSqlDB false [("users", exampleUsers)]) exampleUsers
           (mkColumn "username" DeclText true true)
           [SText "u1"; SText "alice"; SNull; SNull]
           cacheSound_empty eq_refl eq_refl eq_refl eq_refl
           ltac:(discriminate) eq_refl eq_refl eq_refl).
  - apply list_elem_of_In. vm_compute. tauto.
  - reflexivity.
  - apply list_elem_of_In. vm_compute. tauto.
  - reflexivity.
Defined.

(* ===================================================================== *)
(** ** UpdateById of an identifier that no row has *)
(* ===================================================================== *)

Lemma assigned_lengths (fields : list (StructField * GoValue)) (now : Time) :
  length (assignedValues fields now) = length (assignedColumns fields).
Proof.
  unfold assignedValues, assignedColumns. rewrite !length_app, !length_map.
  by destruct (declaresUpdatedAt fields).
Qed.

Lemma assignedValues_accepted (fields : list (StructField * GoValue)) (now : Time) :
  forallb accepted (map snd (keptForUpdate fields)) = true →
  forallb accepted (assignedValues fields now) = true.
Proof.
  intros Hacc. unfold assignedValues. rewrite forallb_app, Hacc.
  by destruct (declaresUpdatedAt fields).
Qed.

Section UpdateMissing.
Context `{Platform}.

(** For an identifier that no stored row has, [UpdateById] finds zero rows
    affected and returns an error that wraps NotFound; the tables stay as they
    were. *)
Theorem update_of_missing (name id : string) (fields : list (StructField * GoValue))
    (now : Time) (w : World) (db : SqlDB) (t : Table) :
  cacheSound (fieldNameCache w) →
  conn w = Some db →
  closed db = false →
  isName name = true →
  isName "id" = true →
  lookupTable (tables db) name = Some t →
  forallb readable fields = true →
  assignedColumns fields ≠ [] →
  forallb isName (assignedColumns fields) = true →
  forallb accepted (map snd (keptForUpdate fields)) = true →
  Forall (fun c => c ∈ columnNames t) (assignedColumns fields) →
  "id" ∈ columnNames t →
  Forall (fun row => cell (columnNames t) row "id" ≠ SText id) (trows t) →
  ∃ cache',
    UpdateById (Collection name) id (VStruct fields) now w
    = (Err (Wrapf ErrNotFound ("id " +:+ id)), withConn w cache' db)
    ∧ errorsIs (Wrapf ErrNotFound ("id " +:+ id)) ErrNotFound = true.
Proof.
  intros Hc Hconn Hopen Hname Hpk Ht Hr Hne Hwords Hacc Hdecl Hid Hmiss.
  destruct (extractFieldsForUpdate_assigned fields now (fieldNameCache w) Hc Hr)
    as (cache' & Hex & _).
  exists cache'. split; [|done].
  unfold UpdateById, GetConn. rewrite Hconn, Hex.
  rewrite (ExecContext_update db name id (assignedColumns fields)
             (assignedValues fields now) t);
    [|done|done|done|done|done|apply assigned_lengths
     |by apply assignedValues_accepted|done].
  unfold execUpdate.
  rewrite undeclared_None.
  2:{ apply Forall_app. split; [done | by repeat constructor]. }
  rewrite execUpdateRows_no_hit.
  2:{ eapply Forall_impl; [exact Hmiss|]. intros row Hrow. cbn beta.
      by apply sqlEq_SText_false. }
  cbn [app Z.eqb].
  replace (mkTable (tcols t) (trows t)) with t by by destruct t.
  rewrite storeTable_same by done.
  replace (mkSqlDB false (tables db)) with db; [done|].
  destruct db as [cl ts]. simpl in *. by subst.
Qed.

End UpdateMissing.

Lemma update_of_missing_witness :
  ∃ cache',
    UpdateById (H := examplePlatform) (Collection "users") "u2"
      (VStruct [(dbField "ID" "id", VString "u2");
                (dbField "Username" "username", VString "bob")])
      zeroTime exampleWorld
    = (Err (Wrapf ErrNotFound "id u2"), mkWorld cache' (conn exampleWorld)).
Proof.
  destruct (update_of_missing (H := examplePlatform) "users" "u2"
              [(dbField "ID" "id", VString "u2");
               (dbField "Username" "username", VString "bob")]
              zeroTime exampleWorld (mkSqlDB false [("users", exampleUsers)]) exampleUsers
              cacheSound_empty eq_refl eq_refl eq_refl eq_refl eq_refl eq_refl
              ltac:(discriminate) eq_refl eq_refl)
    as (cache' & Hrun & _).
  - repeat constructor.
  - repeat constructor.
  - repeat constructor. done.
  - by exists cache'.
Defined.

(* ===================================================================== *)
(** ** What a successful UpdateById changes *)
(* ===================================================================== *)

Lemma convertArgs_accepted (vs : list GoValue) :
  ∀ ds, convertArgs vs = inr ds → forallb accepted vs = true.
Proof.
  induction vs as [|v vs IH]; intros ds Hds; [done|].
  cbn [convertArgs] in Hds. cbn [forallb]. unfold accepted at 1.
  destruct (convertValue v) as [|d]; [done|].
  destruct (convertArgs vs) as [|ds'] eqn:Hvs; [done|]. by rewrite (IH ds').
Qed.

Lemma id_not_assigned (fields : list (StructField * GoValue)) :
  "id" ∉ assignedColumns fields.
Proof.
  unfold assignedColumns. intros [Hin|Hin]%elem_of_app.
  - apply list_elem_of_fmap in Hin as (fv & Heq & Hfv).
    unfold keptForUpdate in Hfv. apply list_elem_of_In, filter_In in Hfv as [_ Hp].
    apply andb_prop in Hp as [_ Hp]. apply negb_true_iff, bool_decide_eq_false in Hp.
    by apply Hp.
  - destruct (declaresUpdatedAt fields); [|by apply elem_of_nil in Hin].
    by apply list_elem_of_singleton in Hin.
Qed.

Lemma cell_updatedRow (t : Table) (cols : list string) (args : list SqlValue)
    (row : list SqlValue) (c : string) :
  c ∈ columnNames t →
  cell (columnNames t) (updatedRow t cols args row) c
  = default (cell (columnNames t) row c) (assigned cols args c).
Proof.
  intros Hc. unfold updatedRow, columnNames.
  by rewrite (cell_map (tcols t)
                (fun c => default (cell (map cname (tcols t)) row c) (assigned cols args c))).
Qed.

Lemma assigned_snoc_other (cols : list string) :
  ∀ (args : list SqlValue) (c u : string) (a : SqlValue),
  length args = length cols →
  c ≠ u →
  assigned (cols ++ [u]) (args ++ [a]) c = assigned cols args c.
Proof.
  induction cols as [|col cols IH]; intros args c u a Hlen Hne.
  - destruct args; [|done]. simpl. by rewrite bool_decide_eq_false_2.
  - destruct args as [|a0 args]; [done|].
    cbn [app assigned]. rewrite IH; [done| |done]. by injection Hlen.
Qed.

Section UpdateEffect.
Context `{Platform}.

Lemma ExecContext_update_nothing (db : SqlDB) (name id : string) :
  isName name = true →
  isName "id" = true →
  ∃ detail,
    ExecContext db (updateQuery (Collection name) (map (fun c => c +:+ " = ?") []))
                [VString id]
    = (inl detail, db)
    ∧ Str.Contains detail "UNIQUE constraint failed" = false.
Proof.
  intros Hname Hpk. apply ExecContext_syntax; [|done].
  unfold updateQuery, prepare. cbn [tableName primaryKey Collection map].
  by rewrite parse_update_nothing by by apply isName_plainWord.
Qed.

(** What a successful [UpdateById] has done.  The table has the rows it had,
    in the same order and with the same identifiers, and at least one of them
    has the given identifier.  A row with another identifier is untouched.
    In a row with the given identifier, a column that the SET list does not
    name keeps its value; [updated_at] holds the reading of the clock when the
    struct declares [UpdatedAt], whatever the struct held there; and when no
    two fields that are kept have the same column, the column of each of them
    holds the value of the field, except that of [updated_at] when the struct
    declares [UpdatedAt]. *)
Theorem update_by_id_effect (name id : string) (fields : list (StructField * GoValue))
    (now : Time) (w w' : World) (db : SqlDB) (t : Table) :
  cacheSound (fieldNameCache w) →
  conn w = Some db →
  lookupTable (tables db) name = Some t →
  isName name = true →
  isName "id" = true →
  forallb readable fields = true →
  forallb isName (assignedColumns fields) = true →
  UpdateById (Collection name) id (VStruct fields) now w = (Ok tt, w') →
  ∃ db' t',
    conn w' = Some db'
    ∧ lookupTable (tables db') name = Some t'
    ∧ tcols t' = tcols t
    ∧ length (trows t') = length (trows t)
    ∧ (∃ row, row ∈ trows t ∧ cell (columnNames t) row "id" = SText id)
    ∧ ∀ i row,
        trows t !! i = Some row →
        ∃ row',
          trows t' !! i = Some row'
          ∧ cell (columnNames t) row' "id" = cell (columnNames t) row "id"
          ∧ (cell (columnNames t) row "id" ≠ SText id → row' = row)
          ∧ (cell (columnNames t) row "id" = SText id →
             (declaresUpdatedAt fields = true →
              cell (columnNames t) row' "updated_at" = SText (formatTimestamp now))
             ∧ (NoDup (map (fun fv => columnOf fv.1) (keptForUpdate fields)) →
                ∀ field v, (field, v) ∈ keptForUpdate fields →
                  (declaresUpdatedAt fields = true → columnOf field ≠ "updated_at") →
                  cell (columnNames t) row' (columnOf field) = bound v)
             ∧ (∀ c, c ∈ columnNames t → c ∉ assignedColumns fields →
                  cell (columnNames t) row' c = cell (columnNames t) row c)).
Proof.
  intros Hc Hconn Ht Hname Hpk Hr Hwords Hrun.
  destruct (extractFieldsForUpdate_assigned fields now (fieldNameCache w) Hc Hr)
    as (cache' & Hex & _).
  unfold UpdateById, GetConn in Hrun. rewrite Hconn, Hex in Hrun.
  (* the handle is open *)
  destruct (closed db) eqn:Hopen.
  { by rewrite ExecContext_closed in Hrun. }
  (* the SET list is not empty *)
  destruct (decide (assignedColumns fields = [])) as [Hnil|Hne].
  { rewrite Hnil, (assignedColumns_nil fields now Hnil) in Hrun.
    destruct (ExecContext_update_nothing db name id Hname Hpk) as (detail & Hq & Hd).
    cbn [app] in Hrun. by rewrite Hq, Hd in Hrun. }
  (* the driver accepts the arguments *)
  destruct (convertArgs (assignedValues fields now ++ [VString id])) as [msg|ds] eqn:Hconv.
  { unfold ExecContext in Hrun. rewrite Hopen, Hconv in Hrun.
    by destruct (Str.Contains msg "UNIQUE constraint failed"). }
  pose proof (convertArgs_accepted _ _ Hconv) as Hall.
  rewrite forallb_app in Hall. apply andb_prop in Hall as [Hacc _].
  rewrite (ExecContext_update db name id (assignedColumns fields)
             (assignedValues fields now) t) in Hrun;
    [|done|done|done|done|done|apply assigned_lengths|done|done].
  set (cols := assignedColumns fields) in *.
  set (args := map bound (assignedValues fields now)) in *.
  unfold execUpdate in Hrun.
  destruct (undeclared (columnNames t) (cols ++ ["id"])) as [c0|] eqn:Hund.
  { by destruct (Str.Contains _ "UNIQUE constraint failed"). }
  apply undeclared_inv, Forall_app in Hund as [Hdecl Hid].
  rewrite Forall_singleton in Hid. rewrite Forall_forall in Hdecl.
  destruct (execUpdateRows name t cols args "id" (SText id) [] (trows t) 0)
    as [msg|[rows k]] eqn:Hrows.
  { by destruct (Str.Contains msg "UNIQUE constraint failed"). }
  destruct (execUpdateRows_spec _ _ _ _ _ _ _ _ _ _ _ Hrows) as [Hrows' Hk].
  cbn [app] in Hrows'.
  destruct (k =? 0)%Z eqn:Hzero; [done|].
  injection Hrun as <-.
  eexists _, _. split; [reflexivity|].
  split; [by apply (lookupTable_storeTable _ _ t)|].
  split; [done|]. cbn [trows]. subst rows.
  split; [by rewrite length_map|]. split.
  - (* some row was hit *)
    apply Z.eqb_neq in Hzero.
    destruct (List.filter (fun row => sqlEq (cell (columnNames t) row "id") (SText id))
                          (trows t)) as [|row rest] eqn:Hhit.
    { cbn in Hk. lia. }
    assert (Hin : In row (List.filter
                            (fun row => sqlEq (cell (columnNames t) row "id") (SText id))
                            (trows t))) by (rewrite Hhit; by left).
    apply filter_In in Hin as [Hin Heq].
    exists row. split; [by apply list_elem_of_In | by apply sqlEq_SText].
  - intros i row Hi.
    eexists. split.
    { change (map ?f (trows t)) with (f <$> trows t).
      rewrite list_lookup_fmap, Hi. reflexivity. }
    cbn beta.
    destruct (sqlEq (cell (columnNames t) row "id") (SText id)) eqn:Hhit.
    + apply sqlEq_SText in Hhit.
      split; [|split; [by intros []|intros _; split; [|split]]].
      * rewrite cell_updatedRow by done.
        by rewrite (assigned_absent cols args "id" (id_not_assigned fields)).
      * intros Hdeclares.
        assert (Hu : "updated_at" ∈ cols).
        { unfold cols, assignedColumns. rewrite Hdeclares. apply elem_of_app. right.
          by apply list_elem_of_singleton. }
        rewrite cell_updatedRow by by apply Hdecl.
        unfold cols, args, assignedColumns, assignedValues. rewrite Hdeclares.
        rewrite map_app. cbn [map].
        rewrite assigned_last by by rewrite !length_map. done.
      * intros Hnd field v Hkept Hother.
        assert (Hcol : columnOf field ∈ cols).
        { unfold cols, assignedColumns. apply elem_of_app. left.
          apply list_elem_of_fmap. by exists (field, v). }
        rewrite cell_updatedRow by by apply Hdecl.
        apply list_elem_of_lookup in Hkept as [j Hj].
        assert (Hset : assigned (map (fun fv => columnOf fv.1) (keptForUpdate fields))
                         (map bound (map snd (keptForUpdate fields))) (columnOf field)
                       = Some (bound v)).
        { apply (assigned_lookup _ _ j); [done|..].
          - change (map ?g (keptForUpdate fields)) with (g <$> keptForUpdate fields).
            by rewrite list_lookup_fmap, Hj.
          - rewrite map_map.
            change (map ?g (keptForUpdate fields)) with (g <$> keptForUpdate fields).
            by rewrite list_lookup_fmap, Hj. }
        unfold cols, args, assignedColumns, assignedValues.
        destruct (declaresUpdatedAt fields).
        -- rewrite map_app. cbn [map].
           rewrite assigned_snoc_other; [by rewrite Hset|by rewrite !length_map|by apply Hother].
        -- by rewrite !app_nil_r, Hset.
      * intros c Hin Hnot.
        rewrite cell_updatedRow by done.
        by rewrite (assigned_absent cols args c Hnot).
    + split; [done|]. split; [done|].
      intros Heq. apply sqlEq_SText in Heq. by rewrite Heq in Hhit.
Qed.

End UpdateEffect.

Lemma update_by_id_effect_witness :
  let run := UpdateById (H := examplePlatform) (Collection "reminders") "r1"
               (exampleReminder "r1" "buy milk" (mkTime 7 None)) (mkTime 9 None)
               exampleReminderWorld in
  let names := columnNames exampleReminders in
  run.1 = Ok tt
  ∧ ∃ db' t' row',
      conn run.2 = Some db'
      ∧ lookupTable (tables db') "reminders" = Some t'
      ∧ trows t' !! 0%nat = Some row'
      ∧ cell names row' "id" = SText "r1"
      ∧ cell names row' "title" = SText "buy milk"
      ∧ cell names row' "user_id" = SText "u1"
      ∧ cell names row' "updated_at"
        = SText (formatTimestamp (Platform := examplePlatform) (mkTime 9 None))
      ∧ trows t' !! 1%nat = Some [SText "r2"; SText "call home"; SNull; SText "u1"; SNull].
Proof.
  intros run names.
  assert (Hfst : run.1 = Ok tt) by (vm_compute; reflexivity).
  split; [exact Hfst|].
  assert (Hrun : run = (Ok tt, run.2)) by (rewrite <- Hfst; by destruct run).
  destruct (update_by_id_effect (H := examplePlatform) "reminders" "r1"
              (exampleReminderFields "r1" "buy milk" (mkTime 7 None))
              (mkTime 9 None) exampleReminderWorld run.2 _ exampleReminders
              cacheSound_empty eq_refl eq_refl eq_refl eq_refl eq_refl eq_refl Hrun)
    as (db' & t' & Hconn & Ht & _ & _ & _ & Hrows).
  destruct (Hrows 0%nat [SText "r1"; SText "water the plants"; SInteger 1; SText "u1"; SNull]
              eq_refl) as (row' & Hrow' & Hid & _ & Hhit).
  destruct (Hhit eq_refl) as (Hclock & Hkept & Hrest).
  destruct (Hrows 1%nat [SText "r2"; SText "call home"; SNull; SText "u1"; SNull] eq_refl)
    as (row2 & Hrow2 & _ & Hsame & _).
  exists db', t', row'. subst names.
  split; [exact Hconn|]. split; [exact Ht|]. split; [exact Hrow'|].
  split; [exact Hid|]. split; [|split; [|split]].
  - apply (Hkept ltac:(apply (bool_decide_unpack _); vm_compute; exact I)
             (dbField "Title" "title") (VString "buy milk")).
    + apply list_elem_of_In. vm_compute. tauto.
    + discriminate.
  - rewrite (Hrest "user_id"); [reflexivity| |].
    + apply (bool_decide_unpack _). vm_compute. exact I.
    + apply (bool_decide_unpack _). vm_compute. exact I.
  - exact (Hclock eq_refl).
  - rewrite Hrow2. f_equal. apply Hsame. discriminate.
Defined.

(* ===================================================================== *)
(** ** DeleteById of an identifier that a row has *)
(* ===================================================================== *)

Section DeleteExisting.
Context `{Platform}.

Lemma ExecContext_delete (db : SqlDB) (name id : string) (t : Table) :
  closed db = false →
  isName name = true →
  isName "id" = true →
  lookupTable (tables db) name = Some t →
  "id" ∈ columnNames t →
  ExecContext db (deleteQuery (Collection name)) [VString id]
  = (inr (Z.of_nat (length (List.filter
                              (fun row => sqlEq (cell (columnNames t) row "id") (SText id))
                              (trows t)))),
     mkSqlDB false
       (storeTable (tables db) name
          (mkTable (tcols t)
             (List.filter
                (fun row => negb (sqlEq (cell (columnNames t) row "id") (SText id)))
                (trows t))))).
Proof.
  intros Hopen Hname Hpk Ht Hid. unfold ExecContext, deleteQuery. rewrite Hopen.
  cbn [convertArgs convertValue].
  change (primaryKey (Collection name)) with "id".
  change (tableName (Collection name)) with name.
  rewrite prepare_delete by done. cbn [map bindValue runExec]. rewrite Ht.
  cbn [argumentCount length]. unfold argumentCount.
  rewrite bool_decide_eq_true_2 by done.
  unfold execDelete.
  by rewrite undeclared_None by (by repeat constructor).
Qed.

(** [DeleteById] of an identifier that some row has succeeds and removes
    exactly the rows with that identifier, leaving the others in their order;
    afterwards [GetById] of the identifier and a second [DeleteById] both
    return an error that wraps NotFound. *)
Theorem delete_then_gone (name id : string) (result : GoValue) (w : World) (db : SqlDB)
    (t : Table) :
  conn w = Some db →
  closed db = false →
  isName name = true →
  isName "id" = true →
  lookupTable (tables db) name = Some t →
  "id" ∈ columnNames t →
  Exists (fun row => cell (columnNames t) row "id" = SText id) (trows t) →
  validateResultType result = None →
  ∃ w' db' t',
    DeleteById (Collection name) id w = (Ok tt, w')
    ∧ conn w' = Some db'
    ∧ lookupTable (tables db') name = Some t'
    ∧ tcols t' = tcols t
    ∧ trows t'
      = List.filter (fun row => negb (sqlEq (cell (columnNames t) row "id") (SText id)))
                    (trows t)
    ∧ (GetById (Collection name) id result w').1 = Err (Wrapf ErrNotFound ("id " +:+ id))
    ∧ (DeleteById (Collection name) id w').1 = Err (Wrapf ErrNotFound ("id " +:+ id)).
Proof.
  intros Hconn Hopen Hname Hpk Ht Hid Hhas Hv.
  pose proof (ExecContext_delete db name id t Hopen Hname Hpk Ht Hid) as Hexec.
  set (hit := fun row => sqlEq (cell (columnNames t) row "id") (SText id)) in *.
  set (t' := mkTable (tcols t) (List.filter (fun row => negb (hit row)) (trows t))) in *.
  set (db' := mkSqlDB false (storeTable (tables db) name t')) in *.
  assert (Hpos : (Z.of_nat (length (List.filter hit (trows t))) =? 0)%Z = false).
  { apply Z.eqb_neq. apply Exists_exists in Hhas as (row & Hin & Hrow).
    assert (Hf : In row (List.filter hit (trows t))).
    { apply filter_In. split; [by apply list_elem_of_In | by apply sqlEq_SText]. }
    destruct (List.filter hit (trows t)); [done | simpl; lia]. }
  assert (Ht' : lookupTable (tables db') name = Some t')
    by by apply (lookupTable_storeTable _ _ t).
  assert (Hgone : Forall (fun row => cell (columnNames t') row "id" ≠ SText id) (trows t')).
  { apply Forall_forall. intros row Hin. apply list_elem_of_In, filter_In in Hin as [_ Hn].
    apply negb_true_iff in Hn. intros Heq.
    change (columnNames t') with (columnNames t) in Heq.
    apply sqlEq_SText in Heq. unfold hit in Hn. by rewrite Heq in Hn. }
  exists (withConn w (fieldNameCache w) db'), db', t'.
  split; [|split; [done|split; [done|split; [done|split; [done|split]]]]].
  - unfold DeleteById, GetConn. rewrite Hconn, Hexec. by rewrite Hpos.
  - unfold GetById, GetConn. cbn [conn withConn]. rewrite Hv.
    rewrite (QueryContext_getById db' name id t') by done.
    cbn [rdata]. rewrite filter_none; [done|].
    eapply Forall_impl; [exact Hgone|]. intros row Hrow. cbn beta.
    by rewrite sqlEq_SText_false.
  - unfold DeleteById, GetConn. cbn [conn withConn].
    by rewrite (ExecContext_delete_missing db' name id t').
Qed.

End DeleteExisting.

Lemma delete_then_gone_witness :
  ∃ w' db' t',
    DeleteById (H := examplePlatform) (Collection "reminders") "r2" exampleReminderWorld
    = (Ok tt, w')
    ∧ conn w' = Some db'
    ∧ lookupTable (tables db') "reminders" = Some t'
    ∧ trows t' = [[SText "r1"; SText "water the plants"; SInteger 1; SText "u1"; SNull];
                  [SText "r3"; SText "pay rent"; SNull; SText "u2"; SNull]]
    ∧ (GetById (H := examplePlatform) (Collection "reminders") "r2"
         (VPtr (Some (exampleReminder "" "" zeroTime))) w').1
      = Err (Wrapf ErrNotFound "id r2").
Proof.
  destruct (delete_then_gone (H := examplePlatform) "reminders" "r2"
              (VPtr (Some (exampleReminder "" "" zeroTime)))
              exampleReminderWorld (mkSqlDB false [("reminders", exampleReminders)])
              exampleReminders eq_refl eq_refl eq_refl eq_refl eq_refl)
    as (w' & db' & t' & Hrun & Hconn & Ht & _ & Hrows & Hget & _).
  - repeat constructor.
  - apply Exists_cons_tl, Exists_cons_hd. reflexivity.
  - reflexivity.
  - exists w', db', t'. by repeat split.
Defined.

(* ===================================================================== *)
(** ** Count, GetOne and GetAllByCondition on one filter *)
(* ===================================================================== *)

Section FilterAgreement.
Context `{Platform}.

Lemma QueryContext_count (db : SqlDB) (name : string) (filter : Filter)
    (t : Table) (ds : list DriverValue) :
  closed db = false →
  isName name = true →
  forallb isName (map fst filter) = true →
  convertArgs (map snd filter) = inr ds →
  lookupTable (tables db) name = Some t →
  Forall (fun k => k ∈ columnNames t) (map fst filter) →
  QueryContext db (countQuery (Collection name) (buildWhereClause filter).1)
               (buildWhereClause filter).2
  = inr (mkRows ["COUNT(*)"] [DeclInteger]
           [[SInteger (Z.of_nat (length (matching t filter ds)))]] None).
Proof.
  intros Hopen Hname Hkeys Hconv Ht Hdecl.
  rewrite buildWhereClause_spec. cbn [fst snd].
  unfold QueryContext. rewrite Hopen, Hconv.
  unfold countQuery. change (tableName (Collection name)) with name.
  rewrite map_condition_keys, prepare_count by done.
  cbn [runQuery]. rewrite Ht.
  unfold argumentCount.
  rewrite bool_decide_eq_true_2
    by (rewrite !length_map, (convertArgs_length _ _ Hconv); by rewrite length_map).
  unfold execSelect. by rewrite undeclared_None.
Qed.

Lemma kindOf_zeroOf (x : GoValue) : kindOf (zeroOf x) = kindOf x.
Proof. by destruct x. Qed.

(** [Count] and [GetAllByCondition] agree: for a filter whose keys are
    columns of the table, [Count] returns the number of elements that
    [GetAllByCondition] puts into the results, which is the number of rows that
    satisfy the filter, and for the empty filter the number of rows of the
    table. *)
Theorem count_agrees_with_get_all (name : string) (filter : Filter)
    (elemType : GoValue) (xs : option (list GoValue)) (w : World) (db : SqlDB)
    (t : Table) (ds : list DriverValue) :
  cacheSound (fieldNameCache w) →
  conn w = Some db →
  closed db = false →
  isName name = true →
  lookupTable (tables db) name = Some t →
  forallb isName (map fst filter) = true →
  Forall (fun k => k ∈ columnNames t) (map fst filter) →
  convertArgs (map snd filter) = inr ds →
  kindOf elemType = KStruct →
  ∃ items,
    (GetAllByCondition (Collection name) filter (VPtr (Some (VSlice elemType xs))) w).1
    = Ok (VSlice elemType (Some items))
    ∧ Count (Collection name) filter w = (Ok (Z.of_nat (length items)), w)
    ∧ length items = length (matching t filter ds)
    ∧ (filter = [] → length items = length (trows t)).
Proof.
  intros Hc Hconn Hopen Hname Ht Hkeys Hdecl Hconv Hk.
  pose proof (QueryContext_select db name filter false t ds
                Hopen Hname Hkeys Hconv Ht Hdecl) as Hq.
  rewrite append_nil_r in Hq.
  pose proof (GetAllByCondition_rows name filter elemType xs w db _ Hc Hconn Hk Hq)
    as Hall.
  cbn [rdata] in Hall.
  eexists. split; [exact Hall|]. rewrite length_map.
  split; [|split; [done|]].
  - unfold Count, GetConn. rewrite Hconn.
    pose proof (QueryContext_count db name filter t ds
                  Hopen Hname Hkeys Hconv Ht Hdecl) as Hcount.
    destruct (buildWhereClause filter) as [whereClause values].
    cbn [fst snd] in Hcount. by rewrite Hcount.
  - intros ->. unfold matching. cbn [map zip]. by rewrite filter_all by by apply Forall_forall.
Qed.

(** [GetOne] and [GetAllByCondition] agree: [GetOne] into a zero struct
    returns the first element that [GetAllByCondition] puts into a slice of
    that struct type, and an error that is the NotFound sentinel itself when
    there is none. *)
Theorem get_one_is_first_of_get_all (name : string) (filter : Filter)
    (elemType : GoValue) (xs : option (list GoValue)) (w : World) (db : SqlDB)
    (t : Table) (ds : list DriverValue) :
  cacheSound (fieldNameCache w) →
  conn w = Some db →
  closed db = false →
  isName name = true →
  lookupTable (tables db) name = Some t →
  forallb isName (map fst filter) = true →
  Forall (fun k => k ∈ columnNames t) (map fst filter) →
  convertArgs (map snd filter) = inr ds →
  kindOf elemType = KStruct →
  ∃ items,
    (GetAllByCondition (Collection name) filter (VPtr (Some (VSlice elemType xs))) w).1
    = Ok (VSlice elemType (Some items))
    ∧ (GetOne (Collection name) filter (VPtr (Some (zeroOf elemType))) w).1
      = match items with
        | [] => Err (Bare ErrNotFound)
        | item :: _ => Ok item
        end.
Proof.
  intros Hc Hconn Hopen Hname Ht Hkeys Hdecl Hconv Hk.
  pose proof (QueryContext_select db name filter false t ds
                Hopen Hname Hkeys Hconv Ht Hdecl) as Hq.
  rewrite append_nil_r in Hq.
  pose proof (GetAllByCondition_rows name filter elemType xs w db _ Hc Hconn Hk Hq)
    as Hall.
  cbn [rdata] in Hall.
  eexists. split; [exact Hall|].
  pose proof (QueryContext_select db name filter true t ds
                Hopen Hname Hkeys Hconv Ht Hdecl) as Hone.
  unfold GetOne, GetConn. rewrite Hconn.
  unfold validateResultType. rewrite kindOf_zeroOf, Hk.
  destruct (buildWhereClause filter) as [whereClause values].
  cbn [fst snd] in Hone. rewrite Hone. cbn [rdata rerr].
  destruct (matching t filter ds) as [|row rest]; [done|].
  change (take 1 (row :: rest)) with [row]. cbn [map indirect].
  set (rows1 := mkRows (columnNames t) (map ctype (tcols t)) [row] None).
  destruct (mapRowToStruct_spec rows1 row (zeroOf elemType) (fieldNameCache w) Hc)
    as [Hmap _].
  destruct (mapRowToStruct rows1 row (zeroOf elemType) (fieldNameCache w)) as [r cache1].
  cbn [fst] in Hmap. by subst r.
Qed.

End FilterAgreement.

Lemma count_agrees_with_get_all_witness :
  ∃ items,
    (GetAllByCondition (H := examplePlatform) (Collection "reminders")
       [("user_id", VString "u1")]
       (VPtr (Some (VSlice (exampleReminder "" "" zeroTime) None)))
       exampleReminderWorld).1
    = Ok (VSlice (exampleReminder "" "" zeroTime) (Some items))
    ∧ Count (H := examplePlatform) (Collection "reminders") [("user_id", VString "u1")]
        exampleReminderWorld
      = (Ok (Z.of_nat (length items)), exampleReminderWorld)
    ∧ length items = 2%nat.
Proof.
  destruct (count_agrees_with_get_all (H := examplePlatform) "reminders"
              [("user_id", VString "u1")] (exampleReminder "" "" zeroTime) None
              exampleReminderWorld (mkSqlDB false [("reminders", exampleReminders)])
              exampleReminders [DString "u1"]
              cacheSound_empty eq_refl eq_refl eq_refl eq_refl eq_refl)
    as (items & Hall & Hcount & Hlen & _); try reflexivity.
  - repeat constructor.
  - exists items. by repeat split.
Defined.

Lemma get_one_is_first_of_get_all_witness :
  (GetOne (H := examplePlatform) (Collection "reminders") [("user_id", VString "u1")]
     (VPtr (Some (zeroOf (exampleReminder "" "" zeroTime)))) exampleReminderWorld).1
  = Ok (VStruct [(dbField "ID" "id", VString "r1");
                 (dbField "Title" "title", VString "water the plants");
                 (dbField "IsPinned" "is_pinned", VBool true);
                 (dbField "UserID" "user_id", VString "u1");
                 (dbField "UpdatedAt" "updated_at", VTime zeroTime)]).
Proof.
  destruct (get_one_is_first_of_get_all (H := examplePlatform) "reminders"
              [("user_id", VString "u1")] (exampleReminder "" "" zeroTime) None
              exampleReminderWorld (mkSqlDB false [("reminders", exampleReminders)])
              exampleReminders [DString "u1"]
              cacheSound_empty eq_refl eq_refl eq_refl eq_refl eq_refl
              ltac:(repeat constructor) eq_refl eq_refl)
    as (items & Hall & Hone).
  rewrite Hone. vm_compute in Hall. injection Hall as <-. reflexivity.
Defined.

(* ===================================================================== *)
(** ** Seed *)
(* ===================================================================== *)

Section Seeding.
Context `{Platform}.

Lemma prepare_seedCount :
  prepare seedCountQuery
  = if isName "users" then Some (SCount "users" []) else None.
Proof.
  unfold prepare.
  change (parse (lex seedCountQuery)) with (Some (SCount "users" [])).
  cbn [namesOf forallb]. by rewrite andb_true_r.
Qed.

Lemma prepare_seedInsert :
  prepare seedInsertQuery
  = if forallb isName ("users" :: seedColumns)
    then Some (SInsert "users" seedColumns 7) else None.
Proof.
  unfold prepare.
  by change (parse (lex seedInsertQuery)) with (Some (SInsert "users" seedColumns 7)).
Qed.

Lemma seed_count (db : SqlDB) (t : Table) :
  closed db = false →
  isName "users" = true →
  lookupTable (tables db) "users" = Some t →
  QueryContext db seedCountQuery []
  = inr (mkRows ["COUNT(*)"] [DeclInteger]
           [[SInteger (Z.of_nat (length (trows t)))]] None).
Proof.
  intros Hopen Hname Ht. unfold QueryContext. rewrite Hopen. cbn [convertArgs].
  rewrite prepare_seedCount, Hname. cbn [runQuery map]. rewrite Ht.
  cbn [argumentCount length]. unfold argumentCount.
  rewrite bool_decide_eq_true_2 by done.
  unfold execSelect, undeclared. cbn [find zip].
  by rewrite filter_all by by apply Forall_forall.
Qed.

Lemma Seed_nonempty (now1 now2 : Time) (w : World) (db : SqlDB) (t : Table) :
  conn w = Some db →
  closed db = false →
  isName "users" = true →
  lookupTable (tables db) "users" = Some t →
  trows t ≠ [] →
  Seed now1 now2 w = (Ok tt, w).
Proof.
  intros Hconn Hopen Hname Ht Hrows. unfold Seed. rewrite Hconn.
  rewrite (seed_count db t) by done. cbn [rdata Scan rtypes zip_with readValue].
  destruct (trows t); [done|]. done.
Qed.

Lemma Seed_inv (now1 now2 : Time) (w w1 : World) :
  Seed now1 now2 w = (Ok tt, w1) →
  ∃ db t,
    conn w = Some db ∧ closed db = false ∧ isName "users" = true
    ∧ lookupTable (tables db) "users" = Some t
    ∧ ((trows t ≠ [] ∧ w1 = w)
       ∨ (trows t = []
          ∧ ∃ row, w1 = withConn w (fieldNameCache w)
                          (mkSqlDB false
                             (storeTable (tables db) "users"
                                (mkTable (tcols t) [row]))))).
Proof.
  unfold Seed. destruct (conn w) as [db|] eqn:Hconn; [|done].
  destruct (closed db) eqn:Hopen.
  { by rewrite QueryContext_closed. }
  destruct (isName "users") eqn:Hname.
  2:{ unfold QueryContext. rewrite Hopen. cbn [convertArgs].
      by rewrite prepare_seedCount, Hname. }
  destruct (lookupTable (tables db) "users") as [t|] eqn:Ht.
  2:{ unfold QueryContext. rewrite Hopen. cbn [convertArgs].
      rewrite prepare_seedCount, Hname. cbn [runQuery]. by rewrite Ht. }
  rewrite (seed_count db t) by done. cbn [rdata Scan rtypes zip_with readValue].
  intros Hrun. exists db, t. repeat (split; [done|]).
  destruct (trows t) as [|row0 rest] eqn:Hrows.
  - right. split; [done|].
    change (Z.of_nat (length []) =? 0)%Z with true in Hrun. cbn iota in Hrun.
    unfold ExecContext in Hrun. rewrite Hopen in Hrun.
    change (convertArgs (seedArguments now1 now2))
      with (inr (B := list DriverValue) (A := string)
              [DString "admin-uuid"; DString "admin"; DString "admin@example.com";
               DString "$2a$10$zgbBOT.6IbXjZEFCJdCgeubIm4LQfy9jAEhTjkxPLAfCzer9SZape";
               DString "admin"; DTime now1; DTime now2]) in Hrun.
    cbn iota in Hrun. rewrite prepare_seedInsert in Hrun.
    destruct (forallb isName ("users" :: seedColumns)); [|done].
    cbn [runExec] in Hrun. rewrite Ht in Hrun.
    change (negb (bool_decide (length seedColumns = 7%nat))) with false in Hrun.
    cbn iota in Hrun. unfold argumentCount in Hrun.
    rewrite bool_decide_eq_true_2 in Hrun by done.
    unfold execInsert in Hrun. rewrite Hrows in Hrun.
    destruct (undeclared (columnNames t) seedColumns); [done|].
    destruct (notNullViolation t _); [done|].
    destruct (uniqueViolation t [] _); [done|].
    cbn [app] in Hrun. injection Hrun as <-. by eexists.
  - left. split; [done|]. by injection Hrun as <-.
Qed.

(** [Seed] inserts the administrator only into an empty [users] table: after
    a successful call the table is not empty; a table that was not empty is
    left as it was; and every further call succeeds and changes nothing.
    Called before [Connect], [Seed] panics. *)
Theorem seed_once (now1 now2 : Time) (w w1 : World) :
  Seed now1 now2 w = (Ok tt, w1) →
  (∃ db1 t1, conn w1 = Some db1 ∧ lookupTable (tables db1) "users" = Some t1
             ∧ trows t1 ≠ [])
  ∧ (∀ db t, conn w = Some db → lookupTable (tables db) "users" = Some t →
             trows t ≠ [] → w1 = w)
  ∧ (∀ now3 now4, Seed now3 now4 w1 = (Ok tt, w1))
  ∧ (∀ w0 now3 now4, conn w0 = None → Seed now3 now4 w0 = (Panic nilDereference, w0)).
Proof.
  intros Hrun.
  destruct (Seed_inv _ _ _ _ Hrun)
    as (db & t & Hconn & Hopen & Hname & Ht & [[Hrows ->]|[Hrows [row ->]]]).
  - split; [by exists db, t|]. split; [done|]. split.
    + intros now3 now4. by apply (Seed_nonempty now3 now4 w db t).
    + intros w0 now3 now4 Hnil. unfold Seed. by rewrite Hnil.
  - set (t1 := mkTable (tcols t) [row]).
    set (db1 := mkSqlDB false (storeTable (tables db) "users" t1)).
    assert (Ht1 : lookupTable (tables db1) "users" = Some t1)
      by by apply (lookupTable_storeTable _ _ t).
    split; [by exists db1, t1|]. split.
    + intros db0 t0 Hconn0 Ht0 Hrows0.
      rewrite Hconn in Hconn0. injection Hconn0 as <-.
      rewrite Ht in Ht0. injection Ht0 as <-. done.
    + split.
      * intros now3 now4. by apply (Seed_nonempty now3 now4 _ db1 t1).
      * intros w0 now3 now4 Hnil. unfold Seed. by rewrite Hnil.
Qed.

End Seeding.

Lemma seed_once_witness :
  let run := Seed (H := examplePlatform) (mkTime 3 None) (mkTime 4 None) migratedWorld in
  run.1 = Ok tt
  ∧ (∃ db1 t1, conn run.2 = Some db1 ∧ lookupTable (tables db1) "users" = Some t1
               ∧ length (trows t1) = 1%nat)
  ∧ Seed (H := examplePlatform) (mkTime 5 None) (mkTime 6 None) run.2 = (Ok tt, run.2).
Proof.
  intros run.
  assert (Hfst : run.1 = Ok tt) by (vm_compute; reflexivity).
  assert (Hrun : run = (Ok tt, run.2)) by (rewrite <- Hfst; by destruct run).
  destruct (seed_once (H := examplePlatform) _ _ _ _ Hrun)
    as ((db1 & t1 & Hconn & Ht & _) & _ & Hagain & _).
  split; [exact Hfst|]. split; [|apply Hagain].
  exists db1, t1. split; [exact Hconn|]. split; [exact Ht|].
  vm_compute in Hconn. injection Hconn as <-.
  vm_compute in Ht. by injection Ht as <-.
Defined.

(* ===================================================================== *)
(** ** The two tests for a zero value *)
(* ===================================================================== *)

Lemma length_zero_empty (s : string) : String.length s = 0%nat ↔ s = "".
Proof. by destruct s. Qed.

(** The zero test of the document backend ([isZeroValue], used for
    [omitempty]) and that of the relational backend ([isZeroOfUnderlyingType])
    compared on the value of an exported field whose type is a boolean, a
    sized integer, a string, a byte slice, another slice, a pointer,
    [time.Time] or a struct; fields of array, map, floating-point, function
    and channel type, and fields of interface type that hold a value, are not
    among the values here.  On these values, what the relational test takes
    for zero, the document test takes for zero as well.  The document test
    alone takes for zero an empty slice that is not nil and a zero instant in
    a named location.  On the nil interface the document test answers zero
    and the relational test panics. *)
Theorem zero_tests_compared (field : StructField) (v : GoValue) :
  IsExported field = true →
  v ≠ VNil →
  ∃ b b',
    isZeroValue field v = Ok b
    ∧ isZeroOfUnderlyingType v = Ok b'
    ∧ (b' = true → b = true)
    ∧ (b = true ∧ b' = false
       ↔ v = VBytes (Some "")
         ∨ (∃ elem, v = VSlice elem (Some []))
         ∨ (∃ l, v = VTime (mkTime 0 (Some l))))
    ∧ isZeroValue field VNil = Ok true
    ∧ isZeroOfUnderlyingType VNil = Panic "reflect: Zero(nil)".
Proof.
  intros Hex Hnil. unfold isZeroValue, Interface. rewrite Hex.
  destruct v as [|b|k n|k n|s|b|t|p|elem xs|fields]; [done|..];
    cbn [isZeroOfUnderlyingType deepEqualZero bindR];
    eexists _, _; (split; [reflexivity|]); (split; [reflexivity|]);
    (split; [|split; [split|by split]]).
  - done.
  - intros [Hb Hb']. by rewrite Hb in Hb'.
  - intros [Hv|[[? Hv]|[? Hv]]]; discriminate Hv.
  - done.
  - intros [Hb Hb']. by rewrite Hb in Hb'.
  - intros [Hv|[[? Hv]|[? Hv]]]; discriminate Hv.
  - done.
  - intros [Hb Hb']. by rewrite Hb in Hb'.
  - intros [Hv|[[? Hv]|[? Hv]]]; discriminate Hv.
  - intros Hs%bool_decide_eq_true. by subst.
  - intros [Hb Hb']. apply bool_decide_eq_true, length_zero_empty in Hb.
    by apply bool_decide_eq_false in Hb'.
  - intros [Hv|[[? Hv]|[? Hv]]]; discriminate Hv.
  - intros Hs%bool_decide_eq_true. by subst.
  - intros [Hb Hb']. apply bool_decide_eq_true, length_zero_empty in Hb.
    apply bool_decide_eq_false in Hb'. left. destruct b as [s|]; [|done].
    simpl in Hb. by subst.
  - intros [Hv|[[? Hv]|[? Hv]]]; [|discriminate Hv..]. by injection Hv as ->.
  - intros Ht%bool_decide_eq_true. by subst.
  - intros [Hb Hb']. right. right. apply bool_decide_eq_false in Hb'.
    unfold IsZero in Hb. apply Z.eqb_eq in Hb. destruct t as [n [l|]]; simpl in *.
    + exists l. by subst.
    + by subst.
  - intros [Hv|[[? Hv]|[l Hv]]]; [discriminate Hv..|]. injection Hv as ->.
    split; [done|]. by apply bool_decide_eq_false.
  - done.
  - intros [Hb Hb']. by rewrite Hb in Hb'.
  - intros [Hv|[[? Hv]|[? Hv]]]; discriminate Hv.
  - by destruct xs.
  - intros [Hb Hb']. right. left. exists elem. apply bool_decide_eq_true in Hb.
    by destruct xs as [[|x xs]|].
  - intros [Hv|[[? Hv]|[? Hv]]]; [discriminate Hv| |discriminate Hv].
    by injection Hv as -> ->.
  - done.
  - intros [Hb Hb']. by rewrite Hb in Hb'.
  - intros [Hv|[[? Hv]|[? Hv]]]; discriminate Hv.
Qed.

Lemma zero_tests_compared_witness :
  isZeroValue (fsField "Tags" "tags,omitempty") (VSlice (VString "") (Some [])) = Ok true
  ∧ isZeroOfUnderlyingType (VSlice (VString "") (Some [])) = Ok false.
Proof.
  destruct (zero_tests_compared (fsField "Tags" "tags,omitempty")
              (VSlice (VString "") (Some [])) eq_refl ltac:(discriminate))
    as (b & b' & Hb & Hb' & _ & Hdiff & _).
  assert (Hboth : b = true ∧ b' = false).
  { apply Hdiff. right. left. by eexists. }
  destruct Hboth as [-> ->]. by split.
Defined.

(* ===================================================================== *)
(** ** The map that structToMap makes *)
(* ===================================================================== *)

Lemma isZeroValue_exported (field : StructField) (v : GoValue) :
  IsExported field = true → isZeroValue field v = Ok (emptyValue v).
Proof.
  intros Hex. unfold isZeroValue, Interface. rewrite Hex. by destruct v.
Qed.

Lemma structToMapLoop_spec (fields : list (StructField * GoValue)) :
  ∀ result,
  forallb (fun fv => IsExported fv.1) fields = true →
  structToMapLoop fields result
  = Ok (fold_left (fun m fv => <[fsLabel fv.1 := fv.2]> m)
                  (List.filter fsKept fields) result).
Proof.
  induction fields as [|[field v] rest IH]; intros result Hex; [done|].
  cbn [forallb fst] in Hex. apply andb_prop in Hex as [Hfield Hrest].
  cbn [structToMapLoop List.filter]. unfold fsKept at 1. cbn [fst snd].
  fold (fsTag field). case_bool_decide as Hdash; cbn [negb andb].
  { by apply IH. }
  fold (fsOmitEmpty field). fold (fsLabel field).
  destruct (fsOmitEmpty field); cbn [andb].
  - rewrite isZeroValue_exported by done. cbn [bindR].
    destruct (emptyValue v); cbn [negb]; [by apply IH|].
    unfold Interface. rewrite Hfield. cbn [bindR fold_left fst snd]. by apply IH.
  - cbn [bindR negb]. unfold Interface. rewrite Hfield.
    cbn [bindR fold_left fst snd]. by apply IH.
Qed.

Lemma fold_insert_inv (l : list (StructField * GoValue)) :
  ∀ (m : Document) k v,
  fold_left (fun m fv => <[fsLabel fv.1 := fv.2]> m) l m !! k = Some v →
  m !! k = Some v ∨ ∃ field, (field, v) ∈ l ∧ fsLabel field = k.
Proof.
  induction l as [|[field v0] rest IH]; intros m k v Hlook; [by left|].
  cbn [fold_left fst snd] in Hlook.
  destruct (IH _ _ _ Hlook) as [Hm|(field' & Hin & Hk)].
  - destruct (decide (fsLabel field = k)) as [<-|Hne].
    + rewrite lookup_insert_eq in Hm. injection Hm as ->.
      right. exists field. split; [by left | done].
    + rewrite lookup_insert_ne in Hm by done. by left.
  - right. exists field'. split; [by right | done].
Qed.

Lemma fold_insert_absent (l : list (StructField * GoValue)) :
  ∀ (m : Document) k,
  k ∉ map (fun fv => fsLabel fv.1) l →
  fold_left (fun m fv => <[fsLabel fv.1 := fv.2]> m) l m !! k = m !! k.
Proof.
  induction l as [|[field v0] rest IH]; intros m k Hk; [done|].
  cbn [map fst] in Hk. apply not_elem_of_cons in Hk as [Hne Hk].
  cbn [fold_left fst snd]. rewrite IH by done. by rewrite lookup_insert_ne.
Qed.

Lemma fold_insert_lookup (l : list (StructField * GoValue)) :
  ∀ (m : Document) field v,
  NoDup (map (fun fv => fsLabel fv.1) l) →
  (field, v) ∈ l →
  fold_left (fun m fv => <[fsLabel fv.1 := fv.2]> m) l m !! fsLabel field = Some v.
Proof.
  induction l as [|[field0 v0] rest IH]; intros m field v Hnd Hin.
  - by apply elem_of_nil in Hin.
  - cbn [map fst] in Hnd. apply NoDup_cons in Hnd as [Hfresh Hnd].
    cbn [fold_left fst snd].
    apply elem_of_cons in Hin as [[= <- <-]|Hin].
    + rewrite fold_insert_absent by done. by rewrite lookup_insert_eq.
    + by apply IH.
Qed.

Lemma NoDup_labels_filter (p : StructField * GoValue → bool)
    (l : list (StructField * GoValue)) :
  NoDup (map (fun fv => fsLabel fv.1) l) →
  NoDup (map (fun fv => fsLabel fv.1) (List.filter p l)).
Proof.
  induction l as [|fv rest IH]; [done|].
  cbn [map List.filter]. intros [Hfresh Hnd]%NoDup_cons.
  destruct (p fv); [|by apply IH].
  cbn [map]. apply NoDup_cons. split; [|by apply IH].
  intros Hin. apply Hfresh.
  apply list_elem_of_fmap in Hin as (fv' & Heq & Hfv').
  apply list_elem_of_In, filter_In in Hfv' as [Hfv' _].
  apply list_elem_of_fmap. exists fv'. split; [done | by apply list_elem_of_In].
Qed.

Lemma labels_determine (l : list (StructField * GoValue))
    (fv fv' : StructField * GoValue) :
  NoDup (map (fun fv => fsLabel fv.1) l) →
  fv ∈ l → fv' ∈ l → fsLabel fv.1 = fsLabel fv'.1 → fv = fv'.
Proof.
  induction l as [|fv0 rest IH]; intros Hnd Hin Hin' Heq.
  - by apply elem_of_nil in Hin.
  - cbn [map] in Hnd. apply NoDup_cons in Hnd as [Hfresh Hnd].
    apply elem_of_cons in Hin as [->|Hin]; apply elem_of_cons in Hin' as [->|Hin'].
    + done.
    + exfalso. apply Hfresh. rewrite Heq. apply list_elem_of_fmap. by exists fv'.
    + exfalso. apply Hfresh. rewrite <- Heq. apply list_elem_of_fmap. by exists fv.
    + by apply IH.
Qed.

(** The map that [structToMap] makes of a struct whose fields are exported.
    Every entry comes from a field that is kept, under the label of the field:
    a field is left out when its tag is [-], or when its tag says [omitempty]
    and its value is empty, and is kept otherwise, also when it holds the zero
    value.  When no two fields have the same label, the map holds under the
    label of each kept field the value of that field, and nothing under the
    label of a field that is left out. *)
Theorem struct_to_map_entries (fields : list (StructField * GoValue)) :
  forallb (fun fv => IsExported fv.1) fields = true →
  ∃ m,
    structToMap (VStruct fields) = Ok m
    ∧ (∀ k v, m !! k = Some v →
         ∃ field, (field, v) ∈ fields ∧ fsLabel field = k ∧ fsKept (field, v) = true)
    ∧ (NoDup (map (fun fv => fsLabel fv.1) fields) →
       ∀ field v, (field, v) ∈ fields →
         m !! fsLabel field = if fsKept (field, v) then Some v else None).
Proof.
  intros Hex. unfold structToMap. cbn [indirect].
  rewrite structToMapLoop_spec by done. eexists. split; [reflexivity|]. split.
  - intros k v Hlook.
    destruct (fold_insert_inv _ _ _ _ Hlook) as [Hempty|(field & Hin & Hk)].
    + by rewrite lookup_empty in Hempty.
    + apply list_elem_of_In, filter_In in Hin as [Hin Hkept].
      exists field. split; [by apply list_elem_of_In | done].
  - intros Hnd field v Hin.
    destruct (fsKept (field, v)) eqn:Hkept.
    + apply fold_insert_lookup; [by apply NoDup_labels_filter|].
      apply list_elem_of_In, filter_In. split; [by apply list_elem_of_In | done].
    + rewrite fold_insert_absent; [by rewrite lookup_empty|].
      intros Hlabel. apply list_elem_of_fmap in Hlabel as (fv' & Heq & Hfv').
      apply list_elem_of_In, filter_In in Hfv' as [Hfv' Hkept'].
      apply list_elem_of_In in Hfv'.
      assert (Hsame : (field, v) = fv') by by apply (labels_determine fields).
      subst fv'. by rewrite Hkept in Hkept'.
Qed.

Lemma struct_to_map_entries_witness :
  structToMap (VStruct [(fsField "ID" "id", VString "i1");
                        (fsField "Secret" "-", VString "s3cret");
                        (fsField "Note" "note,omitempty", VString "");
                        (mkField "Done" [], VBool false)])
  = Ok {["id" := VString "i1"; "Done" := VBool false]}.
Proof.
  destruct (struct_to_map_entries
              [(fsField "ID" "id", VString "i1");
               (fsField "Secret" "-", VString "s3cret");
               (fsField "Note" "note,omitempty", VString "");
               (mkField "Done" [], VBool false)] eq_refl) as (m & Hrun & _).
  rewrite Hrun. vm_compute in Hrun. injection Hrun as <-. vm_compute. reflexivity.
Defined.

(* ===================================================================== *)
(** ** Create, GetById and DeleteById on the document backend *)
(* ===================================================================== *)

Section DocumentStore.
Context `{FirestoreLib}.

Lemma FsCreate_inv (f : FirestoreCollection) (data : GoValue) (w w' : FsWorld)
    (id : string) :
  FsCreate f data w = (Ok id, w') →
  ∃ fields field m,
    indirect data = VStruct fields
    ∧ FieldByName fields "ID" = Some (field, VString id)
    ∧ id ≠ ""
    ∧ structToMap data = Ok m
    ∧ client w = Some false
    ∧ validDocumentID id = true
    ∧ w' = mkFsWorld (client w)
             (<[collectionName f := <[id := m]> (collectionDocs w (collectionName f))]>
                (documents w)).
Proof.
  unfold FsCreate. destruct (client w) as [closed|] eqn:Hclient; [|done].
  destruct (indirect data) as [| | | | | |tm| | |fields] eqn:Hdata; try done.
  cbn [kindOf].
  destruct (FieldByName fields "ID") as [[field idField]|] eqn:Hid; [|done].
  destruct idField as [| | | |docID| | | | |]; try done.
  case_bool_decide as Hempty; [done|].
  destruct (structToMap data) as [m|e|msg] eqn:Hmap; try done.
  unfold docSet. destruct closed; [done|].
  destruct (validDocumentID docID) eqn:Hvalid; [|done].
  cbn [negb]. intros [= <- <-].
  exists fields, field, m. by rewrite Hclient.
Qed.

(** What a successful [Create] has done on the document backend: the document
    stored under the value of the [ID] field of the struct is the map that
    [structToMap] makes of the struct, whether or not a document was stored
    under that identifier before; every other document is as it was. *)
Theorem document_create_stores (f : FirestoreCollection) (data : GoValue)
    (w w' : FsWorld) (id : string) :
  FsCreate f data w = (Ok id, w') →
  ∃ fields field m,
    indirect data = VStruct fields
    ∧ FieldByName fields "ID" = Some (field, VString id)
    ∧ id ≠ ""
    ∧ structToMap data = Ok m
    ∧ collectionDocs w' (collectionName f)
      = <[id := m]> (collectionDocs w (collectionName f))
    ∧ (∀ other, other ≠ collectionName f →
         collectionDocs w' other = collectionDocs w other)
    ∧ client w' = client w.
Proof.
  intros Hrun.
  destruct (FsCreate_inv _ _ _ _ _ Hrun)
    as (fields & field & m & Hdata & Hid & Hne & Hmap & _ & _ & ->).
  exists fields, field, m. repeat (split; [done|]). split; [|split; [|done]].
  - unfold collectionDocs at 1. cbn [documents]. by rewrite lookup_insert_eq.
  - intros other Hother. unfold collectionDocs at 1. cbn [documents].
    by rewrite lookup_insert_ne.
Qed.

(** After a successful [Create], [GetById] of the identifier decodes the map
    that was stored; [DeleteById] of it succeeds and leaves the other
    documents; and [GetById] then reports that the document is not found. *)
Theorem document_create_get_delete (f : FirestoreCollection) (data result : GoValue)
    (w w1 : FsWorld) (id : string) :
  FsCreate f data w = (Ok id, w1) →
  ∃ m w2,
    structToMap data = Ok m
    ∧ FsGetById f id result w1
      = match DataTo m result with
        | inl err => Err (Adhoc ("failed to map document data: " +:+ err))
        | inr r => Ok r
        end
    ∧ FsDeleteById f id w1 = (Ok tt, w2)
    ∧ collectionDocs w2 (collectionName f) = delete id (collectionDocs w (collectionName f))
    ∧ FsGetById f id result w2 = Err (Adhoc ("document " +:+ id +:+ " not found")).
Proof.
  intros Hrun.
  destruct (FsCreate_inv _ _ _ _ _ Hrun)
    as (fields & field & m & Hdata & Hid & Hne & Hmap & Hclient & Hvalid & ->).
  set (name := collectionName f) in *.
  set (docs := collectionDocs w name) in *.
  exists m,
    (mkFsWorld (client w)
       (<[name := delete id (<[id := m]> docs)]>
          (<[name := <[id := m]> docs]> (documents w)))).
  split; [done|]. split; [|split; [|split]].
  - unfold FsGetById, docGet. cbn [client]. rewrite Hclient, Hvalid. cbn [negb].
    unfold collectionDocs. cbn [documents]. fold name.
    rewrite lookup_insert_eq. cbn [default from_option Datatypes.id].
    by rewrite lookup_insert_eq.
  - unfold FsDeleteById, docDelete. cbn [client]. rewrite Hclient, Hvalid. cbn [negb].
    cbn [documents]. fold name. by rewrite lookup_insert_eq.
  - unfold collectionDocs at 1. cbn [documents].
    rewrite lookup_insert_eq. cbn [default from_option Datatypes.id].
    by rewrite delete_insert_eq.
  - unfold FsGetById, docGet. cbn [client]. rewrite Hclient, Hvalid. cbn [negb].
    unfold collectionDocs. cbn [documents]. fold name.
    rewrite lookup_insert_eq. cbn [default from_option Datatypes.id].
    rewrite delete_insert_eq, lookup_delete_eq.
    cbn [code]. by rewrite bool_decide_eq_true_2.
Qed.

End DocumentStore.

Lemma document_create_stores_witness :
  ∃ w',
    FsCreate (H := exampleFirestoreLib) (mkFirestoreCollection "items")
      (VPtr (Some (exampleItem "i1" "oat milk"))) exampleFsWorld
    = (Ok "i1", w')
    ∧ collectionDocs w' "items" = {["i1" := {["name" := VString "oat milk"]}]}.
Proof.
  set (run := FsCreate (H := exampleFirestoreLib) (mkFirestoreCollection "items")
                (VPtr (Some (exampleItem "i1" "oat milk"))) exampleFsWorld).
  assert (Hfst : run.1 = Ok "i1") by (vm_compute; reflexivity).
  assert (Hrun : run = (Ok "i1", run.2)) by (rewrite <- Hfst; by destruct run).
  destruct (document_create_stores (H := exampleFirestoreLib) _ _ _ _ _ Hrun)
    as (fields & field & m & _ & _ & _ & Hmap & Hdocs & _).
  exists run.2. split; [exact Hrun|]. cbn [collectionName] in Hdocs. rewrite Hdocs.
  vm_compute in Hmap. injection Hmap as <-. vm_compute. reflexivity.
Defined.

Lemma document_create_get_delete_witness :
  ∃ w1 w2,
    FsCreate (H := exampleFirestoreLib) (mkFirestoreCollection "items")
      (exampleItem "i2" "bread") exampleFsWorld
    = (Ok "i2", w1)
    ∧ FsDeleteById (H := exampleFirestoreLib) (mkFirestoreCollection "items") "i2" w1
      = (Ok tt, w2)
    ∧ FsGetById (H := exampleFirestoreLib) (mkFirestoreCollection "items") "i2"
        (VPtr (Some (exampleItem "" ""))) w2
      = Err (Adhoc "document i2 not found").
Proof.
  set (run := FsCreate (H := exampleFirestoreLib) (mkFirestoreCollection "items")
                (exampleItem "i2" "bread") exampleFsWorld).
  assert (Hfst : run.1 = Ok "i2") by (vm_compute; reflexivity).
  assert (Hrun : run = (Ok "i2", run.2)) by (rewrite <- Hfst; by destruct run).
  destruct (document_create_get_delete (H := exampleFirestoreLib) _ _
              (VPtr (Some (exampleItem "" ""))) _ _ _ Hrun)
    as (m & w2 & _ & _ & Hdel & _ & Hget).
  exists run.2, w2. by repeat split.
Defined.

(* ===================================================================== *)
(** ** Queries on the document backend *)
(* ===================================================================== *)

Lemma FieldByName_name (fields : list (StructField * GoValue)) (name : string)
    (field : StructField) (v : GoValue) :
  FieldByName fields name = Some (field, v) → Name field = name.
Proof.
  induction fields as [|[f0 v0] rest IH]; [done|].
  cbn [FieldByName]. case_bool_decide; [by intros [= <- <-] | exact IH].
Qed.

Lemma FieldByName_SetString (fields : list (StructField * GoValue)) (name s : string)
    (field : StructField) (v : GoValue) :
  FieldByName fields name = Some (field, v) →
  FieldByName (SetString fields name s) name = Some (field, VString s).
Proof.
  induction fields as [|[f0 v0] rest IH]; [done|].
  cbn [FieldByName SetString]. case_bool_decide as Hn.
  - intros [= <- <-]. cbn [FieldByName]. by rewrite bool_decide_eq_true_2.
  - intros Hrest. cbn [FieldByName]. rewrite bool_decide_eq_false_2 by done. by apply IH.
Qed.

Section DocumentQueries.
Context `{FirestoreLib}.

Lemma queryDocuments_sound (closed : bool) (w : FsWorld) (name : string)
    (filter : Filter) (docs : list (string * Document)) :
  queryDocuments closed w name filter = inr docs →
  closed = false
  ∧ ∀ id doc, (id, doc) ∈ docs ↔
      collectionDocs w name !! id = Some doc ∧ docMatches filter doc = true.
Proof.
  unfold queryDocuments. destruct closed; [done|].
  destruct (forallb _ filter); [|done]. cbn [negb]. intros [= <-].
  split; [done|]. intros id doc. rewrite list_elem_of_In, filter_In.
  rewrite <- list_elem_of_In, elem_of_map_to_list. done.
Qed.

Lemma appendDocs_items (elemType elem : GoValue) (docs : list (string * Document)) :
  ∀ (xs : option (list GoValue)) (e : GoValue) (items : list GoValue),
  appendDocs docs elemType (VSlice elem xs) = Ok (VSlice e (Some items)) →
  e = elem
  ∧ ∃ new,
      items = default [] xs ++ new
      ∧ length new = length docs
      ∧ ∀ item fields field s,
          item ∈ new → item = VStruct fields →
          kindOf elemType = KStruct →
          FieldByName fields "ID" = Some (field, VString s) →
          ∃ doc, (s, doc) ∈ docs.
Proof.
  induction docs as [|[refID doc] rest IH]; intros xs e items Hrun.
  - cbn in Hrun. injection Hrun as <- Hxs. split; [done|]. exists [].
    rewrite app_nil_r. split; [by rewrite Hxs|]. split; [done|].
    intros item fields field s Hin. by apply elem_of_nil in Hin.
  - cbn [appendDocs] in Hrun.
    destruct (DataTo doc (VPtr (Some (zeroOf elemType)))) as [err|item0]; [done|].
    cbn [Append] in Hrun.
    destruct (IH _ _ _ Hrun) as (-> & new & -> & Hlen & Hids).
    split; [done|].
    eexists (_ :: new). split; [|split].
    + cbn [default from_option Datatypes.id]. by rewrite <- app_assoc.
    + cbn [length]. by rewrite Hlen.
    + intros item fields field s Hin Hitem Hk Hid.
      apply elem_of_cons in Hin as [->|Hin].
      * exists doc. rewrite Hk in Hitem.
        destruct item0 as [| | | | | | | | |fields0]; try done.
        destruct (FieldByName fields0 "ID") as [[field0 v0]|] eqn:Hid0.
        -- assert (Hset : CanSet field0 = true).
           { unfold CanSet, IsExported.
             by rewrite (FieldByName_name _ _ _ _ Hid0). }
           destruct v0; try (injection Hitem as <-; rewrite Hid0 in Hid; done).
           rewrite Hset in Hitem. injection Hitem as <-.
           rewrite (FieldByName_SetString _ _ refID _ _ Hid0) in Hid.
           injection Hid as _ <-. by left.
        -- injection Hitem as <-. by rewrite Hid0 in Hid.
      * destruct (Hids item fields field s Hin Hitem Hk Hid) as [doc' Hdoc'].
        exists doc'. by right.
Qed.

(** [Count] and [GetAllByCondition] agree on the document backend: [Count]
    returns the number of items that [GetAllByCondition] appends to the
    results. *)
Theorem document_count_agrees (f : FirestoreCollection) (filter : Filter)
    (elem e : GoValue) (xs : option (list GoValue)) (items : list GoValue)
    (w : FsWorld) :
  FsGetAllByCondition f filter (VPtr (Some (VSlice elem xs))) w
  = Ok (VSlice e (Some items)) →
  ∃ new,
    items = default [] xs ++ new
    ∧ FsCount f filter w = Ok (Z.of_nat (length new)).
Proof.
  unfold FsGetAllByCondition, FsCount.
  destruct (client w) as [closed|]; [|done].
  destruct (queryDocuments closed w (collectionName f) filter) as [err|docs]; [done|].
  cbn [sliceElem]. intros Hrun.
  destruct (appendDocs_items _ _ _ _ _ _ Hrun) as (_ & new & Hitems & Hlen & _).
  exists new. split; [done|]. by rewrite Hlen.
Qed.

(** The items that [GetAllByCondition] appends carry the identifier of the
    document they were read from: when the element type is a struct with a
    string field [ID], the [ID] of each appended item is the identifier of a
    stored document that satisfies the filter, whatever the document holds
    under its own labels. *)
Theorem document_items_carry_identifier (f : FirestoreCollection) (filter : Filter)
    (elem e : GoValue) (items : list GoValue) (w : FsWorld) :
  FsGetAllByCondition f filter (VPtr (Some (VSlice elem None))) w
  = Ok (VSlice e (Some items)) →
  kindOf elem = KStruct →
  ∀ fields field s,
    VStruct fields ∈ items →
    FieldByName fields "ID" = Some (field, VString s) →
    ∃ doc, collectionDocs w (collectionName f) !! s = Some doc
           ∧ docMatches filter doc = true.
Proof.
  unfold FsGetAllByCondition.
  destruct (client w) as [closed|]; [|done].
  destruct (queryDocuments closed w (collectionName f) filter) as [err|docs] eqn:Hq;
    [done|].
  cbn [sliceElem]. intros Hrun Hk fields field s Hin Hid.
  destruct (appendDocs_items _ _ _ _ _ _ Hrun) as (_ & new & -> & _ & Hids).
  cbn [default from_option Datatypes.id app] in Hin.
  destruct (Hids _ fields field s Hin eq_refl Hk Hid) as [doc Hdoc].
  exists doc. by apply (queryDocuments_sound _ _ _ _ _ Hq).
Qed.

(** [GetOne] on an open client, for a filter of valid field paths: it returns
    the decoding of a stored document that satisfies the filter, or the
    NotFound sentinel itself, and this exactly when no stored document
    satisfies the filter, or the error of the decoding. *)
Theorem document_get_one (f : FirestoreCollection) (filter : Filter)
    (result : GoValue) (w : FsWorld) :
  client w = Some false →
  forallb (fun '(field, _) => validFieldPath field) filter = true →
  match FsGetOne f filter result w with
  | Ok r =>
      ∃ id doc, collectionDocs w (collectionName f) !! id = Some doc
                ∧ docMatches filter doc = true
                ∧ DataTo doc result = inr r
  | Err e =>
      (e = Bare ErrNotFound
       ∧ ∀ id doc, collectionDocs w (collectionName f) !! id = Some doc →
                   docMatches filter doc = false)
      ∨ (∃ id doc msg, collectionDocs w (collectionName f) !! id = Some doc
                       ∧ docMatches filter doc = true
                       ∧ DataTo doc result = inl msg
                       ∧ e = Adhoc ("failed to map document data: " +:+ msg))
  | Panic _ => False
  end.
Proof.
  intros Hclient Hpaths. unfold FsGetOne. rewrite Hclient.
  destruct (queryDocuments false w (collectionName f) filter) as [err|docs] eqn:Hq.
  { unfold queryDocuments in Hq. by rewrite Hpaths in Hq. }
  destruct (queryDocuments_sound _ _ _ _ _ Hq) as [_ Hdocs].
  destruct docs as [|[id doc] rest]; cbn [take].
  - left. split; [done|]. intros id doc Hdoc.
    destruct (docMatches filter doc) eqn:Hm; [|done].
    assert (Hin : (id, doc) ∈ []) by by apply Hdocs.
    by apply elem_of_nil in Hin.
  - assert (Hin : (id, doc) ∈ (id, doc) :: rest) by by left.
    apply Hdocs in Hin as [Hdoc Hm].
    destruct (DataTo doc result) as [msg|r] eqn:Hdec.
    + right. by exists id, doc, msg.
    + by exists id, doc.
Qed.

End DocumentQueries.

Lemma document_count_agrees_witness :
  FsGetAllByCondition (H := exampleFirestoreLib) (mkFirestoreCollection "items")
    [("name", VString "milk")]
    (VPtr (Some (VSlice (exampleItem "" "") (Some [exampleItem "i0" "bread"]))))
    exampleFsWorld
  = Ok (VSlice (exampleItem "" "") (Some [exampleItem "i0" "bread"; exampleItem "i1" "milk"]))
  ∧ FsCount (H := exampleFirestoreLib) (mkFirestoreCollection "items")
      [("name", VString "milk")] exampleFsWorld
    = Ok 1%Z.
Proof.
  assert (Hrun : FsGetAllByCondition (H := exampleFirestoreLib)
                   (mkFirestoreCollection "items") [("name", VString "milk")]
                   (VPtr (Some (VSlice (exampleItem "" "")
                                       (Some [exampleItem "i0" "bread"]))))
                   exampleFsWorld
                 = Ok (VSlice (exampleItem "" "")
                         (Some [exampleItem "i0" "bread"; exampleItem "i1" "milk"])))
    by (vm_compute; reflexivity).
  split; [exact Hrun|].
  destruct (document_count_agrees (H := exampleFirestoreLib) _ _ _ _ _ _ _ Hrun)
    as (new & Hitems & Hcount).
  rewrite Hcount. cbn [default from_option Datatypes.id app] in Hitems.
  by injection Hitems as <-.
Defined.

Lemma document_items_carry_identifier_witness :
  FsGetAllByCondition (H := exampleFirestoreLib) (mkFirestoreCollection "items")
    [("name", VString "milk")] (VPtr (Some (VSlice (exampleItem "" "") None)))
    exampleFsWorld
  = Ok (VSlice (exampleItem "" "") (Some [exampleItem "i1" "milk"]))
  ∧ ∃ doc, collectionDocs exampleFsWorld "items" !! "i1" = Some doc
           ∧ docMatches (H := exampleFirestoreLib) [("name", VString "milk")] doc = true.
Proof.
  assert (Hrun : FsGetAllByCondition (H := exampleFirestoreLib)
                   (mkFirestoreCollection "items") [("name", VString "milk")]
                   (VPtr (Some (VSlice (exampleItem "" "") None))) exampleFsWorld
                 = Ok (VSlice (exampleItem "" "") (Some [exampleItem "i1" "milk"])))
    by (vm_compute; reflexivity).
  split; [exact Hrun|].
  apply (document_items_carry_identifier (H := exampleFirestoreLib) _ _ _ _ _ _ Hrun
           eq_refl [(fsField "ID" "-", VString "i1"); (fsField "Name" "name", VString "milk")]
           (fsField "ID" "-") "i1"); [by left | reflexivity].
Defined.

Lemma document_get_one_witness :
  FsGetOne (H := exampleFirestoreLib) (mkFirestoreCollection "items")
    [("name", VString "milk")] (VPtr (Some (exampleItem "" ""))) exampleFsWorld
  = Ok (exampleItem "" "milk")
  ∧ ∃ id doc, collectionDocs exampleFsWorld "items" !! id = Some doc
              ∧ docMatches (H := exampleFirestoreLib) [("name", VString "milk")] doc = true.
Proof.
  pose proof (document_get_one (H := exampleFirestoreLib) (mkFirestoreCollection "items")
                [("name", VString "milk")] (VPtr (Some (exampleItem "" "")))
                exampleFsWorld eq_refl eq_refl) as Hone.
  assert (Hrun : FsGetOne (H := exampleFirestoreLib) (mkFirestoreCollection "items")
                   [("name", VString "milk")] (VPtr (Some (exampleItem "" "")))
                   exampleFsWorld
                 = Ok (exampleItem "" "milk")) by (vm_compute; reflexivity).
  split; [exact Hrun|]. rewrite Hrun in Hone.
  destruct Hone as (id & doc & Hdoc & Hm & _). by exists id, doc.
Defined.

(* ===================================================================== *)
(** ** UpdateById on the document backend *)
(* ===================================================================== *)

Section DocumentUpdateEffect.
Context `{FirestoreLib} `{FirestoreWriter}.

Lemma docSetMerge_effect (closed : bool) (w w' : FsWorld) (name id : string)
    (m : Document) :
  docSetMerge closed w name id m = (None, w') →
  (∃ stored,
     collectionDocs w' name !! id = Some stored
     ∧ (∀ k x, m !! k = Some x → stored !! k = Some x)
     ∧ (∀ k, m !! k = None → stored !! k = default ∅ (collectionDocs w name !! id) !! k)
     ∧ (collectionDocs w name !! id = None → stored = m))
  ∧ (∀ other, other ≠ id → collectionDocs w' name !! other = collectionDocs w name !! other)
  ∧ (∀ name', name' ≠ name → collectionDocs w' name' = collectionDocs w name')
  ∧ client w' = client w.
Proof.
  unfold docSetMerge. destruct closed; [done|]. destruct (validDocumentID id); [|done].
  cbn [negb]. intros [= <-].
  assert (Hdocs : collectionDocs
                    (mkFsWorld (client w)
                       (<[name := <[id := m ∪ default ∅ (collectionDocs w name !! id)]>
                                    (collectionDocs w name)]> (documents w))) name
                  = <[id := m ∪ default ∅ (collectionDocs w name !! id)]>
                      (collectionDocs w name)).
  { unfold collectionDocs at 1. cbn [documents]. by rewrite lookup_insert_eq. }
  rewrite Hdocs. split; [|split; [|split; [|done]]].
  - exists (m ∪ default ∅ (collectionDocs w name !! id)).
    split; [by rewrite lookup_insert_eq|]. split; [|split].
    + intros k x Hk. by apply lookup_union_Some_l.
    + intros k Hk. by apply lookup_union_r.
    + intros ->. cbn [default from_option Datatypes.id]. apply (right_id_L ∅ (∪)).
  - intros other Hother. by rewrite lookup_insert_ne.
  - intros name' Hname. unfold collectionDocs at 1. cbn [documents].
    by rewrite lookup_insert_ne.
Qed.

(** [UpdateById] on the document backend writes over what is stored and does
    not ask whether the document exists.  When it succeeds for a map, or for a
    struct of which [structToMap] makes a map, the stored document holds every
    entry of that map and, under the other labels, what it held before; a
    document that did not exist is made, and holds that map.  The other
    documents of the collection and the other collections stay as they were.
    Whatever the data, an error of [UpdateById], be it for the missing client,
    the closed client, the identifier or the conversion, never wraps a
    sentinel, NotFound included, and leaves the store as it was. *)
Theorem document_update_merges (f : FirestoreCollection) (id : string) (w : FsWorld) :
  (∀ data v m w',
     data = DataMap m ∨ (data = DataOther v ∧ structToMap v = Ok m) →
     FsUpdateById f id data w = (Ok tt, w') →
     let docs := collectionDocs w (collectionName f) in
     let docs' := collectionDocs w' (collectionName f) in
     (∃ stored,
        docs' !! id = Some stored
        ∧ (∀ k x, m !! k = Some x → stored !! k = Some x)
        ∧ (∀ k, m !! k = None → stored !! k = default ∅ (docs !! id) !! k)
        ∧ (docs !! id = None → stored = m))
     ∧ (∀ other, other ≠ id → docs' !! other = docs !! other)
     ∧ (∀ name, name ≠ collectionName f → collectionDocs w' name = collectionDocs w name)
     ∧ client w' = client w)
  ∧ (∀ data e w0, FsUpdateById f id data w = (Err e, w0) →
                  isTaxonomyError e = false ∧ w0 = w).
Proof.
  split.
  - intros data v m w' Hdata Hrun docs docs'.
    apply (docSetMerge_effect (default true (client w)) w w' (collectionName f) id m).
    unfold FsUpdateById in Hrun. destruct (client w) as [closed|]; [|done].
    cbn [default from_option Datatypes.id].
    destruct Hdata as [->|[-> Hmap]]; [|rewrite Hmap in Hrun];
      by destruct (docSetMerge closed w (collectionName f) id m) as [[err|] w1];
        [|injection Hrun as <-].
  - intros data e w0. unfold FsUpdateById.
    destruct (client w) as [closed|]; [|by intros [= <- <-]].
    destruct data as [m0|v0].
    + unfold docSetMerge. destruct closed; [by intros [= <- <-]|].
      destruct (validDocumentID id); [done | by intros [= <- <-]].
    + destruct (structToMap v0) as [m0|e0|msg]; [| |done].
      * unfold docSetMerge. destruct closed; [by intros [= <- <-]|].
        destruct (validDocumentID id); [done | by intros [= <- <-]].
      * destruct (toProtoDocument v0) as [err|doc]; [by intros [= <- <-]|].
        unfold docSet. destruct closed; [by intros [= <- <-]|].
        destruct (validDocumentID id); [done | by intros [= <- <-]].
Qed.

End DocumentUpdateEffect.

Lemma document_update_merges_witness :
  (∃ w',
     FsUpdateById (H := exampleFirestoreLib) (H0 := exampleFirestoreWriter)
       (mkFirestoreCollection "items") "i9" (DataOther (exampleItem "i9" "tea"))
       exampleFsWorld
     = (Ok tt, w')
     ∧ collectionDocs w' "items" !! "i9" = Some {["name" := VString "tea"]}
     ∧ collectionDocs w' "items" !! "i1" = Some {["name" := VString "milk"]}
     ∧ collectionDocs w' "users" = collectionDocs exampleFsWorld "users")
  ∧ (∃ e,
       FsUpdateById (H := exampleFirestoreLib) (H0 := exampleFirestoreWriter)
         (mkFirestoreCollection "items") "" (DataMap ∅) exampleFsWorld
       = (Err e, exampleFsWorld)
       ∧ isTaxonomyError e = false).
Proof.
  destruct (document_update_merges (H := exampleFirestoreLib)
              (H0 := exampleFirestoreWriter) (mkFirestoreCollection "items") "i9"
              exampleFsWorld) as [Hok _].
  destruct (document_update_merges (H := exampleFirestoreLib)
              (H0 := exampleFirestoreWriter) (mkFirestoreCollection "items") ""
              exampleFsWorld) as [_ Herr].
  split.
  - set (run := FsUpdateById (H := exampleFirestoreLib) (H0 := exampleFirestoreWriter)
                  (mkFirestoreCollection "items") "i9"
                  (DataOther (exampleItem "i9" "tea")) exampleFsWorld).
    assert (Hfst : run.1 = Ok tt) by (vm_compute; reflexivity).
    assert (Hrun : run = (Ok tt, run.2)) by (rewrite <- Hfst; by destruct run).
    assert (Hmap : structToMap (exampleItem "i9" "tea") = Ok {["name" := VString "tea"]})
      by (vm_compute; reflexivity).
    destruct (Hok _ (exampleItem "i9" "tea") _ _ (or_intror (conj eq_refl Hmap)) Hrun)
      as ((stored & Hstored & _ & _ & Hnew) & Hother & Hcolls & _).
    exists run.2. split; [exact Hrun|]. split; [|split].
    + cbn [collectionName] in Hstored. rewrite Hstored. f_equal. by apply Hnew.
    + cbn [collectionName] in Hother. by rewrite Hother.
    + by apply Hcolls.
  - eexists. split; [vm_compute; reflexivity|].
    eapply (Herr (DataMap ∅) _ exampleFsWorld). vm_compute. reflexivity.
Defined.

(** ** The services on top of the collections *)

Section Services.
Context `{Platform} `{FirestoreLib}.

Lemma extract_new_reminder (userID : string) (cache : Cache) :
  extractFieldsForInsert
    (VPtr (Some (Reminder "" "" "" false userID "" zeroTime zeroTime))) "id" cache
  = (Ok (match userID with
         | "" => mkInsertFields [] [] [] ""
         | _ => mkInsertFields ["user_id"] ["?"] [VString userID] ""
         end), cache).
Proof. destruct userID; vm_compute; reflexivity. Qed.

Lemma notNullViolation_absent (t : Table) (cols : list string) (args : list SqlValue)
    (col : Column) :
  col ∈ tcols t →
  cnotnull col = true →
  inserted cols args (cname col) = None →
  ∃ c, notNullViolation t
         (map (fun col => default SNull (inserted cols args (cname col))) (tcols t))
       = Some c.
Proof.
  intros Hin Hnn Hins. unfold notNullViolation.
  destruct (find _ (tcols t)) as [c|] eqn:Hfind; [eexists; reflexivity|]. exfalso.
  pose proof (find_none _ _ Hfind col (proj1 (list_elem_of_In _ _) Hin)) as Hcol. cbn beta in Hcol.
  rewrite Hnn in Hcol. unfold columnNames in Hcol.
  rewrite (cell_map (tcols t) (fun c => default SNull (inserted cols args c))) in Hcol.
  - by rewrite Hins in Hcol.
  - apply list_elem_of_fmap. by exists col.
Qed.

Lemma insert_user_id_fails (db : SqlDB) (userID : string) :
  (∀ t, lookupTable (tables db) "reminders" = Some t →
        ∃ col, col ∈ tcols t ∧ cname col = "title" ∧ cnotnull col = true) →
  ∃ detail,
    ExecContext db "INSERT INTO reminders (user_id) VALUES (?)" [VString userID]
    = (inl detail, db).
Proof.
  intros Htitle. unfold ExecContext. destruct (closed db); [by eexists|].
  cbn [convertArgs convertValue map].
  assert (Hparse : parse (lex "INSERT INTO reminders (user_id) VALUES (?)")
                   = Some (SInsert "reminders" ["user_id"] 1))
    by (vm_compute; reflexivity).
  unfold prepare. rewrite Hparse. destruct (forallb isName _); [|by eexists].
  cbn [runExec]. destruct (lookupTable (tables db) "reminders") as [t|] eqn:Ht;
    [|by eexists].
  destruct (Htitle t eq_refl) as (col & Hin & Hname & Hnn).
  change (negb (bool_decide (length ["user_id"] = 1%nat))) with false.
  change (argumentCount 1 (length [bindValue (DString userID)])) with (@None string).
  cbn iota. unfold execInsert.
  destruct (undeclared (columnNames t) ["user_id"]); [by eexists|].
  destruct (notNullViolation_absent t ["user_id"] [bindValue (DString userID)] col Hin Hnn)
    as (c & ->); [by rewrite Hname|].
  by eexists.
Qed.

Lemma new_reminder_rejected (userID : string) (w : World) :
  (∀ db t, conn w = Some db →
           lookupTable (tables db) "reminders" = Some t →
           ∃ col, col ∈ tcols t ∧ cname col = "title" ∧ cnotnull col = true) →
  ∃ e w',
    Create (Collection "reminders")
      (VPtr (Some (Reminder "" "" "" false userID "" zeroTime zeroTime))) w
    = (Err e, w')
    ∧ wrapsSentinel e = true ∧ conn w' = conn w.
Proof.
  intros Htitle. unfold Create, GetConn.
  destruct (conn w) as [db|] eqn:Hconn; [|by eexists _, _].
  change (primaryKey (Collection "reminders")) with "id".
  rewrite extract_new_reminder.
  destruct userID as [|a s]; cbn iota.
  - destruct (ExecContext_syntax db
                (insertQuery (Collection "reminders") (mkInsertFields [] [] [] "")) [])
      as (detail & Hexec & Hunique); [by vm_compute|done|].
    cbn [values]. rewrite Hexec, Hunique. by eexists _, _.
  - destruct (insert_user_id_fails db (String a s) (fun t => Htitle db t eq_refl))
      as (detail & Hexec).
    change (insertQuery _ _) with "INSERT INTO reminders (user_id) VALUES (?)".
    cbn [values]. rewrite Hexec.
    destruct (Str.Contains detail "UNIQUE constraint failed"); by eexists _, _.
Qed.

(** reminderService.CreateReminder never stores a reminder.  It hands the
    repository a reminder that has the user's identifier and no other field
    set.  On the relational backend, when the [reminders] table (if there is
    one) declares [title] NOT NULL, as the migration does, the call returns an
    error that wraps a sentinel and the tables stay as they were; on the
    document backend the call returns an error and writes nothing, and with a
    client in place the error is that the ID field is empty. *)
Theorem create_reminder_never_succeeds (userID : string) (data : GoValue)
    (w : World) (f : FirestoreCollection) (fw : FsWorld) :
  (∀ db t, conn w = Some db →
           lookupTable (tables db) "reminders" = Some t →
           ∃ col, col ∈ tcols t ∧ cname col = "title" ∧ cnotnull col = true) →
  (∃ e w',
     CreateReminder (sqliteHandle (Collection "reminders")) userID data w = (Err e, w')
     ∧ wrapsSentinel e = true ∧ conn w' = conn w)
  ∧ (∃ e,
       CreateReminder (firestoreHandle f) userID data fw = (Err e, fw)
       ∧ (client fw ≠ None → e = Adhoc "ID field cannot be empty")).
Proof.
  intros Htitle. split.
  - destruct (new_reminder_rejected userID w Htitle) as (e & w' & Hrun & He & Hconn).
    exists e, w'. split; [|done].
    unfold CreateReminder, reminderRepository_Create. cbn [create sqliteHandle].
    by rewrite Hrun.
  - unfold CreateReminder, reminderRepository_Create. cbn [create firestoreHandle].
    unfold FsCreate. destruct (client fw) as [closed|]; [|by eexists].
    eexists. split; [reflexivity|done].
Qed.

End Services.

Lemma create_reminder_never_succeeds_witness :
  (∃ e w',
     CreateReminder (sqliteHandle (H := examplePlatform) (Collection "reminders"))
       "u1" (Reminder "" "buy milk" "" false "" "" zeroTime zeroTime)
       exampleReminderWorld
     = (Err e, w')
     ∧ wrapsSentinel e = true ∧ conn w' = conn exampleReminderWorld)
  ∧ (∃ e,
       CreateReminder
         (firestoreHandle (H := exampleFirestoreLib) (mkFirestoreCollection "reminders"))
         "u1" (Reminder "" "buy milk" "" false "" "" zeroTime zeroTime)
         (mkFsWorld (Some false) ∅)
       = (Err e, mkFsWorld (Some false) ∅)
       ∧ (client (mkFsWorld (Some false) ∅) ≠ None
          → e = Adhoc "ID field cannot be empty")).
Proof.
  apply (create_reminder_never_succeeds (H := examplePlatform)
           (H0 := exampleFirestoreLib)).
  intros db t [= <-] [= <-].
  exists (mkColumn "title" DeclText true false).
  split; [|done]. apply list_elem_of_In. vm_compute. tauto.
Defined.

Section Registration.
Context `{Platform}.

(** authService.Register refuses an address that is taken.  On the relational
    backend, when a row of [users] holds the address in its [email] column,
    the call returns ErrUserAlreadyExist; the hash of the password, the
    generated name and identifier play no part, and the tables stay as they
    were. *)
Theorem register_existing_email (email password : string)
    (hashedPassword : string + string) (username id : string)
    (w : World) (db : SqlDB) (t : Table) (row : list SqlValue) :
  conn w = Some db →
  closed db = false →
  isName "users" = true →
  isName "email" = true →
  lookupTable (tables db) "users" = Some t →
  "email" ∈ columnNames t →
  row ∈ trows t →
  cell (columnNames t) row "email" = SText email →
  ∃ cache',
    Register (sqliteHandle (Collection "users")) email password hashedPassword
      username id w
    = (Err ErrUserAlreadyExist, withConn w cache' db).
Proof.
  intros Hconn Hopen Husers Hemail Ht Hdecl Hrow Hcell.
  pose proof (QueryContext_select db "users" [("email", VString email)] true t
                [DString email] Hopen Husers) as Hq.
  cbn [map fst snd forallb] in Hq. rewrite Hemail in Hq.
  specialize (Hq eq_refl eq_refl Ht ltac:(by repeat constructor)).
  unfold Register, userRepository_GetByEmail. cbn [getOne sqliteHandle].
  unfold GetOne, GetConn. rewrite Hconn.
  change (validateResultType _) with (@None GoError). cbn iota.
  destruct (buildWhereClause [("email", VString email)]) as [whereClause values].
  cbn [fst snd] in Hq. rewrite Hq. cbn [rdata rerr].
  assert (Hmatch : row ∈ matching t [("email", VString email)] [DString email]).
  { unfold matching. apply list_elem_of_In, filter_In. split; [by apply list_elem_of_In|].
    cbn [map fst zip zip_with matchesAll forallb bindValue]. rewrite Hcell.
    cbn [sqlEq]. by rewrite bool_decide_eq_true_2. }
  destruct (matching t [("email", VString email)] [DString email]) as [|first rest];
    [by apply elem_of_nil in Hmatch|].
  change (take 1 (first :: rest)) with [first]. cbn [indirect].
  match goal with
  | |- context [mapRowToStruct ?rows ?r ?elem ?cache] =>
      destruct (mapRowToStruct_ok rows r elem cache) as (user & cache' & ->)
  end.
  by exists cache'.
Qed.

End Registration.

Lemma register_existing_email_witness :
  ∃ cache',
    Register (sqliteHandle (H := examplePlatform) (Collection "users"))
      "ada@example.com" "secret" (inr "hash2") "brave-otter" "u2" usersWorld
    = (Err ErrUserAlreadyExist,
       withConn usersWorld cache' (mkSqlDB false [("users", usersWithAda)])).
Proof.
  apply (register_existing_email (H := examplePlatform) "ada@example.com" "secret"
           (inr "hash2") "brave-otter" "u2" usersWorld
           (mkSqlDB false [("users", usersWithAda)]) usersWithAda
           [SText "u1"; SText "ada"; SText "ada@example.com"; SText "hash";
            SText "user"; SNull; SNull]
           eq_refl eq_refl eq_refl eq_refl eq_refl).
  - apply list_elem_of_In. vm_compute. tauto.
  - apply list_elem_of_In. vm_compute. tauto.
  - reflexivity.
Defined.

Section DocumentRegistration.
Context `{FirestoreLib}.

Lemma structToMap_User (ID Username Password Role Email : string)
    (CreatedAt UpdatedAt : Time) :
  structToMap (VPtr (Some (User ID Username Password Role Email CreatedAt UpdatedAt)))
  = Ok (userDocument ID Username Password Role Email CreatedAt UpdatedAt).
Proof. vm_compute. reflexivity. Qed.

(** What authService.Register leaves in the document store.  When the call
    succeeds on the document backend, the password was hashed, and the [users]
    collection holds under the generated identifier a document with the
    identifier, the generated name, the hash and the address, an empty role and
    the zero time in both time fields; the other documents and the other
    collections are as before. *)
Theorem register_stores_document (email password : string)
    (hashedPassword : string + string) (username id : string)
    (w w' : FsWorld) (user : GoValue) :
  Register (firestoreHandle (mkFirestoreCollection "users")) email password
    hashedPassword username id w
  = (Ok user, w') →
  ∃ hashed,
    hashedPassword = inr hashed
    ∧ id ≠ ""
    ∧ collectionDocs w' "users"
      = <[id := userDocument id username hashed "" email zeroTime zeroTime]>
          (collectionDocs w "users")
    ∧ (∀ other, other ≠ "users" → collectionDocs w' other = collectionDocs w other).
Proof.
  unfold Register, userRepository_GetByEmail, userRepository_Create.
  cbn [getOne create firestoreHandle].
  destruct (FsGetOne _ _ _ w) as [found|err|m]; try done.
  destruct (isSentinel err ErrNotFound); [|done].
  destruct hashedPassword as [failure|hashed]; [done|].
  destruct (FsCreate _ _ w) as [[docID|err1|m1] w1] eqn:Hcreate; try done.
  cbn [outcome].
  destruct (FsGetOne _ _ _ w1) as [found|err2|m2]; try done.
  intros [= <- <-].
  destruct (FsCreate_inv _ _ _ _ _ Hcreate)
    as (fields & field & m & Hdata & Hid & Hne & Hmap & _ & _ & ->).
  rewrite structToMap_User in Hmap. injection Hmap as <-.
  cbn [indirect] in Hdata. injection Hdata as <-.
  vm_compute in Hid. injection Hid as _ <-.
  exists hashed. split; [done|]. split; [done|]. split.
  - unfold collectionDocs at 1. cbn [documents collectionName].
    by rewrite lookup_insert_eq.
  - intros other Hother. unfold collectionDocs at 1. cbn [documents collectionName].
    by rewrite lookup_insert_ne.
Qed.

End DocumentRegistration.

Lemma register_stores_document_witness :
  ∃ hashed,
    @inr string string "hash2" = inr hashed
    ∧ "u2" ≠ ""
    ∧ collectionDocs
        (Register (firestoreHandle (H := exampleFirestoreLib)
                     (mkFirestoreCollection "users"))
           "bob@example.com" "secret" (inr "hash2") "brave-otter" "u2"
           (mkFsWorld (Some false) ∅)).2 "users"
      = <["u2" := userDocument "u2" "brave-otter" hashed "" "bob@example.com"
                    zeroTime zeroTime]>
          (collectionDocs (mkFsWorld (Some false) ∅) "users")
    ∧ (∀ other, other ≠ "users" →
         collectionDocs
           (Register (firestoreHandle (H := exampleFirestoreLib)
                        (mkFirestoreCollection "users"))
              "bob@example.com" "secret" (inr "hash2") "brave-otter" "u2"
              (mkFsWorld (Some false) ∅)).2 other
         = collectionDocs (mkFsWorld (Some false) ∅) other).
Proof.
  set (run := Register (firestoreHandle (H := exampleFirestoreLib)
                          (mkFirestoreCollection "users"))
                "bob@example.com" "secret" (inr "hash2") "brave-otter" "u2"
                (mkFsWorld (Some false) ∅)).
  assert (Hfst : run.1 = Ok (VPtr (Some (User "u2" "brave-otter" "hash2" ""
                                            "bob@example.com" zeroTime zeroTime)))) by (vm_compute; reflexivity).
  assert (Hrun : run = (Ok (VPtr (Some (User "u2" "brave-otter" "hash2" ""
                                           "bob@example.com" zeroTime zeroTime))),
                        run.2))
    by (rewrite <- Hfst; by destruct run).
  exact (register_stores_document (H := exampleFirestoreLib) _ _ _ _ _ _ _ _ Hrun).
Defined.
